(** * Geography extraction pipeline: extraction, validation, aggregation

    A shallow embedding of [extract_geographies.py] (the domestic pipeline)
    and [extract_world_geographies.py] (the world pipeline), with the
    properties of the specification stated and proved over it.

    Modelling conventions.
    - A Python [str] is a [string] and the texts of the model are ASCII:
      case conversion and the classes [\s], [\w], [[A-Z]], [[a-z]] are those
      of Python on ASCII characters, and a code from 128 on is a character
      without case that is neither a letter nor a space.
    - A JSON object read as a lookup table is a [gmap string _]; where the
      code iterates over the keys (insertion order) it is an association
      list.  A Python [set] of strings is a [gset string].
    - A dict used as a record keeps its keys as fields; a field of type
      [option _] is a key that may be absent (what [.get] sees as [None]).
      A subscript [d['k']] on an absent key raises [KeyError]: such code
      returns in the [result] monad.
    - A latitude or longitude is a rational; only its truth value (non-zero)
      is ever inspected.
    - [SPACY_AVAILABLE] is [False], so extraction is the regex extraction.
      The database is the list of documents and the collection of records;
      indexes, progress bars and printing are left out.
    - The reference data carry the keys that the setup scripts write: a
      place of the world gazetteer, an entry of the disambiguation index
      and the tables of [states.json] and [countries.json] are records with
      all their fields.  The [KeyError] that the source raises on reference
      data lacking one of them is outside the model; where a statement is
      about a whole run, the success of a run is a hypothesis, not a
      conclusion. *)

From Stdlib Require Import Ascii QArith.
From Stdlib Require String.
From stdpp Require Import gmap strings list fin_maps pretty.

#[local] Set Warnings "-clear-no-such-hyp".
Local Open Scope nat_scope.

(** ** Python strings *)

Module PyStr.

Definition code (c : ascii) : nat := nat_of_ascii c.

Definition is_upper (c : ascii) : bool := (65 <=? code c) && (code c <=? 90).
Definition is_lower (c : ascii) : bool := (97 <=? code c) && (code c <=? 122).
Definition is_digit (c : ascii) : bool := (48 <=? code c) && (code c <=? 57).
Definition is_cased (c : ascii) : bool := is_upper c || is_lower c.

(** [\w]: letters, digits and the underscore. *)
Definition is_word (c : ascii) : bool :=
  is_upper c || is_lower c || is_digit c || (code c =? 95).

(** [\s] and [str.isspace]: tab to carriage return, the four separators
    0x1c-0x1f, and the space. *)
Definition is_space (c : ascii) : bool :=
  ((9 <=? code c) && (code c <=? 13)) || ((28 <=? code c) && (code c <=? 31))
  || (code c =? 32).

Definition lower_char (c : ascii) : ascii :=
  if is_upper c then ascii_of_nat (code c + 32) else c.
Definition upper_char (c : ascii) : ascii :=
  if is_lower c then ascii_of_nat (code c - 32) else c.

Fixpoint lower (s : string) : string :=
  match s with
  | EmptyString => EmptyString
  | String c s' => String (lower_char c) (lower s')
  end.

Fixpoint upper (s : string) : string :=
  match s with
  | EmptyString => EmptyString
  | String c s' => String (upper_char c) (upper s')
  end.

(** [str.title]: a letter that follows a cased letter is lowered, any other
    letter is raised. *)
Fixpoint title_from (prev_cased : bool) (s : string) : string :=
  match s with
  | EmptyString => EmptyString
  | String c s' =>
      String (if prev_cased then lower_char c else upper_char c)
             (title_from (is_cased c) s')
  end.
Definition title (s : string) : string := title_from false s.

Fixpoint lstrip (s : string) : string :=
  match s with
  | String c s' => if is_space c then lstrip s' else s
  | EmptyString => EmptyString
  end.

Fixpoint rstrip (s : string) : string :=
  match s with
  | EmptyString => EmptyString
  | String c s' =>
      match rstrip s' with
      | EmptyString => if is_space c then EmptyString else String c EmptyString
      | r => String c r
      end
  end.

Definition strip (s : string) : string := rstrip (lstrip s).

(** [s.split(sep)] for a one-character separator. *)
Fixpoint split (sep : ascii) (s : string) : list string :=
  match s with
  | EmptyString => [EmptyString]
  | String c s' =>
      if Ascii.eqb c sep then EmptyString :: split sep s'
      else match split sep s' with
           | h :: t => String c h :: t
           | [] => [String c EmptyString]
           end
  end.

(** [sub in s] *)
Fixpoint contains (sub s : string) : bool :=
  String.prefix sub s ||
  match s with
  | EmptyString => false
  | String _ s' => contains sub s'
  end.

(** [s[a:b]] for [0 <= a], [0 <= b]. *)
Definition slice (a b : nat) (s : string) : string := String.substring a (b - a) s.

(** [not s] *)
Definition is_empty (s : string) : bool :=
  match s with EmptyString => true | _ => false end.

End PyStr.

(** ** Python dicts read in insertion order *)

Module PyDict.

Fixpoint get {V} (d : list (string * V)) (k : string) : option V :=
  match d with
  | [] => None
  | (k', v) :: d' => if String.eqb k' k then Some v else get d' k
  end.

Definition mem {V} (d : list (string * V)) (k : string) : bool :=
  match get d k with Some _ => true | None => false end.

Definition keys {V} (d : list (string * V)) : list string := d.*1.

End PyDict.

(** ** The [KeyError] monad *)

Inductive result (A : Type) : Type :=
| Ok (a : A)
| KeyError (k : string).
Arguments Ok {A} a.
Arguments KeyError {A} k.

Definition rbind {A B} (m : result A) (f : A -> result B) : result B :=
  match m with
  | Ok a => f a
  | KeyError k => KeyError k
  end.

#[global] Instance result_bind : MBind result := fun A B f m => rbind m f.
#[global] Instance result_ret : MRet result := fun A a => Ok a.

(** [d['k']] on a record field that may be absent. *)
Definition subscript {A} (k : string) (field : option A) : result A :=
  match field with
  | Some a => Ok a
  | None => KeyError k
  end.

(** ** The fragment of Python's [re] used by the extractors

    A backtracking matcher: alternatives are tried left to right, [*] is
    greedy, and the first way to match wins, as in [re].  Every starred
    expression of the source consumes at least one character per round. *)

Module Re.

Inductive regex : Type :=
| Eps
| Class (p : ascii -> bool)
| Seq (r1 r2 : regex)
| Alt (r1 r2 : regex)
| Star (r : regex)
| Group (n : nat) (r : regex)
| Boundary.

Definition Plus (r : regex) : regex := Seq r (Star r).
Definition Opt (r : regex) : regex := Alt r Eps.
Definition Chr (c : ascii) : regex := Class (Ascii.eqb c).
Definition cat (rs : list regex) : regex := foldr Seq Eps rs.
Definition alt (rs : list regex) : regex :=
  match rs with
  | [] => Class (fun _ => false)
  | r :: rs' => foldl Alt r rs'
  end.

(** A literal string; under [re.IGNORECASE] letters match in either case. *)
Fixpoint Lit (ignorecase : bool) (s : string) : regex :=
  match s with
  | EmptyString => Eps
  | String c s' =>
      Seq (Class (fun x => if ignorecase
                           then Ascii.eqb (PyStr.lower_char x) (PyStr.lower_char c)
                           else Ascii.eqb x c))
          (Lit ignorecase s')
  end.

(** Group number to the span [(start, end)] it matched last. *)
Abbreviation captures := (gmap nat (nat * nat)).

Section Matcher.
Variable text : list ascii.

Definition word_at (i : nat) : bool :=
  match text !! i with Some c => PyStr.is_word c | None => false end.

(** [\b]: exactly one of the two neighbours is a word character. *)
Definition at_boundary (i : nat) : bool :=
  xorb (match i with 0 => false | S j => word_at j end) (word_at i).

Fixpoint exec {R} (r : regex) (i : nat) (caps : captures)
         (k : nat -> captures -> option R) : option R :=
  match r with
  | Eps => k i caps
  | Class p =>
      match text !! i with
      | Some c => if p c then k (S i) caps else None
      | None => None
      end
  | Seq r1 r2 => exec r1 i caps (fun j caps' => exec r2 j caps' k)
  | Alt r1 r2 =>
      match exec r1 i caps k with
      | Some x => Some x
      | None => exec r2 i caps k
      end
  | Star r' =>
      (fix loop (rounds : nat) (i : nat) (caps : captures) : option R :=
         match rounds with
         | 0 => k i caps
         | S rounds' =>
             match exec r' i caps
                     (fun j caps' => if i <? j then loop rounds' j caps' else None)
             with
             | Some x => Some x
             | None => k i caps
             end
         end) (length text - i) i caps
  | Group n r' => exec r' i caps (fun j caps' => k j (<[n := (i, j)]> caps'))
  | Boundary => if at_boundary i then k i caps else None
  end.

(** A match object: [start()], [end()] and the group spans. *)
Record hit := { h_start : nat; h_end : nat; h_groups : captures }.

Definition match_at (r : regex) (i : nat) : option hit :=
  exec r i ∅ (fun j caps => Some {| h_start := i; h_end := j; h_groups := caps |}).

(** [re.finditer]: leftmost matches, each search resuming where the
    previous match ended. *)
Fixpoint scan (r : regex) (steps : nat) (i : nat) : list hit :=
  match steps with
  | 0 => []
  | S steps' =>
      if length text <? i then []
      else match match_at r i with
           | Some h => h :: scan r steps' (if i <? h_end h then h_end h else S i)
           | None => scan r steps' (S i)
           end
  end.
End Matcher.

Definition finditer (r : regex) (text : string) : list hit :=
  scan (String.list_ascii_of_string text) r (S (String.length text)) 0.

(** [match.group(n)] on the searched text. *)
Definition group (text : string) (n : nat) (h : hit) : string :=
  match h_groups h !! n with
  | Some (a, b) => PyStr.slice a b text
  | None => EmptyString
  end.

(** [match.groups()] of a pattern with two groups. *)
Definition groups2 (text : string) (h : hit) : string * string :=
  (group text 1 h, group text 2 h).

Definition upper_letter : regex := Class PyStr.is_upper.
Definition lower_letter : regex := Class PyStr.is_lower.
Definition space : regex := Class PyStr.is_space.

End Re.

(** ** The counting loop shared by both [process_documents]

    Lines 339-379 of [extract_geographies.py] and lines 293-336 of
    [extract_world_geographies.py] are the same loop around a different
    extractor, validator and key. *)

Module Aggregator.

(** A document of the corpus; [_id] is [str(doc['_id'])]. *)
Record document : Type := {
  _id : string;
  title : option string;
  text : option string
}.

(** [doc.get('text', '') or ''], and likewise the title. *)
Definition full_text (doc : document) : string :=
  default EmptyString (title doc) +:+ " " +:+ default EmptyString (text doc).

(** [cursor.limit(limit)] under [if limit:]. *)
Definition limited (limit : option nat) (docs : list document) : list document :=
  match limit with
  | Some (S n) => take (S n) docs
  | _ => docs
  end.

(** A [for] loop whose body may raise. *)
Fixpoint for_each {A S} (body : S → A → result S) (l : list A) (s : S) : result S :=
  match l with
  | [] => Ok s
  | x :: l' => s' ← body s x; for_each body l' s'
  end.

Section Counting.
Context {candidate validated : Type}.
Variable extract_locations : string → list candidate.
Variable validate_and_geocode : candidate → option validated.
Variable has_lat : validated → bool.
Variable canonical_key : validated → result string.

(** A value of [geo_counts]. *)
Record counter : Type := {
  count : nat;
  doc_ids : list string;
  info : option validated
}.

(** The default of the [defaultdict]. *)
Definition fresh : counter := {| count := 0; doc_ids := []; info := None |}.

(** [geo_counts], its keys in insertion order. *)
Definition table : Type := list (string * counter).

(** [geo_counts[key] = f(geo_counts[key])], creating the entry on a miss. *)
Fixpoint modify (key : string) (f : counter → counter) (geo_counts : table) : table :=
  match geo_counts with
  | [] => [(key, f fresh)]
  | (k, c) :: rest =>
      if String.eqb k key then (k, f c) :: rest
      else (k, c) :: modify key f rest
  end.

(** Lines 373-377: the count goes up, the info is replaced, and the
    document id is kept while the count is at most 100. *)
Definition record_hit (v : validated) (doc_id : string) (c : counter) : counter :=
  let n := S (count c) in
  {| count := n;
     doc_ids := if n <=? 100 then doc_ids c ++ [doc_id] else doc_ids c;
     info := Some v |}.

(** The body of the loop over [raw_locations]. *)
Definition count_location (doc_id : string) (acc : gset string * table)
           (loc : candidate) : result (gset string * table) :=
  let '(seen_in_doc, geo_counts) := acc in
  match validate_and_geocode loc with
  | Some v =>
      if has_lat v then
        key ← canonical_key v;
        if decide (key ∈ seen_in_doc) then mret acc
        else mret ({[key]} ∪ seen_in_doc, modify key (record_hit v doc_id) geo_counts)
      else mret acc
  | None => mret acc
  end.

(** The body of the loop over the cursor. *)
Definition count_document (geo_counts : table) (doc : document) : result table :=
  let raw_locations := extract_locations (full_text doc) in
  acc ← for_each (count_location (_id doc)) raw_locations (∅, geo_counts);
  mret acc.2.

Definition count_documents (docs : list document) : result table :=
  for_each count_document docs [].

(** The record of a counter that passes
    [if data['info'] and data['count'] >= 1]. *)
Definition kept (truthy : validated → bool) (data : counter) : option validated :=
  match info data with
  | Some v => if truthy v && (1 <=? count data) then Some v else None
  | None => None
  end.

(** [data['doc_ids'][:10]] *)
Definition sample (data : counter) : list string := take 10 (doc_ids data).

(** *** Reading the loop

    The key and record under which a candidate is counted, if it is
    counted at all; the keys of a document; a table read at a key. *)

Definition entry_of (loc : candidate) : result (option (string * validated)) :=
  match validate_and_geocode loc with
  | Some v =>
      if has_lat v then key ← canonical_key v; mret (Some (key, v))
      else mret None
  | None => mret None
  end.

Fixpoint validated_entries (raw_locations : list candidate)
  : result (list (string * validated)) :=
  match raw_locations with
  | [] => mret []
  | loc :: rest =>
      e ← entry_of loc;
      es ← validated_entries rest;
      mret (match e with Some kv => kv :: es | None => es end)
  end.

(** The canonical keys of the extracted and validated candidates of a
    document, in order and with repetitions. *)
Definition doc_keys (doc : document) : result (list string) :=
  es ← validated_entries (extract_locations (full_text doc));
  mret (es.*1).

Definition counter_of (geo_counts : table) (key : string) : counter :=
  default fresh (PyDict.get geo_counts key).
Definition count_of (geo_counts : table) (key : string) : nat :=
  count (counter_of geo_counts key).
Definition ids_of (geo_counts : table) (key : string) : list string :=
  doc_ids (counter_of geo_counts key).

(** The ids of the documents that have [key] among their keys, in the
    order of the corpus. *)
Definition hits (key : string) (docs : list document) : list string :=
  flat_map (fun doc =>
              match doc_keys doc with
              | Ok ks => if decide (key ∈ ks) then [_id doc] else []
              | KeyError _ => []
              end) docs.

(** The loop body on a candidate that validated to [(key, v)]. *)
Definition count_entry (doc_id : string) (acc : gset string * table)
           (kv : string * validated) : gset string * table :=
  if decide (kv.1 ∈ acc.1) then acc
  else ({[kv.1]} ∪ acc.1, modify kv.1 (record_hit kv.2 doc_id) acc.2).

(** What holds of every counter of the table. *)
Definition sound (c : counter) : Prop :=
  1 ≤ count c ∧ length (doc_ids c) = count c `min` 100
  ∧ ∃ v, info c = Some v ∧ has_lat v = true.

(** The table after the documents [docs]. *)
Definition tracks (geo_counts : table) (docs : list document) : Prop :=
  ∀ key, count_of geo_counts key = length (hits key docs)
         ∧ ids_of geo_counts key = take 100 (hits key docs).
End Counting.

Arguments counter : clear implicits.
Arguments table : clear implicits.

End Aggregator.

(** ** The domestic pipeline ([extract_geographies.py]) *)

Module Domestic.

(** A place, county or state record of the gazetteer, and equally the dict
    that [validate_and_geocode] returns. *)
Record info : Type := {
  name : option string;
  state : option string;
  state_abbrev : option string;
  county : option string;
  lat : option Q;
  lng : option Q;
  type : option string;
  ambiguous : option bool;
  possible_states : option (list string)
}.

(** An entry of a list of [city_states_index.json]. *)
Record state_info : Type := {
  si_state : string;
  si_state_abbrev : string;
  si_lat : Q;
  si_lng : Q
}.

(** [states.json] *)
Record states_table : Type := {
  abbrev_to_full : list (string * string);
  full_to_abbrev : list (string * string)
}.

Record GeographyExtractor : Type := {
  locations : gmap string info;
  city_states : gmap string (list state_info);
  states : states_table;
  counties : gmap string info;
  common_words : gset string;
  common_names : gset string
}.

Definition OLD_STATE_ABBREVS : list (string * string) :=
  [("Ala.", "AL"); ("Ariz.", "AZ"); ("Ark.", "AR"); ("Calif.", "CA"); ("Colo.", "CO");
   ("Conn.", "CT"); ("Del.", "DE"); ("Fla.", "FL"); ("Ga.", "GA"); ("Ill.", "IL");
   ("Ind.", "IN"); ("Kans.", "KS"); ("Ky.", "KY"); ("La.", "LA"); ("Mass.", "MA");
   ("Md.", "MD"); ("Mich.", "MI"); ("Minn.", "MN"); ("Miss.", "MS"); ("Mo.", "MO");
   ("Mont.", "MT"); ("Nebr.", "NE"); ("Nev.", "NV"); ("N.H.", "NH"); ("N.J.", "NJ");
   ("N.M.", "NM"); ("N.Y.", "NY"); ("N.C.", "NC"); ("N.D.", "ND"); ("Okla.", "OK");
   ("Oreg.", "OR"); ("Pa.", "PA"); ("R.I.", "RI"); ("S.C.", "SC"); ("S.D.", "SD");
   ("Tenn.", "TN"); ("Tex.", "TX"); ("Vt.", "VT"); ("Va.", "VA"); ("Wash.", "WA");
   ("W.Va.", "WV"); ("Wis.", "WI"); ("Wyo.", "WY"); ("D.C.", "DC")].

Section Patterns.
Import Re.

(** [[A-Z][a-z]+(?:[\.\s]+[A-Z]?[a-z]+)*] *)
Definition city_words : regex :=
  cat [upper_letter; Plus lower_letter;
       Star (cat [Plus (Class (fun c => Ascii.eqb c "."%char || PyStr.is_space c));
                  Opt upper_letter; Plus lower_letter])].

(** [[A-Z][a-z]+(?:\s+[A-Z][a-z]+)*] *)
Definition capitalized_words : regex :=
  cat [upper_letter; Plus lower_letter;
       Star (cat [Plus space; upper_letter; Plus lower_letter])].

(** [...|[A-Z]{2}] *)
Definition state_or_code : regex :=
  Alt capitalized_words (cat [upper_letter; upper_letter]).

Definition pattern1 : regex :=
  cat [Boundary; Group 1 city_words; Chr ","; Star space;
       Group 2 state_or_code; Boundary].

Definition pattern2 : regex :=
  cat [Boundary; Group 1 city_words; Chr ","; Star space;
       Group 2 (cat [upper_letter; Plus lower_letter; Chr "."])].

Definition pattern3 : regex :=
  cat [Boundary; Group 1 city_words; Chr ","; Star space;
       Group 2 (cat [upper_letter; Chr "."; upper_letter; Chr "."])].

Definition county_pattern : regex :=
  cat [Boundary; Group 1 capitalized_words; Plus space; Lit false "County"; Boundary].

Definition county_state_pattern : regex :=
  cat [Boundary; Group 1 capitalized_words; Plus space; Lit false "County,";
       Star space; Group 2 state_or_code; Boundary].
End Patterns.

Section Extractor.
Variable self : GeographyExtractor.

(** The body of the loop over the matches of pattern 1. *)
Definition city_state_hit (m : string * string) : list string :=
  let '(city, state) := m in
  if decide (PyStr.lower city ∈ common_names self) then []
  else
    let state_upper := PyStr.upper state in
    let state_title := PyStr.title state in
    if PyDict.mem (abbrev_to_full (states self)) state_upper
       || PyDict.mem (full_to_abbrev (states self)) state_title
    then [city +:+ ", " +:+ state]
    else [].

(** The body of the loops over the matches of patterns 2 and 3. *)
Definition old_abbrev_hit (m : string * string) : list string :=
  let '(city, abbrev) := m in
  if decide (PyStr.lower city ∈ common_names self) then []
  else
    match PyDict.get OLD_STATE_ABBREVS abbrev with
    | Some state_code =>
        let state_full :=
          default state_code (PyDict.get (abbrev_to_full (states self)) state_code) in
        [city +:+ ", " +:+ state_full]
    | None => []
    end.

Definition county_hit (county_name : string) : list string :=
  [county_name +:+ " County"].

Definition county_state_hit (m : string * string) : list string :=
  let '(county_name, state) := m in
  let full_county := county_name +:+ " County" in
  let state_upper := PyStr.upper state in
  let state_title := PyStr.title state in
  if PyDict.mem (abbrev_to_full (states self)) state_upper
     || PyDict.mem (full_to_abbrev (states self)) state_title
  then
    let state :=
      default state (PyDict.get (abbrev_to_full (states self)) state_upper) in
    [full_county +:+ ", " +:+ state]
  else [].

(** The scan for standalone state names. *)
Definition state_name_hits (text : string) : list string :=
  filter (fun state_name => PyStr.contains state_name text = true)
         (PyDict.keys (full_to_abbrev (states self))).

Definition extract_locations_regex (text : string) : list string :=
  if PyStr.is_empty text then []
  else
    flat_map city_state_hit (Re.groups2 text <$> Re.finditer pattern1 text)
    ++ flat_map old_abbrev_hit (Re.groups2 text <$> Re.finditer pattern2 text)
    ++ flat_map old_abbrev_hit (Re.groups2 text <$> Re.finditer pattern3 text)
    ++ flat_map county_hit (Re.group text 1 <$> Re.finditer county_pattern text)
    ++ flat_map county_state_hit (Re.groups2 text <$> Re.finditer county_state_pattern text)
    ++ state_name_hits text.

(** [SPACY_AVAILABLE] is [False]: extraction is the regex extraction. *)
Definition extract_locations (text : string) : list string :=
  extract_locations_regex text.
End Extractor.

(** *** Validation *)

Definition or_else {A} (x y : option A) : option A :=
  match x with Some a => Some a | None => y end.

(** [[p.strip() for p in loc_lower.split(',')]] *)
Definition comma_parts (loc_lower : string) : list string :=
  PyStr.strip <$> PyStr.split "," loc_lower.

Definition no_fields : info :=
  {| name := None; state := None; state_abbrev := None; county := None;
     lat := None; lng := None; type := None; ambiguous := None;
     possible_states := None |}.

Section Validator.
Variable self : GeographyExtractor.

(** The "County, State" step. *)
Definition county_state_lookup (loc_lower : string) : option info :=
  if PyStr.contains "county" loc_lower && PyStr.contains "," loc_lower then
    match comma_parts loc_lower with
    | [county_part; state] =>
        or_else
          (match PyDict.get (abbrev_to_full (states self)) (PyStr.upper state) with
           | Some full_state =>
               counties self !! PyStr.lower (county_part +:+ ", " +:+ full_state)
           | None => None
           end)
          (counties self !! PyStr.lower (county_part +:+ ", " +:+ state))
    | _ => None
    end
  else None.

(** The "City, State" step. *)
Definition city_state_lookup (loc_lower : string) : option info :=
  match comma_parts loc_lower with
  | [city; state] =>
      or_else
        (match PyDict.get (abbrev_to_full (states self)) (PyStr.upper state) with
         | Some full_state =>
             locations self !! PyStr.lower (city +:+ ", " +:+ full_state)
         | None => None
         end)
        (match PyDict.get (full_to_abbrev (states self)) (PyStr.title state) with
         | Some abbrev =>
             locations self !! PyStr.lower (city +:+ ", " +:+ abbrev)
         | None => None
         end)
  | _ => None
  end.

Definition resolved (location_str : string) (s : state_info)
           (flag : bool) (others : option (list string)) : info :=
  {| name := Some location_str;
     state := Some (si_state s);
     state_abbrev := Some (si_state_abbrev s);
     county := None;
     lat := Some (si_lat s);
     lng := Some (si_lng s);
     type := Some "place";
     ambiguous := Some flag;
     possible_states := others |}.

(** The city-name-only step. *)
Definition bare_city_lookup (location_str city_lower : string) : option info :=
  match city_states self !! city_lower with
  | Some states_list =>
      match states_list with
      | [] => None
      | [s] => Some (resolved location_str s false None)
      | s :: _ =>
          Some (resolved location_str s true (Some (si_state <$> states_list)))
      end
  | None => None
  end.

(** The state-name step. *)
Definition state_lookup (loc_lower : string) : option info :=
  if PyDict.mem (full_to_abbrev (states self)) (PyStr.title loc_lower) then
    Some {| name := Some (PyStr.title loc_lower); state := None;
            state_abbrev := None; county := None; lat := None; lng := None;
            type := Some "state"; ambiguous := None; possible_states := None |}
  else
    match PyDict.get (abbrev_to_full (states self)) (PyStr.upper loc_lower) with
    | Some full =>
        Some {| name := Some full; state := None;
                state_abbrev := None; county := None; lat := None; lng := None;
                type := Some "state"; ambiguous := None; possible_states := None |}
    | None => None
    end.

Definition validate_and_geocode (location_str : string) : option info :=
  let loc_lower := PyStr.strip (PyStr.lower location_str) in
  or_else (locations self !! loc_lower)
 (or_else (counties self !! loc_lower)
 (or_else (county_state_lookup loc_lower)
 (or_else (if PyStr.contains "," loc_lower
           then city_state_lookup loc_lower
           else bare_city_lookup location_str loc_lower)
          (state_lookup loc_lower)))).
End Validator.

(** *** The canonical key *)

Definition truthy_number (x : option Q) : bool :=
  match x with
  | Some q => negb (Qeq_bool q 0)
  | None => false
  end.

Definition present {A} (field : option A) : bool :=
  match field with Some _ => true | None => false end.

(** A dict is true when it has a key. *)
Definition truthy (d : info) : bool :=
  present (name d) || present (state d) || present (state_abbrev d)
  || present (county d) || present (lat d) || present (lng d)
  || present (type d) || present (ambiguous d) || present (possible_states d).

(** [validated and validated.get('lat')] *)
Definition has_lat (validated : info) : bool :=
  truthy validated && truthy_number (lat validated).

Definition canonical_key (validated : info) : result string :=
  if decide (type validated = Some "state") then
    n ← subscript "name" (name validated);
    mret (PyStr.lower n)
  else
    n ← subscript "name" (name validated);
    s ← subscript "state" (state validated);
    mret (PyStr.lower (n +:+ ", " +:+ s)).

(** *** Aggregation *)

(** A record of the [geography_counts] collection. *)
Module GeoDoc.
Record t : Type := {
  location_key : string;
  name : string;
  state : string;
  state_abbrev : string;
  county : string;
  lat : option Q;
  lng : option Q;
  count : nat;
  type : string;
  sample_doc_ids : list string;
  updated_at : Z
}.
End GeoDoc.

(** The database: the corpus and the collection of an earlier run. *)
Record database : Type := {
  documents : list Aggregator.document;
  geography_counts : list GeoDoc.t
}.

Section Pipeline.
Variable extractor : GeographyExtractor.

(** [datetime.utcnow()] at the n-th record built. *)
Variable utcnow : nat → Z.

Definition count_documents (docs : list Aggregator.document)
  : result (Aggregator.table info) :=
  Aggregator.count_documents (extract_locations extractor)
    (validate_and_geocode extractor) has_lat canonical_key docs.

Definition count_document (geo_counts : Aggregator.table info)
           (doc : Aggregator.document) : result (Aggregator.table info) :=
  Aggregator.count_document (extract_locations extractor)
    (validate_and_geocode extractor) has_lat canonical_key geo_counts doc.

Definition count_location (doc_id : string)
           (acc : gset string * Aggregator.table info) (loc : string)
  : result (gset string * Aggregator.table info) :=
  Aggregator.count_location (validate_and_geocode extractor) has_lat canonical_key
    doc_id acc loc.

Definition entry_of (loc : string) : result (option (string * info)) :=
  Aggregator.entry_of (validate_and_geocode extractor) has_lat canonical_key loc.

Definition doc_keys (doc : Aggregator.document) : result (list string) :=
  Aggregator.doc_keys (extract_locations extractor)
    (validate_and_geocode extractor) has_lat canonical_key doc.

Definition hits (key : string) (docs : list Aggregator.document) : list string :=
  Aggregator.hits (extract_locations extractor)
    (validate_and_geocode extractor) has_lat canonical_key key docs.

Definition geo_doc (n : nat) (key : string) (v : info)
           (data : Aggregator.counter info) : GeoDoc.t :=
  let loc_type := default "place" (type v) in
  let is_state := bool_decide (loc_type = "state") in
  {| GeoDoc.location_key := key;
     GeoDoc.name := default key (name v);
     GeoDoc.state := if is_state then EmptyString else default EmptyString (state v);
     GeoDoc.state_abbrev := if is_state then EmptyString else default EmptyString (state_abbrev v);
     GeoDoc.county := default EmptyString (county v);
     GeoDoc.lat := lat v;
     GeoDoc.lng := lng v;
     GeoDoc.count := Aggregator.count data;
     GeoDoc.type := loc_type;
     GeoDoc.sample_doc_ids := Aggregator.sample data;
     GeoDoc.updated_at := utcnow n |}.

(** The loop over [geo_counts.items()]; [n] records were built before. *)
Fixpoint geo_docs_from (n : nat) (geo_counts : Aggregator.table info) : list GeoDoc.t :=
  match geo_counts with
  | [] => []
  | (key, data) :: rest =>
      match Aggregator.kept truthy data with
      | Some v => geo_doc n key v data :: geo_docs_from (S n) rest
      | None => geo_docs_from n rest
      end
  end.

(** [process_documents]: the collection is dropped, then filled with the
    new records (nothing is inserted when there are none). *)
Definition process_documents (limit : option nat) (db : database)
  : result (database * list GeoDoc.t) :=
  geo_counts ← count_documents (Aggregator.limited limit (documents db));
  let geo_docs := geo_docs_from 0 geo_counts in
  mret ({| documents := documents db; geography_counts := geo_docs |}, geo_docs).
End Pipeline.

(** The [(location_key, count)] pairs of a run. *)
Definition counts_by_key (run : result (database * list GeoDoc.t))
  : result (list (string * nat)) :=
  match run with
  | Ok r => Ok ((λ d, (GeoDoc.location_key d, GeoDoc.count d)) <$> r.2)
  | KeyError k => KeyError k
  end.

(** *** The state tables that [setup_census_data.py] writes to [states.json] *)

Module Setup.

Definition STATE_ABBREV : list (string * string) :=
  [("AL", "Alabama"); ("AK", "Alaska"); ("AZ", "Arizona"); ("AR", "Arkansas");
   ("CA", "California"); ("CO", "Colorado"); ("CT", "Connecticut"); ("DE", "Delaware");
   ("FL", "Florida"); ("GA", "Georgia"); ("HI", "Hawaii"); ("ID", "Idaho");
   ("IL", "Illinois"); ("IN", "Indiana"); ("IA", "Iowa"); ("KS", "Kansas");
   ("KY", "Kentucky"); ("LA", "Louisiana"); ("ME", "Maine"); ("MD", "Maryland");
   ("MA", "Massachusetts"); ("MI", "Michigan"); ("MN", "Minnesota"); ("MS", "Mississippi");
   ("MO", "Missouri"); ("MT", "Montana"); ("NE", "Nebraska"); ("NV", "Nevada");
   ("NH", "New Hampshire"); ("NJ", "New Jersey"); ("NM", "New Mexico"); ("NY", "New York");
   ("NC", "North Carolina"); ("ND", "North Dakota"); ("OH", "Ohio"); ("OK", "Oklahoma");
   ("OR", "Oregon"); ("PA", "Pennsylvania"); ("RI", "Rhode Island"); ("SC", "South Carolina");
   ("SD", "South Dakota"); ("TN", "Tennessee"); ("TX", "Texas"); ("UT", "Utah");
   ("VT", "Vermont"); ("VA", "Virginia"); ("WA", "Washington"); ("WV", "West Virginia");
   ("WI", "Wisconsin"); ("WY", "Wyoming"); ("DC", "District of Columbia");
   ("PR", "Puerto Rico"); ("VI", "Virgin Islands"); ("GU", "Guam")].

(** [{v: k for k, v in STATE_ABBREV.items()}]; the names are distinct. *)
Definition STATE_TO_ABBREV : list (string * string) :=
  (λ kv, (kv.2, kv.1)) <$> STATE_ABBREV.

Definition states_json : states_table :=
  {| abbrev_to_full := STATE_ABBREV; full_to_abbrev := STATE_TO_ABBREV |}.

End Setup.

End Domestic.

(** ** The world pipeline ([extract_world_geographies.py]) *)

Module World.

(** A city record of [world_locations.json]. *)
Record place : Type := {
  name : string;
  country : string;
  country_code : string;
  lat : Q;
  lng : Q;
  population : option Z
}.

(** An entry of a list of [city_countries_index.json]. *)
Record country_info : Type := {
  ci_country : string;
  ci_country_code : string;
  ci_lat : Q;
  ci_lng : Q;
  ci_population : Z
}.

(** [countries.json] *)
Record countries_table : Type := {
  code_to_name : list (string * string);
  name_to_code : list (string * string)
}.

Record WorldGeographyExtractor : Type := {
  locations : gmap string place;
  city_countries : gmap string (list country_info);
  countries : countries_table;
  common_words : gset string;
  common_names : gset string
}.

(** An extracted [(city, country_name, country_code)]. *)
Definition candidate : Type := string * string * string.

(** An element of [find_country_mentions]:
    [(start_pos, end_pos, country_code, country_name)]. *)
Definition mention : Type := nat * nat * string * string.

(** The truth value of a string that may be [None]. *)
Definition truthy_str (x : option string) : bool :=
  match x with
  | Some s => negb (PyStr.is_empty s)
  | None => false
  end.

Definition us_states : gset string :=
  list_to_set
    ["AL"; "AK"; "AZ"; "AR"; "CA"; "CO"; "CT"; "DE"; "FL"; "GA";
     "HI"; "ID"; "IL"; "IN"; "IA"; "KS"; "KY"; "LA"; "ME"; "MD";
     "MA"; "MI"; "MN"; "MS"; "MO"; "MT"; "NE"; "NV"; "NH"; "NJ";
     "NM"; "NY"; "NC"; "ND"; "OH"; "OK"; "OR"; "PA"; "RI"; "SC";
     "SD"; "TN"; "TX"; "UT"; "VT"; "VA"; "WA"; "WV"; "WI"; "WY"; "DC"].

Section Patterns.
Import Re.

(** [[a-z\u00C0-\u024F]]: on ASCII text the lower-case letters; the
    codes from 0xC0 on are kept in the class. *)
Definition lower_or_latin : regex :=
  Class (fun c => PyStr.is_lower c || (192 <=? PyStr.code c)).

Definition space_or_hyphen : regex :=
  Class (fun c => PyStr.is_space c || Ascii.eqb c "-"%char).

Definition capitalized : regex := cat [upper_letter; Plus lower_or_latin].

(** [[A-Z][a-z\u00C0-\u024F]+(?:[\s-][A-Z][a-z\u00C0-\u024F]+)*] *)
Definition city_words : regex :=
  cat [capitalized; Star (cat [space_or_hyphen; capitalized])].

(** [[A-Z][a-z\u00C0-\u024F]+(?:\s+[A-Z][a-z\u00C0-\u024F]+)*] *)
Definition country_words : regex :=
  cat [capitalized; Star (cat [Plus space; capitalized])].

Definition pattern1 : regex :=
  cat [Boundary; Group 1 city_words; Chr ","; Star space;
       Group 2 country_words; Boundary].

(** The city, optional spaces, then in parentheses either two or more
    capitals or capitalized ASCII words. *)
Definition pattern2 : regex :=
  cat [Boundary; Group 1 city_words; Star space; Chr "(";
       Group 2 (Alt (cat [upper_letter; upper_letter; Star upper_letter])
                    (cat [upper_letter; Plus lower_letter;
                          Star (cat [Plus space; upper_letter; Plus lower_letter])]));
       Chr ")"].

Definition pattern3 : regex :=
  cat [Boundary; Group 1 city_words; Chr ","; Star space;
       Group 2 (cat [upper_letter; upper_letter]); Boundary].

(** [\b([A-Z][a-z\u00C0-\u024F]+(?:[\s-][A-Z][a-z\u00C0-\u024F]+)?)\b] *)
Definition city_pattern : regex :=
  cat [Boundary; Group 1 (cat [capitalized; Opt (cat [space_or_hyphen; capitalized])]);
       Boundary].
End Patterns.

(** [sorted(names, key=len, reverse=True)]: longest first, names of one
    length in their original order. *)
Fixpoint insert_by_len (x : string) (l : list string) : list string :=
  match l with
  | [] => [x]
  | y :: l' =>
      if String.length x <=? String.length y then y :: insert_by_len x l'
      else x :: l
  end.
Definition longest_first (names : list string) : list string :=
  foldl (fun acc x => insert_by_len x acc) [] names.

Section Extractor.
Variable self : WorldGeographyExtractor.

(** [_build_country_pattern]: the alternation of the escaped country
    names of more than two characters, under [re.IGNORECASE]. *)
Definition _country_pattern : option Re.regex :=
  let names := longest_first (PyDict.keys (name_to_code (countries self))) in
  let escaped :=
    Re.Lit true <$> filter (fun n => 2 < String.length n) names in
  match escaped with
  | [] => None
  | _ => Some (Re.cat [Re.Boundary; Re.Group 1 (Re.alt escaped); Re.Boundary])
  end.

(** The alternation of the two-letter codes, case-sensitive. *)
Definition _code_pattern : option Re.regex :=
  let codes :=
    filter (fun c => String.length c = 2) (PyDict.keys (code_to_name (countries self))) in
  match codes with
  | [] => None
  | _ => Some (Re.cat [Re.Boundary; Re.Group 1 (Re.alt (Re.Lit false <$> codes));
                       Re.Boundary])
  end.

Definition name_mention (text : string) (h : Re.hit) : list mention :=
  let name_lower := PyStr.lower (Re.group text 1 h) in
  let code := PyDict.get (name_to_code (countries self)) name_lower in
  if truthy_str code then
    let code := default EmptyString code in
    let country_name :=
      default (Re.group text 1 h) (PyDict.get (code_to_name (countries self)) code) in
    [(Re.h_start h, Re.h_end h, code, country_name)]
  else [].

Definition code_mention (text : string) (h : Re.hit) : list mention :=
  let code := Re.group text 1 h in
  let name := PyDict.get (code_to_name (countries self)) code in
  if truthy_str name then [(Re.h_start h, Re.h_end h, code, default EmptyString name)]
  else [].

Definition find_country_mentions (text : string) : list mention :=
  match _country_pattern with
  | Some r => flat_map (name_mention text) (Re.finditer r text)
  | None => []
  end
  ++
  match _code_pattern with
  | Some r => flat_map (code_mention text) (Re.finditer r text)
  | None => []
  end.

(** [key in self.locations] for [key = f"{city_lower}, {country_name.lower()}"] *)
Definition known (city_lower country_name : string) : bool :=
  bool_decide (is_Some (locations self !! (city_lower +:+ ", " +:+ PyStr.lower country_name))).

(** The tail of the bodies of patterns 1 and 2, from [if country_code:]. *)
Definition with_code (city country : string) (country_code : option string)
  : list candidate :=
  if truthy_str country_code then
    let country_code := default EmptyString country_code in
    let country_name :=
      default country (PyDict.get (code_to_name (countries self)) country_code) in
    if known (PyStr.lower city) country_name
    then [(city, country_name, country_code)]
    else []
  else [].

(** Pattern 1: "City, Country". *)
Definition city_country_hit (m : string * string) : list candidate :=
  let '(city, country) := m in
  with_code city country
    (PyDict.get (name_to_code (countries self)) (PyStr.lower country)).

(** Pattern 2: "City (Country)". *)
Definition city_paren_hit (m : string * string) : list candidate :=
  let '(city, country) := m in
  let country_code := PyDict.get (name_to_code (countries self)) (PyStr.lower country) in
  let country_code :=
    if negb (truthy_str country_code)
       && PyDict.mem (code_to_name (countries self)) (PyStr.upper country)
    then Some (PyStr.upper country)
    else country_code in
  with_code city country country_code.

(** Pattern 3: "City, XX". *)
Definition city_code_hit (m : string * string) : list candidate :=
  let '(city, code) := m in
  if decide (code ∈ us_states) then []
  else
    let actual_code := if decide (code = "UK") then "GB" else code in
    let country_name := PyDict.get (code_to_name (countries self)) actual_code in
    if truthy_str country_name then
      let country_name := default EmptyString country_name in
      if known (PyStr.lower city) country_name
      then [(city, country_name, actual_code)]
      else []
    else [].

(** The window of 100 characters on each side of a mention; the
    subtraction on [nat] stops at 0, which is [max(0, _)]. *)
Definition window (text : string) (m : mention) : string :=
  let '(country_start, country_end, _, _) := m in
  let window_start := country_start - 100 in
  let window_end := Nat.min (String.length text) (country_end + 100) in
  PyStr.slice window_start window_end text.

(** Pattern 4, the body of the inner loop: [locations] and [found_cities]
    grow together. *)
Definition proximity_hit (m : mention) (acc : list candidate * gset string)
           (city : string) : list candidate * gset string :=
  let '(_, _, country_code, country_name) := m in
  let '(found, found_cities) := acc in
  let city_lower := PyStr.lower city in
  if decide (city_lower ∈ found_cities) then acc
  else if known city_lower country_name
       then (found ++ [(city, country_name, country_code)], {[city_lower]} ∪ found_cities)
       else acc.

(** The capitalized words of a window. *)
Definition window_cities (text : string) (m : mention) : list string :=
  let w := window text m in
  Re.group w 1 <$> Re.finditer city_pattern w.

Definition proximity_scan (text : string) (acc : list candidate * gset string)
           (m : mention) : list candidate * gset string :=
  foldl (proximity_hit m) acc (window_cities text m).

(** The matches of pattern 3 and the candidates they give. *)
Definition code_matches (text : string) : list (string * string) :=
  Re.groups2 text <$> Re.finditer pattern3 text.
Definition code_hits (text : string) : list candidate :=
  flat_map city_code_hit (code_matches text).

(** The candidates of patterns 1 to 3. *)
Definition adjacent (text : string) : list candidate :=
  flat_map city_country_hit (Re.groups2 text <$> Re.finditer pattern1 text)
  ++ flat_map city_paren_hit (Re.groups2 text <$> Re.finditer pattern2 text)
  ++ code_hits text.

(** [{loc[0].lower() for loc in locations}] *)
Definition found_cities_of (found : list candidate) : gset string :=
  list_to_set ((λ loc, PyStr.lower loc.1.1) <$> found).

(** Pattern 4 after the candidates [found] of patterns 1 to 3. *)
Definition with_fallback (text : string) (found : list candidate)
           (country_mentions : list mention) : list candidate :=
  (foldl (proximity_scan text) (found, found_cities_of found) country_mentions).1.

(** What holds of a candidate that pattern 4 adds to [found]. *)
Definition justified (text : string) (found : list candidate)
           (country_mentions : list mention) (c : candidate) : Prop :=
  known (PyStr.lower c.1.1) c.1.2 = true
  ∧ (PyStr.lower c.1.1 ∉ found_cities_of found)
  ∧ ∃ country_start country_end,
      (country_start, country_end, c.2, c.1.2) ∈ country_mentions
      ∧ let w := PyStr.slice (country_start - 100)
                   (Nat.min (String.length text) (country_end + 100)) text in
        c.1.1 ∈ Re.group w 1 <$> Re.finditer city_pattern w.

(** What holds of [(locations, found_cities)] all along pattern 4. *)
Definition fallback_invariant (text : string) (found : list candidate)
           (country_mentions : list mention)
           (acc : list candidate * gset string) : Prop :=
  ∃ extra, acc.1 = found ++ extra
    ∧ acc.2 = found_cities_of found ∪ found_cities_of extra
    ∧ Forall (justified text found country_mentions) extra
    ∧ NoDup ((λ loc : candidate, PyStr.lower loc.1.1) <$> extra).

(** [text[:50000]] when the text is longer. *)
Definition truncated (text : string) : string :=
  if (50000 <? Z.of_nat (String.length text))%Z
  then PyStr.slice 0 (Z.to_nat 50000) text
  else text.

Definition extract_locations (text : string) : list candidate :=
  if PyStr.is_empty text then []
  else
    let text := truncated text in
    let country_mentions := find_country_mentions text in
    match country_mentions with
    | [] => []
    | _ => with_fallback text (adjacent text) country_mentions
    end.
End Extractor.

(** *** Validation *)

(** The dict returned by [validate_and_geocode]. *)
Module Info.
Record t : Type := {
  name : string;
  country : string;
  country_code : string;
  lat : Q;
  lng : Q;
  population : Z;
  type : string
}.
End Info.

Definition city_record (loc : place) : Info.t :=
  {| Info.name := name loc;
     Info.country := country loc;
     Info.country_code := country_code loc;
     Info.lat := lat loc;
     Info.lng := lng loc;
     Info.population := default 0%Z (population loc);
     Info.type := "city" |}.

Section Validator.
Variable self : WorldGeographyExtractor.

Definition validate_and_geocode (c : candidate) : option Info.t :=
  let '(city, country_name, country_code) := c in
  let key := PyStr.lower (city +:+ ", " +:+ country_name) in
  match locations self !! key with
  | Some loc => Some (city_record loc)
  | None =>
      let key_ascii := PyStr.lower city +:+ ", " +:+ PyStr.lower country_name in
      match locations self !! key_ascii with
      | Some loc => Some (city_record loc)
      | None => None
      end
  end.
End Validator.

(** [validated and validated.get('lat')]: the dict has its seven keys, so
    it is true, and the latitude is true when it is not zero. *)
Definition has_lat (validated : Info.t) : bool :=
  negb (Qeq_bool (Info.lat validated) 0).

Definition canonical_key (validated : Info.t) : result string :=
  mret (PyStr.lower (Info.name validated +:+ ", " +:+ Info.country validated)).

(** *** Aggregation *)

(** A record of the [world_geography_counts] collection. *)
Module GeoDoc.
Record t : Type := {
  location_key : string;
  name : string;
  country : string;
  country_code : string;
  lat : Q;
  lng : Q;
  population : Z;
  count : nat;
  type : string;
  sample_doc_ids : list string;
  updated_at : Z
}.
End GeoDoc.

Record database : Type := {
  documents : list Aggregator.document;
  world_geography_counts : list GeoDoc.t
}.

(** The query of the cursor: [$strLenCP] of the text, or of [''] when it
    is null, below 50000. *)
Definition short_enough (doc : Aggregator.document) : bool :=
  (Z.of_nat (String.length (default EmptyString (Aggregator.text doc))) <? 50000)%Z.

Section Pipeline.
Variable extractor : WorldGeographyExtractor.
Variable utcnow : nat → Z.

Definition count_documents (docs : list Aggregator.document)
  : result (Aggregator.table Info.t) :=
  Aggregator.count_documents (extract_locations extractor)
    (validate_and_geocode extractor) has_lat canonical_key docs.

Definition count_document (geo_counts : Aggregator.table Info.t)
           (doc : Aggregator.document) : result (Aggregator.table Info.t) :=
  Aggregator.count_document (extract_locations extractor)
    (validate_and_geocode extractor) has_lat canonical_key geo_counts doc.

Definition count_location (doc_id : string)
           (acc : gset string * Aggregator.table Info.t) (loc : candidate)
  : result (gset string * Aggregator.table Info.t) :=
  Aggregator.count_location (validate_and_geocode extractor) has_lat canonical_key
    doc_id acc loc.

Definition doc_keys (doc : Aggregator.document) : result (list string) :=
  Aggregator.doc_keys (extract_locations extractor)
    (validate_and_geocode extractor) has_lat canonical_key doc.

Definition hits (key : string) (docs : list Aggregator.document) : list string :=
  Aggregator.hits (extract_locations extractor)
    (validate_and_geocode extractor) has_lat canonical_key key docs.

Definition geo_doc (n : nat) (key : string) (v : Info.t)
           (data : Aggregator.counter Info.t) : GeoDoc.t :=
  {| GeoDoc.location_key := key;
     GeoDoc.name := Info.name v;
     GeoDoc.country := Info.country v;
     GeoDoc.country_code := Info.country_code v;
     GeoDoc.lat := Info.lat v;
     GeoDoc.lng := Info.lng v;
     GeoDoc.population := Info.population v;
     GeoDoc.count := Aggregator.count data;
     GeoDoc.type := "city";
     GeoDoc.sample_doc_ids := Aggregator.sample data;
     GeoDoc.updated_at := utcnow n |}.

Fixpoint geo_docs_from (n : nat) (geo_counts : Aggregator.table Info.t) : list GeoDoc.t :=
  match geo_counts with
  | [] => []
  | (key, data) :: rest =>
      match Aggregator.kept (fun _ => true) data with
      | Some v => geo_doc n key v data :: geo_docs_from (S n) rest
      | None => geo_docs_from n rest
      end
  end.

Definition process_documents (limit : option nat) (db : database)
  : result (database * list GeoDoc.t) :=
  let cursor := Aggregator.limited limit (filter (fun d => short_enough d = true) (documents db)) in
  geo_counts ← count_documents cursor;
  let geo_docs := geo_docs_from 0 geo_counts in
  mret ({| documents := documents db; world_geography_counts := geo_docs |}, geo_docs).
End Pipeline.

Definition counts_by_key (run : result (database * list GeoDoc.t))
  : result (list (string * nat)) :=
  match run with
  | Ok r => Ok ((λ d, (GeoDoc.location_key d, GeoDoc.count d)) <$> r.2)
  | KeyError k => KeyError k
  end.

(** The validator as the specification reads it: one lookup of the
    lower-cased "city, country" in the gazetteer. *)
Definition single_lookup (self : WorldGeographyExtractor) (c : candidate)
  : option Info.t :=
  city_record <$> locations self !! PyStr.lower (c.1.1 +:+ ", " +:+ c.1.2).

End World.

(** ** Sample data *)

Module Examples.
Import Aggregator.

Definition doc (id body : string) : document :=
  {| _id := id; title := None; text := Some body |}.

(** A hundred and one documents with the same text. *)
Definition corpus (body : string) : list document :=
  (λ n : nat, doc ("doc" +:+ pretty n) body) <$> seq 1 101.

Definition clock (n : nat) : Z := 1700000000 + Z.of_nat n.

Module US.
Import Domestic.

Definition place_entry (n s a c : string) (la lo : Q) : info :=
  {| name := Some n; state := Some s; state_abbrev := Some a; county := Some c;
     lat := Some la; lng := Some lo; type := Some "place";
     ambiguous := None; possible_states := None |}.

Definition state_entry (n a : string) (la lo : Q) : info :=
  {| name := Some n; state := Some n; state_abbrev := Some a; county := None;
     lat := Some la; lng := Some lo; type := Some "state";
     ambiguous := None; possible_states := None |}.

Definition chicago : info := place_entry "Chicago" "Illinois" "IL" "Cook" 41.85 (-87.65).
Definition boston : info := place_entry "Boston" "Massachusetts" "MA" "Suffolk" 42.36 (-71.06).
Definition illinois : info := state_entry "Illinois" "IL" 40.349457 (-88.986137).
Definition washington : info := state_entry "Washington" "WA" 47.400902 (-121.490494).

Definition springfield_il : state_info :=
  {| si_state := "Illinois"; si_state_abbrev := "IL"; si_lat := 39.8; si_lng := -89.64 |}.
Definition springfield_ma : state_info :=
  {| si_state := "Massachusetts"; si_state_abbrev := "MA"; si_lat := 42.1; si_lng := -72.59 |}.
Definition springfield_mo : state_info :=
  {| si_state := "Missouri"; si_state_abbrev := "MO"; si_lat := 37.21; si_lng := -93.29 |}.
Definition washington_dc : state_info :=
  {| si_state := "District of Columbia"; si_state_abbrev := "DC";
     si_lat := 38.9; si_lng := -77.04 |}.
Definition washington_wa : state_info :=
  {| si_state := "Washington"; si_state_abbrev := "WA";
     si_lat := 47.400902; si_lng := -121.490494 |}.

(** A gazetteer as [setup_census_data.py] lays it out: each place under
    "city, state" and "city, abbreviation", each state with a centroid
    under its name and its abbreviation, and every name in the index. *)
Definition extractor : GeographyExtractor :=
  {| locations :=
       list_to_map
         [("chicago, illinois", chicago); ("chicago, il", chicago);
          ("boston, massachusetts", boston); ("boston, ma", boston);
          ("illinois", illinois); ("il", illinois);
          ("washington", washington); ("wa", washington)];
     city_states :=
       list_to_map
         [("springfield", [springfield_il; springfield_ma; springfield_mo]);
          ("washington", [washington_dc; washington_wa])];
     states := Setup.states_json;
     counties := ∅;
     common_words := ∅;
     common_names := {["stephen"]} |}.

Definition three_mentions : document :=
  doc "doc-3" "Chicago, Illinois; Chicago, Illinois; Chicago, Illinois".

Definition database_101 : database :=
  {| documents := corpus "Chicago, Illinois"; geography_counts := [] |}.

(** The record of Chicago after the run over [database_101]. *)
Definition chicago_record : GeoDoc.t :=
  {| GeoDoc.location_key := "chicago, illinois";
     GeoDoc.name := "Chicago";
     GeoDoc.state := "Illinois";
     GeoDoc.state_abbrev := "IL";
     GeoDoc.county := "Cook";
     GeoDoc.lat := Some 41.85%Q;
     GeoDoc.lng := Some (-87.65)%Q;
     GeoDoc.count := 101;
     GeoDoc.type := "place";
     GeoDoc.sample_doc_ids :=
       ["doc1"; "doc2"; "doc3"; "doc4"; "doc5"; "doc6"; "doc7"; "doc8"; "doc9"; "doc10"];
     GeoDoc.updated_at := clock 0 |}.

End US.

Module Earth.
Import World.

Definition city (n c cc : string) (la lo : Q) (p : Z) : place :=
  {| name := n; country := c; country_code := cc; lat := la; lng := lo;
     population := Some p |}.

Definition lyon : place := city "Lyon" "France" "FR" 45.75 4.85 472317.
Definition paris : place := city "Paris" "France" "FR" 48.85 2.35 2138551.
Definition london : place := city "London" "United Kingdom" "GB" 51.51 (-0.13) 8961989.
(** A record whose latitude is zero. *)
Definition origin : place := city "Origin" "Israel" "IL" 0 0 1.

Definition extractor : WorldGeographyExtractor :=
  {| locations :=
       list_to_map
         [("lyon, france", lyon); ("lyon, fr", lyon);
          ("paris, france", paris); ("paris, fr", paris);
          ("london, united kingdom", london); ("london, gb", london);
          ("origin, israel", origin); ("origin, il", origin)];
     city_countries := ∅;
     countries :=
       {| code_to_name :=
            [("FR", "France"); ("FRA", "France");
             ("GB", "United Kingdom"); ("GBR", "United Kingdom");
             ("IL", "Israel"); ("ISR", "Israel")];
          name_to_code :=
            [("france", "FR"); ("united kingdom", "GB"); ("israel", "IL");
             ("uk", "GB"); ("britain", "GB"); ("england", "GB")] |};
     common_words := ∅;
     common_names := ∅ |}.

(** The same extractor with a disambiguation index that lists Paris
    under two countries. *)
Definition indexed : WorldGeographyExtractor :=
  {| locations := locations extractor;
     city_countries :=
       {[ "paris" :=
            [ {| ci_country := "France"; ci_country_code := "FR";
                 ci_lat := 48.85; ci_lng := 2.35; ci_population := 2138551 |};
              {| ci_country := "Canada"; ci_country_code := "CA";
                 ci_lat := 43.2; ci_lng := -80.38; ci_population := 11763 |} ] ]};
     countries := countries extractor;
     common_words := common_words extractor;
     common_names := common_names extractor |}.

Definition database_101 : database :=
  {| documents := corpus "Paris, France"; world_geography_counts := [] |}.

(** The record of Paris after the run over [database_101]. *)
Definition paris_record : GeoDoc.t :=
  {| GeoDoc.location_key := "paris, france";
     GeoDoc.name := "Paris";
     GeoDoc.country := "France";
     GeoDoc.country_code := "FR";
     GeoDoc.lat := 48.85%Q;
     GeoDoc.lng := 2.35%Q;
     GeoDoc.population := 2138551;
     GeoDoc.count := 101;
     GeoDoc.type := "city";
     GeoDoc.sample_doc_ids :=
       ["doc1"; "doc2"; "doc3"; "doc4"; "doc5"; "doc6"; "doc7"; "doc8"; "doc9"; "doc10"];
     GeoDoc.updated_at := clock 0 |}.

End Earth.

End Examples.

(** ** Reference data in good shape *)

Module Shape.
Import Domestic.

(** A gazetteer record that the aggregator can key: without a true
    latitude it is never keyed; with one it has a name, and a state unless
    it is a state record. *)
Definition keyable (e : info) : bool :=
  negb (has_lat e)
  || (present (name e)
      && (bool_decide (type e = Some "state") || present (state e))).

Definition well_formed (self : GeographyExtractor) : Prop :=
  map_Forall (λ _ e, keyable e = true) (locations self)
  ∧ map_Forall (λ _ e, keyable e = true) (counties self).

End Shape.

(** ** Start-up: the constructors of the two extractors

    The files of [data_dir], each absent ([None]) or present with its
    content already parsed: a JSON file as the table it holds, a text file
    as its lines. *)

Module Startup.

Inductive loaded (A : Type) : Type :=
| Ready (a : A)
| FileNotFoundError (path : string).
Arguments Ready {A} a.
Arguments FileNotFoundError {A} path.

(** [{line.strip().lower() for line in f if line.strip()}], and the empty
    set when the file does not exist. *)
Definition _load_common_words (common_words_txt : option (list string)) : gset string :=
  match common_words_txt with
  | Some lines =>
      list_to_set
        ((λ line, PyStr.lower (PyStr.strip line))
           <$> filter (λ line, PyStr.is_empty (PyStr.strip line) = false) lines)
  | None => ∅
  end.

(** The loop [name = line.strip().lower(); if name: add(name)] over one
    file of names. *)
Definition names_of (names_txt : option (list string)) : gset string :=
  match names_txt with
  | Some lines =>
      list_to_set
        (filter (λ name, PyStr.is_empty name = false)
                ((λ line, PyStr.lower (PyStr.strip line)) <$> lines))
  | None => ∅
  end.

Definition _load_common_names (first_names_txt last_names_txt : option (list string))
  : gset string :=
  names_of first_names_txt ∪ names_of last_names_txt.

Module US.
Import Domestic.

Record data_dir : Type := {
  us_locations_json : option (gmap string info);
  city_states_index_json : option (gmap string (list state_info));
  states_json : option states_table;
  us_counties_json : option (gmap string info);
  common_words_txt : option (list string);
  first_names_txt : option (list string);
  last_names_txt : option (list string)
}.

(** [GeographyExtractor.__init__]: the locations file is checked and the
    next two are opened; the counties file and the three lists are
    optional. *)
Definition init (dir : data_dir) : loaded GeographyExtractor :=
  match us_locations_json dir with
  | None => FileNotFoundError "data/us_locations.json"
  | Some locs =>
      match city_states_index_json dir with
      | None => FileNotFoundError "data/city_states_index.json"
      | Some index =>
          match states_json dir with
          | None => FileNotFoundError "data/states.json"
          | Some tables =>
              Ready
                {| locations := locs;
                   city_states := index;
                   states := tables;
                   counties := default ∅ (us_counties_json dir);
                   common_words := _load_common_words (common_words_txt dir);
                   common_names :=
                     _load_common_names (first_names_txt dir) (last_names_txt dir) |}
          end
      end
  end.
End US.

Module Earth.
Import World.

Record data_dir : Type := {
  world_locations_json : option (gmap string place);
  city_countries_index_json : option (gmap string (list country_info));
  countries_json : option countries_table;
  common_words_txt : option (list string);
  first_names_txt : option (list string);
  last_names_txt : option (list string)
}.

(** [WorldGeographyExtractor.__init__] *)
Definition init (dir : data_dir) : loaded WorldGeographyExtractor :=
  match world_locations_json dir with
  | None => FileNotFoundError "data/world_locations.json"
  | Some locs =>
      match city_countries_index_json dir with
      | None => FileNotFoundError "data/city_countries_index.json"
      | Some index =>
          match countries_json dir with
          | None => FileNotFoundError "data/countries.json"
          | Some tables =>
              Ready
                {| locations := locs;
                   city_countries := index;
                   countries := tables;
                   common_words := _load_common_words (common_words_txt dir);
                   common_names :=
                     _load_common_names (first_names_txt dir) (last_names_txt dir) |}
          end
      end
  end.
End Earth.

End Startup.


(** ** The disambiguation index ([setup_census_data.py])

    [places] is the dict that [parse_cities_csv] returns and [main]
    completes with the states, read in insertion order. *)

Module CensusSetup.
Import Domestic.

(** [==] on two [state_info] dicts: the four values are equal, the
    coordinates as numbers. *)
Definition state_info_eqb (a b : state_info) : bool :=
  String.eqb (si_state a) (si_state b)
  && String.eqb (si_state_abbrev a) (si_state_abbrev b)
  && Qeq_bool (si_lat a) (si_lat b)
  && Qeq_bool (si_lng a) (si_lng b).

(** The dict literal [state_info], its four subscripts in order. *)
Definition state_info_of (data : info) : result state_info :=
  s ← subscript "state" (state data);
  a ← subscript "state_abbrev" (state_abbrev data);
  la ← subscript "lat" (lat data);
  lo ← subscript "lng" (lng data);
  mret {| si_state := s; si_state_abbrev := a; si_lat := la; si_lng := lo |}.

(** [if state_info not in l: l.append(state_info)] *)
Definition append_new (si : state_info) (l : list state_info) : list state_info :=
  if existsb (state_info_eqb si) l then l else l ++ [si].

(** The same on [city_states[city_name]], where [city_states] is a
    [defaultdict(list)]: a missing name starts from the empty list. *)
Fixpoint index_add (city_name : string) (si : state_info)
         (city_states : list (string * list state_info))
  : list (string * list state_info) :=
  match city_states with
  | [] => [(city_name, append_new si [])]
  | (k, l) :: rest =>
      if String.eqb k city_name then (k, append_new si l) :: rest
      else (k, l) :: index_add city_name si rest
  end.

(** The body of the loop over [places.items()]. *)
Definition index_place (city_states : list (string * list state_info))
           (item : string * info) : result (list (string * list state_info)) :=
  n ← subscript "name" (name item.2);
  si ← state_info_of item.2;
  mret (index_add (PyStr.lower n) si city_states).

Definition build_city_to_states_index (places : list (string * info))
  : result (list (string * list state_info)) :=
  Aggregator.for_each index_place places [].

(** [json.dump] of a dict, then [json.load]. *)
Definition saved {V} (d : list (string * V)) : gmap string V := list_to_map d.

(** A place whose lower-cased name is [city_name]. *)
Definition named (city_name : string) (data : info) : Prop :=
  ∃ n, name data = Some n ∧ PyStr.lower n = city_name.

(** No two entries of a list are equal. *)
Fixpoint distinct (l : list state_info) : Prop :=
  match l with
  | [] => True
  | x :: l' => existsb (state_info_eqb x) l' = false ∧ distinct l'
  end.

(** The invariant of the loop: what the index holds after [done], the
    places read so far. *)
Definition indexes (done : list (string * info))
           (city_states : list (string * list state_info)) : Prop :=
  NoDup (PyDict.keys city_states)
  ∧ (∀ c l, PyDict.get city_states c = Some l →
            distinct l
            ∧ (∀ si, si ∈ l → ∃ key data, (key, data) ∈ done ∧ named c data
                                          ∧ state_info_of data = Ok si)
            ∧ ∃ before key data after si,
                done = before ++ (key, data) :: after
                ∧ named c data ∧ state_info_of data = Ok si ∧ head l = Some si
                ∧ Forall (λ p, ¬ named c p.2) before)
  ∧ (∀ key data, (key, data) ∈ done →
       ∃ n si l, name data = Some n ∧ state_info_of data = Ok si
                 ∧ PyDict.get city_states (PyStr.lower n) = Some l
                 ∧ existsb (state_info_eqb si) l = true).

(** More than one entry: some place of the name differs from the first. *)
Definition several (done : list (string * info))
           (city_states : list (string * list state_info)) : Prop :=
  ∀ c l first, PyDict.get city_states c = Some l → head l = Some first →
    (1 < length l
     ↔ ∃ key data si, (key, data) ∈ done ∧ named c data ∧ state_info_of data = Ok si
                      ∧ state_info_eqb si first = false).

(** A place with the five keys that the index reads. *)
Definition complete (data : info) : Prop :=
  is_Some (name data) ∧ is_Some (state data) ∧ is_Some (state_abbrev data)
  ∧ is_Some (lat data) ∧ is_Some (lng data).

End CensusSetup.


(** ** The country tables ([setup_world_data.py])

    [countryInfo.txt] is read as its lines. *)

Module WorldSetup.

(** [d[k] = v]: the value of a key of [d] is replaced where it stands, a
    new key comes last. *)
Fixpoint set {V} (k : string) (v : V) (d : list (string * V)) : list (string * V) :=
  match d with
  | [] => [(k, v)]
  | (k', v') :: d' =>
      if String.eqb k' k then (k', v) :: d' else (k', v') :: set k v d'
  end.

(** [line.startswith('#')] *)
Definition is_comment (line : string) : bool :=
  match line with
  | String c _ => Ascii.eqb c "#"%char
  | EmptyString => false
  end.

(** A value of the dict [countries]. *)
Record entry : Type := {
  e_name : string;
  e_iso2 : string;
  e_iso3 : string
}.

(** The dict that [parse_country_info] returns, written to
    [countries.json]. *)
Record country_info : Type := {
  code_to_name : list (string * string);
  name_to_code : list (string * string);
  countries : list (string * entry)
}.

Definition no_countries : country_info :=
  {| code_to_name := []; name_to_code := []; countries := [] |}.

(** The body of the loop over the lines of the file; the tab is the
    character of code 9. *)
Definition country_line (acc : country_info) (line : string) : country_info :=
  if is_comment line then acc
  else
    match PyStr.split "009"%char (PyStr.strip line) with
    | p0 :: p1 :: _ :: _ :: p4 :: _ =>
        let iso_code := PyStr.strip p0 in
        let iso3_code := PyStr.strip p1 in
        let country_name := PyStr.strip p4 in
        if negb (PyStr.is_empty iso_code) && negb (PyStr.is_empty country_name) then
          {| code_to_name :=
               set iso3_code country_name (set iso_code country_name (code_to_name acc));
             name_to_code := set (PyStr.lower country_name) iso_code (name_to_code acc);
             countries :=
               set iso_code
                   {| e_name := country_name; e_iso2 := iso_code; e_iso3 := iso3_code |}
                   (countries acc) |}
        else acc
    | _ => acc
    end.

Definition aliases : list (string * string) :=
  [("uk", "GB"); ("britain", "GB"); ("great britain", "GB"); ("england", "GB");
   ("scotland", "GB"); ("wales", "GB"); ("usa", "US"); ("america", "US");
   ("united states of america", "US"); ("holland", "NL"); ("the netherlands", "NL");
   ("czech republic", "CZ"); ("czechia", "CZ"); ("russia", "RU");
   ("south korea", "KR"); ("korea", "KR"); ("north korea", "KP"); ("taiwan", "TW");
   ("ivory coast", "CI"); ("uae", "AE"); ("vatican", "VA"); ("congo", "CD")].

(** The body of the loop over the aliases. *)
Definition add_alias (acc : country_info) (item : string * string) : country_info :=
  let '(alias, code) := item in
  if PyDict.mem (code_to_name acc) code then
    {| code_to_name := code_to_name acc;
       name_to_code := set alias code (name_to_code acc);
       countries := countries acc |}
  else acc.

Definition parse_country_info (lines : list string) : country_info :=
  foldl add_alias (foldl country_line no_countries lines) aliases.

(** What the world extractor reads of [countries.json]. *)
Definition tables (info : country_info) : World.countries_table :=
  {| World.code_to_name := code_to_name info;
     World.name_to_code := name_to_code info |}.

(** What holds of the tables all along [parse_country_info]: a name is
    lower-cased and leads to a code that is not empty and has a name. *)
Definition consistent (info : country_info) : Prop :=
  ∀ n c, PyDict.get (name_to_code info) n = Some c →
         PyStr.lower n = n ∧ PyStr.is_empty c = false
         ∧ PyDict.mem (code_to_name info) c = true.

End WorldSetup.

(** ** More sample data *)

Module Samples.
Import Aggregator.

(** The table that a counting loop returned. *)
Definition table_of {A} (run : result (list A)) : list A :=
  match run with
  | Ok geo_counts => geo_counts
  | KeyError _ => []
  end.

(** The records that a run returned. *)
Definition records_of {A B} (run : result (A * list B)) : list B :=
  match run with
  | Ok r => r.2
  | KeyError _ => []
  end.

Definition two_cities : list document :=
  [Examples.doc "a" "Chicago, Illinois";
   Examples.doc "b" "Boston, Massachusetts and Chicago, Illinois"].

Definition two_capitals : list document :=
  [Examples.doc "a" "Paris, France";
   Examples.doc "b" "London, United Kingdom and Paris, France"].

(** A document with neither title nor text. *)
Definition blank : document := {| _id := "blank"; title := None; text := None |}.

(** A gazetteer whose record of Chicago has lost its name. *)
Definition nameless : Domestic.info :=
  {| Domestic.name := None; Domestic.state := Some "Illinois";
     Domestic.state_abbrev := Some "IL"; Domestic.county := None;
     Domestic.lat := Some 41.85%Q; Domestic.lng := Some (-87.65)%Q;
     Domestic.type := Some "place";
     Domestic.ambiguous := None; Domestic.possible_states := None |}.

Definition broken : Domestic.GeographyExtractor :=
  {| Domestic.locations := {[ "chicago, illinois" := nameless ]};
     Domestic.city_states := ∅;
     Domestic.states := Domestic.Setup.states_json;
     Domestic.counties := ∅;
     Domestic.common_words := ∅;
     Domestic.common_names := ∅ |}.

(** The sample extractors with a list of common words. *)
Definition with_words : Domestic.GeographyExtractor :=
  {| Domestic.locations := Domestic.locations Examples.US.extractor;
     Domestic.city_states := Domestic.city_states Examples.US.extractor;
     Domestic.states := Domestic.states Examples.US.extractor;
     Domestic.counties := Domestic.counties Examples.US.extractor;
     Domestic.common_words := {[ "chicago" ]};
     Domestic.common_names := Domestic.common_names Examples.US.extractor |}.

Definition with_lists : World.WorldGeographyExtractor :=
  {| World.locations := World.locations Examples.Earth.extractor;
     World.city_countries := World.city_countries Examples.Earth.indexed;
     World.countries := World.countries Examples.Earth.extractor;
     World.common_words := {[ "paris" ]};
     World.common_names := {[ "paris" ]} |}.

(** A data directory with the three required files and a list of first
    names. *)
Definition data_dir : Startup.US.data_dir :=
  {| Startup.US.us_locations_json := Some (Domestic.locations Examples.US.extractor);
     Startup.US.city_states_index_json := Some (Domestic.city_states Examples.US.extractor);
     Startup.US.states_json := Some Domestic.Setup.states_json;
     Startup.US.us_counties_json := None;
     Startup.US.common_words_txt := None;
     Startup.US.first_names_txt := Some ["  Stephen "; EmptyString; "Jordan"];
     Startup.US.last_names_txt := None |}.

(** A text of 50000 characters that begins with a city. *)
Definition long_text : string :=
  "Paris, France " +:+ String.string_of_list_ascii (repeat "x"%char (Z.to_nat 49986)).

(** The places of a small [us_cities.csv], under their two keys. *)
Definition places : list (string * Domestic.info) :=
  [("springfield, illinois",
    Examples.US.place_entry "Springfield" "Illinois" "IL" "Sangamon" 39.8 (-89.64));
   ("springfield, il",
    Examples.US.place_entry "Springfield" "Illinois" "IL" "Sangamon" 39.8 (-89.64));
   ("springfield, massachusetts",
    Examples.US.place_entry "Springfield" "Massachusetts" "MA" "Hampden" 42.1 (-72.59));
   ("chicago, illinois", Examples.US.chicago)].

Definition places_index : list (string * list Domestic.state_info) :=
  [("springfield", [Examples.US.springfield_il; Examples.US.springfield_ma]);
   ("chicago",
    [ {| Domestic.si_state := "Illinois"; Domestic.si_state_abbrev := "IL";
         Domestic.si_lat := 41.85; Domestic.si_lng := -87.65 |} ])].

Definition from_places : Domestic.GeographyExtractor :=
  {| Domestic.locations := CensusSetup.saved places;
     Domestic.city_states := CensusSetup.saved places_index;
     Domestic.states := Domestic.Setup.states_json;
     Domestic.counties := ∅;
     Domestic.common_words := ∅;
     Domestic.common_names := ∅ |}.

(** Three lines of [countryInfo.txt]: a comment, France and the United
    Kingdom, with their tabs. *)
Definition tab : string := String "009"%char EmptyString.
Definition country_lines : list string :=
  ["# ISO" +:+ tab +:+ "ISO3" +:+ tab +:+ "ISO-Numeric" +:+ tab +:+ "fips" +:+ tab
   +:+ "Country";
   "FR" +:+ tab +:+ "FRA" +:+ tab +:+ "250" +:+ tab +:+ "FR" +:+ tab +:+ "France"
   +:+ tab +:+ "Paris";
   "GB" +:+ tab +:+ "GBR" +:+ tab +:+ "826" +:+ tab +:+ "UK" +:+ tab
   +:+ "United Kingdom" +:+ tab +:+ "London"].

(** The sample gazetteer with the tables parsed from these lines. *)
Definition from_lines : World.WorldGeographyExtractor :=
  {| World.locations := World.locations Examples.Earth.extractor;
     World.city_countries := ∅;
     World.countries := WorldSetup.tables (WorldSetup.parse_country_info country_lines);
     World.common_words := ∅;
     World.common_names := ∅ |}.

End Samples.

(** * Facts about the counting loop *)

Module AggregatorFacts.
Import Aggregator.

Lemma rbind_Ok {A B} (m : result A) (f : A → result B) (b : B) :
  m ≫= f = Ok b → ∃ a, m = Ok a ∧ f a = Ok b.
Proof. destruct m as [a|k]; simpl; [eauto | discriminate]. Qed.

Section Table.
Context {validated : Type}.
Implicit Types (geo : table validated) (c : counter validated).

Lemma get_modify key f geo key' :
  PyDict.get (modify key f geo) key'
  = if decide (key = key') then Some (f (counter_of geo key))
    else PyDict.get geo key'.
Proof.
  unfold counter_of. induction geo as [|[k c] geo IH]; simpl.
  - destruct (String.eqb_spec key key'); case_decide; congruence.
  - 
    destruct (String.eqb_spec k key) as [->|Hk]; simpl.
    + destruct (String.eqb_spec key key'); case_decide; congruence.
    + rewrite IH. destruct (String.eqb_spec k key'); case_decide; congruence.
Qed.

Lemma counter_of_modify key f geo key' :
  counter_of (modify key f geo) key'
  = if decide (key = key') then f (counter_of geo key) else counter_of geo key'.
Proof. unfold counter_of at 1. rewrite get_modify. by case_decide. Qed.

Lemma get_None_keys geo key : PyDict.get geo key = None ↔ key ∉ PyDict.keys geo.
Proof.
  induction geo as [|[k c] geo IH]; simpl.
  - split; [intros _; apply not_elem_of_nil | done].
  - rewrite not_elem_of_cons. destruct (String.eqb_spec k key) as [->|Hk].
    + split; [discriminate | by intros [? _]].
    + rewrite IH. split; [by intros ?; split; [congruence|] | by intros [_ ?]].
Qed.

Lemma keys_modify key f geo :
  PyDict.keys (modify key f geo)
  = if decide (key ∈ PyDict.keys geo) then PyDict.keys geo
    else PyDict.keys geo ++ [key].
Proof.
  unfold PyDict.keys. induction geo as [|[k c] geo IH]; cbn [modify].
  - rewrite decide_False; [done | apply not_elem_of_nil].
  - destruct (String.eqb_spec k key) as [->|Hk]; rewrite !fmap_cons; cbn [fst].
    + rewrite decide_True; [done | left].
    + rewrite IH. repeat case_decide; try done; set_solver.
Qed.

Lemma NoDup_modify key f geo :
  NoDup (PyDict.keys geo) → NoDup (PyDict.keys (modify key f geo)).
Proof.
  intros H. rewrite keys_modify. case_decide; [done|].
  apply NoDup_app. split_and!; [done | | apply NoDup_singleton].
  intros x Hx ->%list_elem_of_singleton. done.
Qed.

Lemma Forall_modify (P : counter validated → Prop) key f geo :
  Forall (λ kc, P kc.2) geo →
  P (f (counter_of geo key)) →
  Forall (λ kc, P kc.2) (modify key f geo).
Proof.
  unfold counter_of. induction 1 as [|[k c] geo Hc Hgeo IH]; simpl; intros Hf.
  - by constructor.
  - destruct (String.eqb_spec k key) as [->|Hk]; simpl in *.
    + by constructor.
    + constructor; [done | by apply IH].
Qed.

Lemma Forall_counter_of (P : counter validated → Prop) geo key :
  Forall (λ kc, P kc.2) geo → P fresh → P (counter_of geo key).
Proof.
  unfold counter_of. induction 1 as [|[k c] geo Hc Hgeo IH]; simpl; intros Hf; [done|].
  destruct (String.eqb_spec k key); simpl; auto.
Qed.

Lemma elem_of_table geo key c :
  NoDup (PyDict.keys geo) → (key, c) ∈ geo → counter_of geo key = c.
Proof.
  unfold counter_of. induction geo as [|[k c'] geo IH]; simpl; intros Hnd Hin.
  - by apply elem_of_nil in Hin.
  - apply NoDup_cons in Hnd as [Hk Hnd]. apply elem_of_cons in Hin as [[= -> ->]|Hin].
    + by rewrite String.eqb_refl.
    + destruct (String.eqb_spec k key) as [->|]; [|by apply IH].
      exfalso. apply Hk. unfold PyDict.keys. apply list_elem_of_fmap. by exists (key, c).
Qed.
End Table.

Lemma take_snoc_cap {A} (n : nat) (h : list A) (x : A) :
  take n (h ++ [x]) = if S (length h) <=? n then take n h ++ [x] else take n h.
Proof.
  destruct (Nat.leb_spec (S (length h)) n).
  - rewrite !take_ge; [done | lia | rewrite length_app; simpl; lia].
  - rewrite take_app_le; [done | lia].
Qed.

Section Loop.
Context {candidate validated : Type}.
Variable extract_locations : string → list candidate.
Variable validate_and_geocode : candidate → option validated.
Variable has_lat : validated → bool.
Variable canonical_key : validated → result string.

Abbreviation count_location :=
  (count_location validate_and_geocode has_lat canonical_key).
Abbreviation entry_of := (entry_of validate_and_geocode has_lat canonical_key).
Abbreviation validated_entries :=
  (validated_entries validate_and_geocode has_lat canonical_key).
Abbreviation doc_keys :=
  (doc_keys extract_locations validate_and_geocode has_lat canonical_key).
Abbreviation count_document :=
  (count_document extract_locations validate_and_geocode has_lat canonical_key).
Abbreviation count_documents :=
  (count_documents extract_locations validate_and_geocode has_lat canonical_key).
Abbreviation hits := (hits extract_locations validate_and_geocode has_lat canonical_key).
Abbreviation tracks := (tracks extract_locations validate_and_geocode has_lat canonical_key).
Abbreviation sound := (sound has_lat).

Implicit Types (geo : table validated) (seen : gset string).

(** The loop body is [entry_of] followed by [count_entry]. *)
Lemma count_location_entry doc_id acc loc :
  count_location doc_id acc loc
  = (e ← entry_of loc;
     mret (match e with Some kv => count_entry doc_id acc kv | None => acc end)).
Proof.
  destruct acc as [seen geo]. unfold Aggregator.count_location, Aggregator.entry_of.
  destruct (validate_and_geocode loc) as [v|]; [|done].
  destruct (has_lat v); [|done].
  destruct (canonical_key v) as [key|k]; [|done]. simpl.
  unfold count_entry. simpl. by case_decide.
Qed.

Lemma for_each_entries doc_id l acc :
  for_each (count_location doc_id) l acc
  = (es ← validated_entries l; mret (foldl (count_entry doc_id) acc es)).
Proof.
  revert acc. induction l as [|loc l IH]; intros acc; [done|].
  cbn [for_each Aggregator.validated_entries]. rewrite count_location_entry.
  destruct (entry_of loc) as [e|k]; [|done]. simpl. rewrite IH.
  destruct (validated_entries l) as [es|k]; [|done]. by destruct e.
Qed.

Lemma entry_of_has_lat loc key v :
  entry_of loc = Ok (Some (key, v)) → has_lat v = true ∧ canonical_key v = Ok key.
Proof.
  unfold Aggregator.entry_of. destruct (validate_and_geocode loc) as [v'|]; [|done].
  destruct (has_lat v') eqn:Hlat; [|done].
  destruct (canonical_key v') as [key'|] eqn:Hkey; [|done]. simpl. by intros [= -> ->].
Qed.

Lemma validated_entries_has_lat l es :
  validated_entries l = Ok es → Forall (λ kv, has_lat kv.2 = true) es.
Proof.
  revert es. induction l as [|loc l IH]; intros es; simpl.
  - intros [= <-]. constructor.
  - destruct (entry_of loc) as [e|] eqn:He; [|done]. simpl.
    destruct (validated_entries l) as [es'|]; [|done]. simpl. intros [= <-].
    destruct e as [[key v]|]; [|by apply IH]. constructor; [|by apply IH].
    by apply entry_of_has_lat in He as [? _].
Qed.

Lemma validated_entries_elem l es loc kv :
  validated_entries l = Ok es → loc ∈ l → entry_of loc = Ok (Some kv) → kv ∈ es.
Proof.
  revert es. induction l as [|loc' l IH]; intros es; simpl.
  - by intros _ ?%elem_of_nil.
  - destruct (entry_of loc') as [e|] eqn:He; [|done]. simpl.
    destruct (validated_entries l) as [es'|]; [|done]. simpl. intros [= <-].
    intros [->|Hin]%elem_of_cons Hloc.
    + rewrite Hloc in He. injection He as <-. left.
    + destruct e; [right|]; by apply IH.
Qed.

(** The effect of one document's entries on the seen set and the table. *)
Lemma foldl_count_entry doc_id es seen geo key :
  let r := foldl (count_entry doc_id) (seen, geo) es in
  (key ∈ r.1 ↔ key ∈ seen ∨ key ∈ es.*1)
  ∧ (key ∈ seen ∨ key ∉ es.*1 → counter_of r.2 key = counter_of geo key)
  ∧ (key ∉ seen → key ∈ es.*1 →
     ∃ v, (key, v) ∈ es ∧ counter_of r.2 key = record_hit v doc_id (counter_of geo key)).
Proof.
  revert seen geo. induction es as [|[k v] es IH]; intros seen geo; cbn zeta.
  - simpl. split_and!; [set_solver | done | set_solver].
  - cbn [foldl]. rewrite fmap_cons. cbn [fst].
    unfold count_entry at 2 4 6. cbn [fst snd]. case_decide as Hk.
    + destruct (IH seen geo) as (IH1 & IH2 & IH3). split_and!.
      * rewrite IH1. set_solver.
      * intros [?|Hn]; apply IH2; [by left | right; set_solver].
      * intros Hs [->|Hin]%elem_of_cons; [done|].
        destruct (IH3 Hs Hin) as (v' & ? & ?). exists v'. split; [by right | done].
    + destruct (IH ({[k]} ∪ seen) (modify k (record_hit v doc_id) geo))
        as (IH1 & IH2 & IH3). split_and!.
      * rewrite IH1. set_solver.
      * intros [?|Hn].
        -- rewrite IH2; [|left; set_solver].
           rewrite counter_of_modify, decide_False; [done | congruence].
        -- apply not_elem_of_cons in Hn as [Hne Hn].
           rewrite IH2; [|by right].
           rewrite counter_of_modify, decide_False; [done | congruence].
      * intros Hs Hin. destruct (decide (key = k)) as [->|Hne].
        -- exists v. split; [left|].
           rewrite IH2; [|left; set_solver].
           by rewrite counter_of_modify, decide_True.
        -- apply elem_of_cons in Hin as [?|Hin]; [done|].
           destruct (IH3 ltac:(set_solver) Hin) as (v' & ? & Hc).
           exists v'. split; [by right|].
           rewrite Hc, counter_of_modify, decide_False; [done | congruence].
Qed.

Lemma sound_record_hit v doc_id (c : counter validated) :
  has_lat v = true → length (doc_ids c) = count c `min` 100 →
  sound (record_hit v doc_id c).
Proof.
  intros Hv Hc. unfold Aggregator.sound, record_hit. cbn [count doc_ids info].
  split_and!; [lia | | eauto].
  destruct (Nat.leb_spec (S (count c)) 100); [rewrite length_app; simpl|]; lia.
Qed.

Lemma foldl_count_entry_sound doc_id es seen geo :
  Forall (λ kv, has_lat kv.2 = true) es →
  NoDup (PyDict.keys geo) → Forall (λ kc, sound kc.2) geo →
  let r := foldl (count_entry doc_id) (seen, geo) es in
  NoDup (PyDict.keys r.2) ∧ Forall (λ kc, sound kc.2) r.2.
Proof.
  intros Hes. revert seen geo.
  induction Hes as [|[k v] es Hv Hes IH]; intros seen geo Hnd Hs; [done|].
  cbn [foldl]. unfold count_entry at 2 4. cbn [fst snd]. cbn zeta in IH.
  case_decide; [by apply IH|]. apply IH.
  - by apply NoDup_modify.
  - apply Forall_modify; [done|]. apply sound_record_hit; [done|].
    apply (Forall_counter_of (λ c, length (doc_ids c) = count c `min` 100)); [|done].
    eapply Forall_impl; [done|]. by intros ? (_ & ? & _).
Qed.

(** One document: the table moves exactly at the keys of the document. *)
Lemma count_document_Ok geo doc ks :
  doc_keys doc = Ok ks →
  ∃ geo', count_document geo doc = Ok geo'
    ∧ (∀ key, key ∈ ks →
         ∃ v, has_lat v = true
              ∧ counter_of geo' key = record_hit v (_id doc) (counter_of geo key))
    ∧ (∀ key, key ∉ ks → counter_of geo' key = counter_of geo key)
    ∧ (NoDup (PyDict.keys geo) → Forall (λ kc, sound kc.2) geo →
       NoDup (PyDict.keys geo') ∧ Forall (λ kc, sound kc.2) geo').
Proof.
  unfold Aggregator.doc_keys, Aggregator.count_document.
  rewrite for_each_entries.
  destruct (validated_entries _) as [es|] eqn:Hes; [|done]. simpl. intros [= <-].
  eexists. split; [done|].
  destruct (validated_entries_has_lat _ _ Hes) as [].
  - simpl. split_and!; try done. intros key Hk. by apply elem_of_nil in Hk.
  - pose proof (validated_entries_has_lat _ _ Hes) as Hlat. split_and!.
    + intros key Hk.
      destruct (foldl_count_entry (_id doc) (x :: l) ∅ geo key) as (_ & _ & H3).
      destruct (H3 ltac:(set_solver) Hk) as (v & Hin & Hc). exists v. split; [|done].
      rewrite Forall_forall in Hlat. apply (Hlat _ Hin).
    + intros key Hk.
      destruct (foldl_count_entry (_id doc) (x :: l) ∅ geo key) as (_ & H2 & _).
      apply H2. by right.
    + intros ??. by apply foldl_count_entry_sound.
Qed.

Lemma count_document_inv geo doc geo' :
  count_document geo doc = Ok geo' → ∃ ks, doc_keys doc = Ok ks.
Proof.
  unfold Aggregator.doc_keys, Aggregator.count_document.
  rewrite for_each_entries.
  destruct (validated_entries _) as [es|]; [eauto | done].
Qed.

Lemma hits_app key docs1 docs2 :
  hits key (docs1 ++ docs2) = hits key docs1 ++ hits key docs2.
Proof. unfold Aggregator.hits. apply flat_map_app. Qed.

(** The whole corpus: the table records, per key, how many documents hit
    it and the ids of the first hundred. *)
Lemma for_each_tracks docs done geo geo' :
  for_each count_document docs geo = Ok geo' →
  tracks geo done → NoDup (PyDict.keys geo) → Forall (λ kc, sound kc.2) geo →
  tracks geo' (done ++ docs)
  ∧ NoDup (PyDict.keys geo') ∧ Forall (λ kc, sound kc.2) geo'.
Proof.
  revert done geo. induction docs as [|doc docs IH]; intros done geo; cbn [for_each].
  - intros [= <-]. by rewrite app_nil_r.
  - intros Hrun Htr Hnd Hs. apply rbind_Ok in Hrun as (geo1 & Hdoc & Hrun).
    destruct (count_document_inv _ _ _ Hdoc) as [ks Hks].
    destruct (count_document_Ok geo doc ks Hks) as (geo1' & Hdoc' & Hin & Hout & Hinv).
    rewrite Hdoc in Hdoc'. injection Hdoc' as <-.
    destruct (Hinv Hnd Hs) as [Hnd1 Hs1].
    replace (done ++ doc :: docs) with ((done ++ [doc]) ++ docs)
      by (by rewrite <- app_assoc).
    apply (IH (done ++ [doc]) geo1 Hrun); [|done..].
    intros key. destruct (Htr key) as [Hc Hi].
    rewrite hits_app. unfold Aggregator.hits at 2 4. cbn [flat_map]. rewrite Hks, app_nil_r.
    unfold count_of, ids_of in *. case_decide as Hk.
    + destruct (Hin key Hk) as (v & _ & ->). unfold record_hit. cbn [count doc_ids].
      rewrite length_app, take_snoc_cap, Hc, Hi. split; [simpl; lia | done].
    + rewrite (Hout key Hk), !app_nil_r. done.
Qed.

Lemma count_documents_tracks docs geo :
  count_documents docs = Ok geo →
  tracks geo docs ∧ NoDup (PyDict.keys geo) ∧ Forall (λ kc, sound kc.2) geo.
Proof.
  intros Hrun. apply (for_each_tracks docs [] [] geo Hrun).
  - by intros key.
  - constructor.
  - constructor.
Qed.

(** The run fails only on a document whose keys cannot be formed. *)
Lemma for_each_total docs geo :
  Forall (λ doc, ∃ ks, doc_keys doc = Ok ks) docs →
  ∃ geo', for_each count_document docs geo = Ok geo'.
Proof.
  intros H. revert geo. induction H as [|doc docs [ks Hks] _ IH]; intros geo.
  - by eexists.
  - cbn [for_each]. destruct (count_document_Ok geo doc ks Hks) as (geo1 & -> & _).
    simpl. apply IH.
Qed.

(** With a key that never fails, no document fails. *)
Lemma doc_keys_total doc :
  (∀ v, ∃ key, canonical_key v = Ok key) → ∃ ks, doc_keys doc = Ok ks.
Proof.
  intros Hkey. unfold Aggregator.doc_keys.
  assert (∀ l, ∃ es, validated_entries l = Ok es) as Htot.
  { induction l as [|loc l [es IH]]; [by eexists|]. simpl.
    assert (∃ e, entry_of loc = Ok e) as [e ->].
    { unfold Aggregator.entry_of. destruct (validate_and_geocode loc) as [v|]; [|by eexists].
      destruct (has_lat v); [|by eexists]. destruct (Hkey v) as [key ->]. by eexists. }
    rewrite IH. by eexists. }
  destruct (Htot (extract_locations (full_text doc))) as [es ->]. by eexists.
Qed.

(** Foldl keeps what every step on a member keeps. *)
Lemma foldl_invariant {A B} (I : B → Prop) (f : B → A → B) (l : list A) (b : B) :
  (∀ b x, x ∈ l → I b → I (f b x)) → I b → I (foldl f b l).
Proof.
  revert b. induction l as [|x l IH]; intros b Hstep Hb; [done|].
  cbn [foldl]. apply IH.
  - intros b' y Hy. apply Hstep. by right.
  - apply Hstep; [left | done].
Qed.

(** Foldl reaches every member: what a step establishes for its element,
    and later steps keep, holds of all elements at the end. *)
Lemma foldl_covers {A B} (Q : A → B → Prop) (f : B → A → B) (l : list A) (b : B) :
  (∀ b x, Q x (f b x)) → (∀ b x y, Q x b → Q x (f b y)) →
  ∀ x, x ∈ l → Q x (foldl f b l).
Proof.
  intros Hset Hkeep.
  assert (∀ l b x, Q x b → Q x (foldl f b l)) as Hmono.
  { clear l b. induction l as [|y l IH]; intros b x Hx; [done|].
    cbn [foldl]. by apply IH, Hkeep. }
  revert b. induction l as [|y l IH]; intros b x Hx; [by apply elem_of_nil in Hx|].
  cbn [foldl]. apply elem_of_cons in Hx as [->|Hx]; [apply Hmono, Hset | by apply IH].
Qed.
End Loop.
End AggregatorFacts.

(** * Facts about strings *)

Module PyStrFacts.
Import PyStr.

Lemma lower_app a b : lower (a +:+ b) = lower a +:+ lower b.
Proof. induction a as [|c a IH]; simpl; [done | by rewrite IH]. Qed.

Lemma is_empty_app_r a c b : is_empty (a +:+ String c b) = false.
Proof. by destruct a. Qed.

Lemma full_text_not_empty doc : is_empty (Aggregator.full_text doc) = false.
Proof. unfold Aggregator.full_text. apply is_empty_app_r. Qed.

End PyStrFacts.

(** * Facts about the domestic pipeline *)

Module DomesticFacts.
Import Aggregator Domestic AggregatorFacts.

Section Extraction.
Variable self : GeographyExtractor.

Lemma state_name_extracted text state_name :
  state_name ∈ PyDict.keys (full_to_abbrev (states self)) →
  PyStr.is_empty text = false →
  PyStr.contains state_name text = true →
  state_name ∈ extract_locations self text.
Proof.
  intros Hkey Hne Hin. unfold extract_locations, extract_locations_regex.
  rewrite Hne. rewrite !elem_of_app. do 5 right.
  unfold state_name_hits. by apply list_elem_of_filter.
Qed.

Lemma validate_direct location_str e :
  locations self !! PyStr.strip (PyStr.lower location_str) = Some e →
  validate_and_geocode self location_str = Some e.
Proof. unfold validate_and_geocode. by intros ->. Qed.

Lemma validate_bare_city location_str l :
  let loc_lower := PyStr.strip (PyStr.lower location_str) in
  PyStr.contains "," loc_lower = false →
  locations self !! loc_lower = None →
  counties self !! loc_lower = None →
  city_states self !! loc_lower = Some l →
  1 < length l →
  ∃ s, head l = Some s
       ∧ validate_and_geocode self location_str
         = Some (resolved location_str s true (Some (si_state <$> l))).
Proof.
  intros loc_lower Hcomma Hloc Hcounty Hidx Hlen.
  unfold validate_and_geocode, county_state_lookup. fold loc_lower.
  rewrite Hloc, Hcounty, Hcomma, andb_false_r. cbn [or_else].
  unfold bare_city_lookup. rewrite Hidx.
  destruct l as [|s [|s' l]]; simpl in Hlen; [lia..|].
  exists s. done.
Qed.

End Extraction.

Section Finalization.
Variable self : GeographyExtractor.
Variable utcnow : nat → Z.

(** A record with a latitude is a true dict. *)
Lemma has_lat_truthy v : has_lat v = true → truthy v = true ∧ truthy_number (lat v) = true.
Proof. unfold has_lat. by intros [??]%andb_true_iff. Qed.

(** Every counter of a sound table is kept, with the record it holds. *)
Lemma kept_sound (data : counter info) :
  sound has_lat data → ∃ v, kept truthy data = Some v ∧ Aggregator.info data = Some v
                            ∧ has_lat v = true.
Proof.
  intros (Hc & _ & v & Hi & Hv). exists v. unfold kept. rewrite Hi.
  apply has_lat_truthy in Hv as Hv'. destruct Hv' as [-> _].
  destruct (Nat.leb_spec 1 (count data)); [done | lia].
Qed.

Lemma geo_docs_from_elem n geo r :
  r ∈ geo_docs_from utcnow n geo →
  ∃ m key data v, (key, data) ∈ geo ∧ kept truthy data = Some v
                  ∧ r = geo_doc utcnow m key v data.
Proof.
  revert n. induction geo as [|[key data] geo IH]; intros n; cbn [geo_docs_from].
  - by intros ?%elem_of_nil.
  - destruct (kept truthy data) as [v|] eqn:Hk.
    + intros [->|Hin]%elem_of_cons.
      * exists n, key, data, v. split_and!; [left | done..].
      * destruct (IH _ Hin) as (m & k' & d' & v' & ? & ? & ?).
        exists m, k', d', v'. split_and!; [by right | done..].
    + intros Hin. destruct (IH _ Hin) as (m & k' & d' & v' & ? & ? & ?).
      exists m, k', d', v'. split_and!; [by right | done..].
Qed.

Lemma geo_docs_from_keys n geo :
  GeoDoc.location_key <$> geo_docs_from utcnow n geo `sublist_of` PyDict.keys geo.
Proof.
  unfold PyDict.keys. revert n.
  induction geo as [|[key data] geo IH]; intros n; cbn [geo_docs_from]; [done|].
  rewrite fmap_cons. destruct (kept truthy data).
  - rewrite fmap_cons. by apply sublist_skip.
  - by apply sublist_cons.
Qed.

(** The counts of the records do not depend on the clock. *)
Lemma geo_docs_from_counts (utcnow' : nat → Z) n n' geo :
  (λ d, (GeoDoc.location_key d, GeoDoc.count d)) <$> geo_docs_from utcnow n geo
  = (λ d, (GeoDoc.location_key d, GeoDoc.count d)) <$> geo_docs_from utcnow' n' geo.
Proof.
  revert n n'. induction geo as [|[key data] geo IH]; intros n n'; [done|].
  cbn [geo_docs_from]. destruct (kept truthy data); [|apply IH].
  rewrite !fmap_cons. f_equal. apply IH.
Qed.

(** What a run leaves, record by record. *)
Lemma process_documents_records limit db db' geo_docs r :
  process_documents self utcnow limit db = Ok (db', geo_docs) →
  r ∈ geo_docs →
  let docs := limited limit (documents db) in
  let key := GeoDoc.location_key r in
  let hits := Domestic.hits self key docs in
  GeoDoc.count r = length hits
  ∧ 1 ≤ GeoDoc.count r
  ∧ GeoDoc.sample_doc_ids r = take 10 (take 100 hits)
  ∧ truthy_number (GeoDoc.lat r) = true.
Proof.
  unfold process_documents, Domestic.hits. intros Hrun Hr.
  apply rbind_Ok in Hrun as (geo & Hgeo & [= <- <-]).
  apply count_documents_tracks in Hgeo as (Htr & Hnd & Hs).
  apply geo_docs_from_elem in Hr as (m & key & data & v & Hin & Hk & ->).
  cbn [geo_doc GeoDoc.location_key GeoDoc.count GeoDoc.sample_doc_ids GeoDoc.lat].
  destruct (Htr key) as [Hc Hi]. unfold count_of, ids_of in *.
  rewrite (elem_of_table _ _ _ Hnd Hin) in Hc, Hi.
  rewrite Forall_forall in Hs. pose proof (Hs _ Hin) as Hd. cbn [snd] in Hd.
  destruct (kept_sound _ Hd) as (v' & Hk' & _ & Hv). rewrite Hk in Hk'.
  injection Hk' as <-. destruct Hd as (H1 & _).
  unfold sample. rewrite Hi. split_and!; [done.. | by apply has_lat_truthy].
Qed.

Lemma process_documents_keys limit db db' geo_docs :
  process_documents self utcnow limit db = Ok (db', geo_docs) →
  NoDup (GeoDoc.location_key <$> geo_docs).
Proof.
  unfold process_documents. intros Hrun.
  apply rbind_Ok in Hrun as (geo & Hgeo & [= <- <-]).
  apply count_documents_tracks in Hgeo as (_ & Hnd & _).
  eapply sublist_NoDup; [done | apply geo_docs_from_keys].
Qed.
End Finalization.
End DomesticFacts.

(** * Facts about the world pipeline *)

Module WorldFacts.
Import Aggregator World AggregatorFacts.

Section Extraction.
Variable self : WorldGeographyExtractor.

(** The two keys of the validator are one string. *)
Lemma key_ascii_is_key city country_name :
  PyStr.lower city +:+ ", " +:+ PyStr.lower country_name
  = PyStr.lower (city +:+ ", " +:+ country_name).
Proof. by rewrite !PyStrFacts.lower_app. Qed.

Lemma validate_single_lookup c : validate_and_geocode self c = single_lookup self c.
Proof.
  destruct c as [[city country_name] country_code].
  unfold validate_and_geocode, single_lookup. cbn [fst snd].
  rewrite key_ascii_is_key.
  by destruct (locations self !! _).
Qed.

Lemma doc_keys_Ok doc :
  ∃ ks, doc_keys self doc = Ok ks.
Proof. apply doc_keys_total. intros v. by eexists. Qed.

Lemma count_documents_Ok docs : ∃ geo, count_documents self docs = Ok geo.
Proof.
  apply for_each_total. apply Forall_forall. intros doc _. apply doc_keys_Ok.
Qed.

(** *** Pattern 3 *)


Lemma city_code_hit_elem city code c :
  c ∈ city_code_hit self (city, code) →
  (code ∉ us_states)
  ∧ ∃ country_name,
      let actual_code := if decide (code = "UK") then "GB" else code in
      PyDict.get (code_to_name (countries self)) actual_code = Some country_name
      ∧ known self (PyStr.lower city) country_name = true
      ∧ c = (city, country_name, actual_code).
Proof.
  unfold city_code_hit. case_decide as Hus; [by intros ?%elem_of_nil|].
  destruct (PyDict.get _ _) as [country_name|]; [|by intros ?%elem_of_nil].
  destruct (truthy_str _); [|by intros ?%elem_of_nil]. cbn [default].
  destruct (known _ _ _) eqn:Hk; [|by intros ?%elem_of_nil].
  intros ->%list_elem_of_singleton. split; [done|]. by exists country_name.
Qed.

(** *** Pattern 4 *)

Lemma proximity_hit_invariant text found country_mentions m city acc :
  m ∈ country_mentions → city ∈ window_cities text m →
  fallback_invariant self text found country_mentions acc →
  fallback_invariant self text found country_mentions (proximity_hit self m acc city).
Proof.
  destruct m as [[[country_start country_end] country_code] country_name].
  destruct acc as [locs found_cities].
  intros Hm Hcity (extra & H1 & H2 & H3 & H4). cbn [fst snd] in *. subst.
  unfold proximity_hit. case_decide as Hseen; [by exists extra|].
  destruct (known _ _ _) eqn:Hk; [|by exists extra].
  exists (extra ++ [(city, country_name, country_code)]). cbn [fst snd].
  split_and!.
  - by rewrite app_assoc.
  - unfold found_cities_of. rewrite fmap_app, list_to_set_app_L. set_solver.
  - apply Forall_app. split; [done|]. apply Forall_singleton.
    split_and!; cbn [fst snd]; [done | set_solver |].
    exists country_start, country_end. split; [done|]. apply Hcity.
  - rewrite fmap_app. apply NoDup_app. split_and!; [done | | apply NoDup_singleton].
    intros x Hx ->%list_elem_of_singleton. apply Hseen.
    apply elem_of_union_r. unfold found_cities_of. by apply elem_of_list_to_set.
Qed.

Lemma with_fallback_spec text found country_mentions :
  ∃ extra, with_fallback self text found country_mentions = found ++ extra
    ∧ Forall (justified self text found country_mentions) extra
    ∧ NoDup ((λ loc : candidate, PyStr.lower loc.1.1) <$> extra).
Proof.
  unfold with_fallback.
  assert (fallback_invariant self text found country_mentions
            (foldl (proximity_scan self text) (found, found_cities_of found)
                   country_mentions)) as (extra & ? & _ & ? & ?); [|by exists extra].
  apply foldl_invariant.
  - intros acc m Hm Hacc. unfold proximity_scan. apply foldl_invariant; [|done].
    intros acc' city Hcity. by apply proximity_hit_invariant.
  - exists []. cbn [fst snd]. split_and!; [by rewrite app_nil_r | | constructor..].
    unfold found_cities_of at 3. cbn. set_solver.
Qed.

Lemma proximity_hit_mono m acc city : acc.2 ⊆ (proximity_hit self m acc city).2.
Proof.
  destruct m as [[[? ?] ?] ?], acc as [locs found_cities]. unfold proximity_hit.
  case_decide; [done|]. destruct (known _ _ _); [|done]. cbn [snd]. set_solver.
Qed.

Lemma proximity_scan_mono text acc m : acc.2 ⊆ (proximity_scan self text acc m).2.
Proof.
  unfold proximity_scan. apply (foldl_invariant (λ a, acc.2 ⊆ a.2)); [|done].
  intros a city _ Ha. etrans; [exact Ha | apply proximity_hit_mono].
Qed.

(** Every word of a window that the gazetteer knows in the country of the
    mention ends up among the found cities. *)
Lemma with_fallback_complete text acc country_mentions m city :
  m ∈ country_mentions → city ∈ window_cities text m →
  known self (PyStr.lower city) m.2 = true →
  PyStr.lower city ∈ (foldl (proximity_scan self text) acc country_mentions).2.
Proof.
  intros Hm Hcity Hk. revert m Hm city Hcity Hk.
  apply (foldl_covers
           (λ m (a : list candidate * gset string),
              ∀ city, city ∈ window_cities text m →
                      known self (PyStr.lower city) m.2 = true →
                      PyStr.lower city ∈ a.2)).
  - intros a m city Hcity Hk. revert city Hcity Hk. unfold proximity_scan.
    apply (foldl_covers
             (λ city (a : list candidate * gset string),
                known self (PyStr.lower city) m.2 = true → PyStr.lower city ∈ a.2)).
    + intros [locs found_cities] city Hk.
      destruct m as [[[? ?] ?] country_name]. cbn [snd] in Hk.
      unfold proximity_hit. case_decide; [done|]. rewrite Hk. cbn [snd]. set_solver.
    + intros a' city y Hq Hk. by apply proximity_hit_mono, Hq.
  - intros a m m' Hq city Hcity Hk. by apply proximity_scan_mono, Hq.
Qed.

Lemma found_cities_of_elem found x :
  x ∈ found_cities_of found → ∃ c, c ∈ found ∧ PyStr.lower c.1.1 = x.
Proof.
  unfold found_cities_of. rewrite elem_of_list_to_set, list_elem_of_fmap.
  intros (c & -> & Hc). by exists c.
Qed.

Lemma with_fallback_covers text found country_mentions m city :
  m ∈ country_mentions → city ∈ window_cities text m →
  known self (PyStr.lower city) m.2 = true →
  ∃ c, c ∈ with_fallback self text found country_mentions
       ∧ PyStr.lower c.1.1 = PyStr.lower city.
Proof.
  intros Hm Hcity Hk. apply found_cities_of_elem.
  pose proof (with_fallback_complete text (found, found_cities_of found)
                country_mentions m city Hm Hcity Hk) as Hin.
  assert (fallback_invariant self text found country_mentions
            (foldl (proximity_scan self text) (found, found_cities_of found)
                   country_mentions)) as (extra & H1 & H2 & _).
  { apply foldl_invariant.
    - intros acc m' Hm' Hacc. unfold proximity_scan. apply foldl_invariant; [|done].
      intros acc' city' Hcity'. by apply proximity_hit_invariant.
    - exists []. cbn [fst snd]. split_and!; [by rewrite app_nil_r | | constructor..].
      unfold found_cities_of at 3. cbn. set_solver. }
  unfold with_fallback. rewrite H1. rewrite H2 in Hin.
  unfold found_cities_of in *. rewrite fmap_app, list_to_set_app_L. done.
Qed.

Lemma extract_locations_cases text :
  let text' := truncated text in
  let country_mentions := find_country_mentions self text' in
  ((PyStr.is_empty text = true ∨ country_mentions = [])
   ∧ extract_locations self text = [])
  ∨ (PyStr.is_empty text = false ∧ country_mentions ≠ []
     ∧ extract_locations self text
       = with_fallback self text' (adjacent self text') country_mentions).
Proof.
  intros text' country_mentions. unfold extract_locations.
  destruct (PyStr.is_empty text); [left; split; [by left | done]|].
  fold text'. fold country_mentions.
  destruct country_mentions as [|m ms]; [left; split; [by right | done]|].
  right. done.
Qed.

End Extraction.

Section Finalization.
Variable self : WorldGeographyExtractor.
Variable utcnow : nat → Z.

Lemma world_kept_sound (data : counter Info.t) :
  sound has_lat data → ∃ v, kept (λ _, true) data = Some v ∧ has_lat v = true.
Proof.
  intros (Hc & _ & v & Hi & Hv). exists v. unfold kept. rewrite Hi. cbn [andb].
  destruct (Nat.leb_spec 1 (count data)); [done | lia].
Qed.

Lemma world_geo_docs_from_elem n geo r :
  r ∈ geo_docs_from utcnow n geo →
  ∃ m key data v, (key, data) ∈ geo ∧ kept (λ _, true) data = Some v
                  ∧ r = geo_doc utcnow m key v data.
Proof.
  revert n. induction geo as [|[key data] geo IH]; intros n; cbn [geo_docs_from].
  - by intros ?%elem_of_nil.
  - destruct (kept _ data) as [v|] eqn:Hk.
    + intros [->|Hin]%elem_of_cons.
      * exists n, key, data, v. split_and!; [left | done..].
      * destruct (IH _ Hin) as (m & k' & d' & v' & ? & ? & ?).
        exists m, k', d', v'. split_and!; [by right | done..].
    + intros Hin. destruct (IH _ Hin) as (m & k' & d' & v' & ? & ? & ?).
      exists m, k', d', v'. split_and!; [by right | done..].
Qed.

Lemma world_geo_docs_from_keys n geo :
  GeoDoc.location_key <$> geo_docs_from utcnow n geo `sublist_of` PyDict.keys geo.
Proof.
  unfold PyDict.keys. revert n.
  induction geo as [|[key data] geo IH]; intros n; cbn [geo_docs_from]; [done|].
  rewrite fmap_cons. destruct (kept _ data).
  - rewrite fmap_cons. by apply sublist_skip.
  - by apply sublist_cons.
Qed.

Lemma world_geo_docs_from_counts (utcnow' : nat → Z) n n' geo :
  (λ d, (GeoDoc.location_key d, GeoDoc.count d)) <$> geo_docs_from utcnow n geo
  = (λ d, (GeoDoc.location_key d, GeoDoc.count d)) <$> geo_docs_from utcnow' n' geo.
Proof.
  revert n n'. induction geo as [|[key data] geo IH]; intros n n'; [done|].
  cbn [geo_docs_from]. destruct (kept _ data); [|apply IH].
  rewrite !fmap_cons. f_equal. apply IH.
Qed.

Lemma world_process_documents_records limit db db' geo_docs r :
  process_documents self utcnow limit db = Ok (db', geo_docs) →
  r ∈ geo_docs →
  let docs := limited limit (filter (λ d, short_enough d = true) (documents db)) in
  let key := GeoDoc.location_key r in
  let hits := World.hits self key docs in
  GeoDoc.count r = length hits
  ∧ 1 ≤ GeoDoc.count r
  ∧ GeoDoc.sample_doc_ids r = take 10 (take 100 hits)
  ∧ ¬ (GeoDoc.lat r == 0)%Q.
Proof.
  unfold process_documents, World.hits. intros Hrun Hr.
  apply rbind_Ok in Hrun as (geo & Hgeo & [= <- <-]).
  apply count_documents_tracks in Hgeo as (Htr & Hnd & Hs).
  apply world_geo_docs_from_elem in Hr as (m & key & data & v & Hin & Hk & ->).
  cbn [geo_doc GeoDoc.location_key GeoDoc.count GeoDoc.sample_doc_ids GeoDoc.lat].
  destruct (Htr key) as [Hc Hi]. unfold count_of, ids_of in *.
  rewrite (elem_of_table _ _ _ Hnd Hin) in Hc, Hi.
  rewrite Forall_forall in Hs. pose proof (Hs _ Hin) as Hd. cbn [snd] in Hd.
  destruct (world_kept_sound _ Hd) as (v' & Hk' & Hv). rewrite Hk in Hk'.
  injection Hk' as <-. destruct Hd as (H1 & _).
  unfold sample. rewrite Hi. split_and!; [done..|].
  unfold has_lat in Hv. apply negb_true_iff in Hv. intros Hz.
  apply Qeq_bool_iff in Hz. congruence.
Qed.

Lemma world_process_documents_keys limit db db' geo_docs :
  process_documents self utcnow limit db = Ok (db', geo_docs) →
  NoDup (GeoDoc.location_key <$> geo_docs).
Proof.
  unfold process_documents. intros Hrun.
  apply rbind_Ok in Hrun as (geo & Hgeo & [= <- <-]).
  apply count_documents_tracks in Hgeo as (_ & Hnd & _).
  eapply sublist_NoDup; [done | apply world_geo_docs_from_keys].
Qed.
End Finalization.
End WorldFacts.

(** * The properties of the specification *)

Import Aggregator.

Lemma filter_eq_elem (key : string) (ks : list string) :
  1 ≤ length (filter (λ x, x = key) ks) → key ∈ ks.
Proof.
  destruct (filter _ ks) as [|x l] eqn:Hf; simpl; [lia|]. intros _.
  assert (x ∈ filter (λ x, x = key) ks) as Hx by (rewrite Hf; left).
  by apply list_elem_of_filter in Hx as [-> ?].
Qed.

(** The loop of either pipeline counts a key of the document once. *)
Lemma count_document_once {candidate validated : Type}
      (extract_locations : string → list candidate)
      (validate_and_geocode : candidate → option validated)
      (has_lat : validated → bool) (canonical_key : validated → result string)
      (geo : table validated) (doc : document) (ks : list string) (key : string) :
  Aggregator.doc_keys extract_locations validate_and_geocode has_lat canonical_key doc
  = Ok ks →
  key ∈ ks →
  ∃ geo',
    Aggregator.count_document extract_locations validate_and_geocode has_lat
      canonical_key geo doc = Ok geo'
    ∧ count_of geo' key = count_of geo key + 1.
Proof.
  intros Hks Hin.
  destruct (AggregatorFacts.count_document_Ok _ _ _ _ geo doc ks Hks)
    as (geo' & Hrun & Hhit & _).
  exists geo'. split; [done|]. unfold count_of.
  destruct (Hhit key Hin) as (v & _ & ->). simpl. lia.
Qed.

(** C1. Per-document deduplication: in both pipelines, a document whose
    extracted and validated candidates carry the canonical key [key]
    [k >= 1] times is processed without error and raises the count of
    [key] by exactly 1. *)
Theorem per_document_dedup :
  (∀ (extractor : Domestic.GeographyExtractor) geo_counts doc ks key k,
     Domestic.doc_keys extractor doc = Ok ks →
     length (filter (λ x, x = key) ks) = k → 1 ≤ k →
     ∃ geo_counts',
       Domestic.count_document extractor geo_counts doc = Ok geo_counts'
       ∧ count_of geo_counts' key = count_of geo_counts key + 1)
  ∧ (∀ (extractor : World.WorldGeographyExtractor) geo_counts doc ks key k,
       World.doc_keys extractor doc = Ok ks →
       length (filter (λ x, x = key) ks) = k → 1 ≤ k →
       ∃ geo_counts',
         World.count_document extractor geo_counts doc = Ok geo_counts'
         ∧ count_of geo_counts' key = count_of geo_counts key + 1).
Proof.
  split; intros extractor geo doc ks key k Hks <- Hk;
    apply (count_document_once _ _ _ _ geo doc ks key Hks), filter_eq_elem, Hk.
Qed.

Lemma per_document_dedup_witness :
  (∃ geo_counts',
      Domestic.count_document Examples.US.extractor [] Examples.US.three_mentions
      = Ok geo_counts'
      ∧ count_of geo_counts' "chicago, illinois" = 0 + 1)
  ∧ (∃ geo_counts',
        World.count_document Examples.Earth.extractor []
          (Examples.doc "w" "Paris, France and again Paris (France)")
        = Ok geo_counts'
        ∧ count_of geo_counts' "paris, france" = 0 + 1).
Proof.
  split.
  - apply (proj1 per_document_dedup Examples.US.extractor [] Examples.US.three_mentions
             ["chicago, illinois"; "chicago, illinois"; "chicago, illinois"; "illinois"]
             "chicago, illinois" 3).
    + vm_compute. reflexivity.
    + vm_compute. reflexivity.
    + lia.
  - apply (proj2 per_document_dedup Examples.Earth.extractor []
             (Examples.doc "w" "Paris, France and again Paris (France)")
             ["paris, france"; "paris, france"] "paris, france" 2).
    + vm_compute. reflexivity.
    + vm_compute. reflexivity.
    + lia.
Defined.

(** C2, as stated, fails.  "Washington" has no comma and stands in the
    disambiguation index under two regions, yet the validator answers with
    the state record found by the direct lookup: no [ambiguous] flag and no
    candidate list. *)
Lemma bare_city_counterexample :
  PyStr.contains "," (PyStr.strip (PyStr.lower "Washington")) = false
  ∧ Domestic.city_states Examples.US.extractor !! PyStr.strip (PyStr.lower "Washington")
    = Some [Examples.US.washington_dc; Examples.US.washington_wa]
  ∧ Domestic.validate_and_geocode Examples.US.extractor "Washington"
    = Some Examples.US.washington
  ∧ ¬ (∃ r ps, Domestic.validate_and_geocode Examples.US.extractor "Washington" = Some r
               ∧ Domestic.ambiguous r = Some true
               ∧ Domestic.possible_states r = Some ps ∧ length ps = 2).
Proof.
  split_and!; [by vm_compute..|].
  intros (r & ps & Hr & Ha & _). vm_compute in Hr. injection Hr as <-. discriminate.
Qed.

(** C2, amended.  Domestic validator: a name without comma that is a key
    neither of the places nor of the counties, and that the disambiguation
    index lists under [N > 1] regions, resolves to the first entry of its
    list, with [ambiguous = True] and the [N] regions as [possible_states].
    A name that is itself a key of the places is answered by the direct
    lookup.  World validator: it has no disambiguation step; its answer is
    read from [locations] alone, whatever the index [city_countries]
    holds. *)
Theorem bare_city_disambiguation :
  (∀ (self : Domestic.GeographyExtractor) location_str e,
     Domestic.locations self !! PyStr.strip (PyStr.lower location_str) = Some e →
     Domestic.validate_and_geocode self location_str = Some e)
  ∧ (∀ (self : Domestic.GeographyExtractor) location_str l,
     let loc_lower := PyStr.strip (PyStr.lower location_str) in
     PyStr.contains "," loc_lower = false →
     Domestic.locations self !! loc_lower = None →
     Domestic.counties self !! loc_lower = None →
     Domestic.city_states self !! loc_lower = Some l →
     1 < length l →
     ∃ s r ps,
       head l = Some s
       ∧ Domestic.validate_and_geocode self location_str = Some r
       ∧ Domestic.name r = Some location_str
       ∧ Domestic.state r = Some (Domestic.si_state s)
       ∧ Domestic.state_abbrev r = Some (Domestic.si_state_abbrev s)
       ∧ Domestic.lat r = Some (Domestic.si_lat s)
       ∧ Domestic.lng r = Some (Domestic.si_lng s)
       ∧ Domestic.ambiguous r = Some true
       ∧ Domestic.possible_states r = Some ps
       ∧ ps = Domestic.si_state <$> l
       ∧ length ps = length l)
  ∧ (∀ (self self' : World.WorldGeographyExtractor) c,
       World.locations self = World.locations self' →
       World.validate_and_geocode self c = World.validate_and_geocode self' c).
Proof.
  split; [|split].
  - intros self location_str e. apply DomesticFacts.validate_direct.
  - intros self location_str l loc_lower Hcomma Hloc Hcounty Hidx Hlen.
    destruct (DomesticFacts.validate_bare_city self location_str l
                Hcomma Hloc Hcounty Hidx Hlen) as (s & Hs & Hv).
    exists s, (Domestic.resolved location_str s true (Some (Domestic.si_state <$> l))),
           (Domestic.si_state <$> l).
    split_and!; try done. by rewrite length_fmap.
  - intros self self' [[city country_name] country_code] Heq.
    unfold World.validate_and_geocode. by rewrite Heq.
Qed.

Lemma bare_city_disambiguation_witness :
  Domestic.validate_and_geocode Examples.US.extractor "Washington"
  = Some Examples.US.washington
  ∧ (∃ s r ps,
      head [Examples.US.springfield_il; Examples.US.springfield_ma;
            Examples.US.springfield_mo] = Some s
      ∧ Domestic.validate_and_geocode Examples.US.extractor "Springfield" = Some r
      ∧ Domestic.name r = Some "Springfield"
      ∧ Domestic.state r = Some (Domestic.si_state s)
      ∧ Domestic.state_abbrev r = Some (Domestic.si_state_abbrev s)
      ∧ Domestic.lat r = Some (Domestic.si_lat s)
      ∧ Domestic.lng r = Some (Domestic.si_lng s)
      ∧ Domestic.ambiguous r = Some true
      ∧ Domestic.possible_states r = Some ps
      ∧ ps = Domestic.si_state <$> [Examples.US.springfield_il; Examples.US.springfield_ma;
                                    Examples.US.springfield_mo]
      ∧ length ps = 3)
  ∧ World.validate_and_geocode Examples.Earth.extractor ("Paris", "France", "FR")
    = World.validate_and_geocode Examples.Earth.indexed ("Paris", "France", "FR").
Proof.
  split; [|split].
  - apply (proj1 bare_city_disambiguation Examples.US.extractor "Washington").
    vm_compute. reflexivity.
  - apply (proj1 (proj2 bare_city_disambiguation) Examples.US.extractor "Springfield"
             [Examples.US.springfield_il; Examples.US.springfield_ma;
              Examples.US.springfield_mo]).
    + vm_compute. reflexivity.
    + vm_compute. reflexivity.
    + vm_compute. reflexivity.
    + vm_compute. reflexivity.
    + simpl. lia.
  - apply (proj2 (proj2 bare_city_disambiguation)
             Examples.Earth.extractor Examples.Earth.indexed).
    reflexivity.
Defined.

(** C3, as stated, fails.  "Guam" is a state name of [states.json] and the
    text contains it; the candidate is emitted and resolved by the
    last-resort rule to a state record, which has no latitude, so the
    aggregator does not count it. *)
Lemma state_name_counterexample :
  "Guam" ∈ PyDict.keys (Domestic.full_to_abbrev (Domestic.states Examples.US.extractor))
  ∧ PyStr.contains "Guam" (full_text (Examples.doc "g" "Guam")) = true
  ∧ Domestic.extract_locations Examples.US.extractor (full_text (Examples.doc "g" "Guam"))
    = ["Guam"]
  ∧ Domestic.validate_and_geocode Examples.US.extractor "Guam"
    = Some {| Domestic.name := Some "Guam"; Domestic.state := None;
              Domestic.state_abbrev := None; Domestic.county := None;
              Domestic.lat := None; Domestic.lng := None;
              Domestic.type := Some "state"; Domestic.ambiguous := None;
              Domestic.possible_states := None |}
  ∧ Domestic.count_document Examples.US.extractor [] (Examples.doc "g" "Guam") = Ok []
  ∧ ¬ (∃ geo_counts',
         Domestic.count_document Examples.US.extractor [] (Examples.doc "g" "Guam")
         = Ok geo_counts'
         ∧ count_of geo_counts' "guam" = count_of ([] : table Domestic.info) "guam" + 1).
Proof.
  split_and!; [|by vm_compute..|].
  - vm_compute. do 53 right. left.
  - intros (geo & Hrun & Hc). vm_compute in Hrun. injection Hrun as <-.
    vm_compute in Hc. discriminate.
Qed.

(** C3, amended.  A full state name found in the title and text of a
    document is emitted as a candidate.  When the gazetteer holds a
    state-level record with a non-zero latitude under that name, the
    validator resolves the candidate to it and the document raises the count
    of the lower-case state name by exactly 1. *)
Theorem state_name_counted (self : Domestic.GeographyExtractor)
        geo_counts doc ks state_name e :
  state_name ∈ PyDict.keys (Domestic.full_to_abbrev (Domestic.states self)) →
  PyStr.contains state_name (full_text doc) = true →
  Domestic.locations self !! PyStr.strip (PyStr.lower state_name) = Some e →
  Domestic.type e = Some "state" →
  Domestic.name e = Some state_name →
  Domestic.has_lat e = true →
  Domestic.doc_keys self doc = Ok ks →
  state_name ∈ Domestic.extract_locations self (full_text doc)
  ∧ Domestic.validate_and_geocode self state_name = Some e
  ∧ ∃ geo_counts',
      Domestic.count_document self geo_counts doc = Ok geo_counts'
      ∧ count_of geo_counts' (PyStr.lower state_name)
        = count_of geo_counts (PyStr.lower state_name) + 1.
Proof.
  intros Hkey Hin Hloc Htype Hname Hlat Hks.
  assert (state_name ∈ Domestic.extract_locations self (full_text doc)) as Hcand.
  { apply DomesticFacts.state_name_extracted;
      [done | apply PyStrFacts.full_text_not_empty | done]. }
  pose proof (DomesticFacts.validate_direct self state_name e Hloc) as Hval.
  split_and!; [done..|].
  apply (count_document_once _ _ _ _ geo_counts doc ks _ Hks).
  unfold Domestic.doc_keys, Aggregator.doc_keys in Hks.
  destruct (validated_entries _ _ _ _) as [es|] eqn:Hes; [|done].
  simpl in Hks. injection Hks as <-.
  apply list_elem_of_fmap. exists (PyStr.lower state_name, e). split; [done|].
  apply (AggregatorFacts.validated_entries_elem _ _ _ _ _ state_name _ Hes Hcand).
  unfold Aggregator.entry_of. rewrite Hval, Hlat.
  unfold Domestic.canonical_key. rewrite decide_True by done. by rewrite Hname.
Qed.

Lemma state_name_counted_witness :
  "Illinois" ∈ Domestic.extract_locations Examples.US.extractor
                 (full_text (Examples.doc "i" "A plant in Illinois"))
  ∧ Domestic.validate_and_geocode Examples.US.extractor "Illinois"
    = Some Examples.US.illinois
  ∧ ∃ geo_counts',
      Domestic.count_document Examples.US.extractor []
        (Examples.doc "i" "A plant in Illinois") = Ok geo_counts'
      ∧ count_of geo_counts' (PyStr.lower "Illinois")
        = count_of ([] : table Domestic.info) (PyStr.lower "Illinois") + 1.
Proof.
  apply (state_name_counted Examples.US.extractor []
           (Examples.doc "i" "A plant in Illinois") ["illinois"] "Illinois"
           Examples.US.illinois).
  - vm_compute. do 12 right. left.
  - vm_compute. reflexivity.
  - vm_compute. reflexivity.
  - reflexivity.
  - reflexivity.
  - vm_compute. reflexivity.
  - vm_compute. reflexivity.
Defined.

Lemma take_take_10_100 {A} (l : list A) : take 10 (take 100 l) = take 10 l.
Proof. rewrite take_take. f_equal. Qed.

Lemma sample_of_many {A} (l : list A) :
  100 < length l →
  length (take 10 (take 100 l)) = 10 ∧ take 10 (take 100 l) ⊆ take 100 l.
Proof.
  intros Hl. split.
  - rewrite !length_take. lia.
  - apply subseteq_take.
Qed.

(** C4. Sample-list bounding, in both pipelines: the record of a key counts
    the documents that hit the key, and its stored sample is the first 10
    of the ids kept in memory, which are those of the first 100 documents
    that hit the key.  A key counted more than 100 times therefore stores
    exactly 10 ids, all from among the first 100 hits. *)
Theorem sample_list_bounded :
  (∀ (extractor : Domestic.GeographyExtractor) docs geo_counts key,
     Domestic.count_documents extractor docs = Ok geo_counts →
     count_of geo_counts key = length (Domestic.hits extractor key docs)
     ∧ ids_of geo_counts key = take 100 (Domestic.hits extractor key docs))
  ∧ (∀ (extractor : World.WorldGeographyExtractor) docs geo_counts key,
       World.count_documents extractor docs = Ok geo_counts →
       count_of geo_counts key = length (World.hits extractor key docs)
       ∧ ids_of geo_counts key = take 100 (World.hits extractor key docs))
  ∧ (∀ (extractor : Domestic.GeographyExtractor) utcnow limit db db' geo_docs r,
     Domestic.process_documents extractor utcnow limit db = Ok (db', geo_docs) →
     r ∈ geo_docs →
     let hits := Domestic.hits extractor (Domestic.GeoDoc.location_key r)
                   (limited limit (Domestic.documents db)) in
     Domestic.GeoDoc.count r = length hits
     ∧ Domestic.GeoDoc.sample_doc_ids r = take 10 (take 100 hits)
     ∧ (100 < Domestic.GeoDoc.count r →
        length (Domestic.GeoDoc.sample_doc_ids r) = 10
        ∧ Domestic.GeoDoc.sample_doc_ids r ⊆ take 100 hits))
  ∧ (∀ (extractor : World.WorldGeographyExtractor) utcnow limit db db' geo_docs r,
       World.process_documents extractor utcnow limit db = Ok (db', geo_docs) →
       r ∈ geo_docs →
       let hits := World.hits extractor (World.GeoDoc.location_key r)
                     (limited limit
                        (filter (λ d, World.short_enough d = true) (World.documents db))) in
       World.GeoDoc.count r = length hits
       ∧ World.GeoDoc.sample_doc_ids r = take 10 (take 100 hits)
       ∧ (100 < World.GeoDoc.count r →
          length (World.GeoDoc.sample_doc_ids r) = 10
          ∧ World.GeoDoc.sample_doc_ids r ⊆ take 100 hits)).
Proof.
  split_and!.
  - intros extractor docs geo key Hrun.
    by apply AggregatorFacts.count_documents_tracks in Hrun as (Htr & _).
  - intros extractor docs geo key Hrun.
    by apply AggregatorFacts.count_documents_tracks in Hrun as (Htr & _).
  - intros extractor utcnow limit db db' geo_docs r Hrun Hr hits.
    destruct (DomesticFacts.process_documents_records _ _ _ _ _ _ _ Hrun Hr)
      as (Hc & _ & Hs & _). fold hits in Hc, Hs.
    split_and!; [done..|]. rewrite Hc, Hs. apply sample_of_many.
  - intros extractor utcnow limit db db' geo_docs r Hrun Hr hits.
    destruct (WorldFacts.world_process_documents_records _ _ _ _ _ _ _ Hrun Hr)
      as (Hc & _ & Hs & _). fold hits in Hc, Hs.
    split_and!; [done..|]. rewrite Hc, Hs. apply sample_of_many.
Qed.

Lemma sample_list_bounded_witness :
  (∃ geo_counts,
      Domestic.count_documents Examples.US.extractor
        (Domestic.documents Examples.US.database_101) = Ok geo_counts
      ∧ count_of geo_counts "chicago, illinois"
        = length (Domestic.hits Examples.US.extractor "chicago, illinois"
                    (Domestic.documents Examples.US.database_101))
      ∧ ids_of geo_counts "chicago, illinois"
        = take 100 (Domestic.hits Examples.US.extractor "chicago, illinois"
                      (Domestic.documents Examples.US.database_101)))
  ∧ (∃ geo_counts,
        World.count_documents Examples.Earth.extractor
          (World.documents Examples.Earth.database_101) = Ok geo_counts
        ∧ count_of geo_counts "paris, france"
          = length (World.hits Examples.Earth.extractor "paris, france"
                      (World.documents Examples.Earth.database_101))
        ∧ ids_of geo_counts "paris, france"
          = take 100 (World.hits Examples.Earth.extractor "paris, france"
                        (World.documents Examples.Earth.database_101)))
  ∧ (100 < Domestic.GeoDoc.count Examples.US.chicago_record
   ∧ length (Domestic.GeoDoc.sample_doc_ids Examples.US.chicago_record) = 10
   ∧ Domestic.GeoDoc.sample_doc_ids Examples.US.chicago_record
     ⊆ take 100 (Domestic.hits Examples.US.extractor "chicago, illinois"
                   (Domestic.documents Examples.US.database_101)))
  ∧ (100 < World.GeoDoc.count Examples.Earth.paris_record
     ∧ length (World.GeoDoc.sample_doc_ids Examples.Earth.paris_record) = 10
     ∧ World.GeoDoc.sample_doc_ids Examples.Earth.paris_record
       ⊆ take 100 (World.hits Examples.Earth.extractor "paris, france"
                     (filter (λ d, World.short_enough d = true)
                             (World.documents Examples.Earth.database_101)))).
Proof.
  split; [|split; [|split]].
  - eexists. split; [vm_compute; reflexivity|].
    eapply (proj1 sample_list_bounded Examples.US.extractor).
    vm_compute. reflexivity.
  - eexists. split; [vm_compute; reflexivity|].
    eapply (proj1 (proj2 sample_list_bounded) Examples.Earth.extractor).
    vm_compute. reflexivity.
  - assert (100 < Domestic.GeoDoc.count Examples.US.chicago_record) as Hmany
      by (vm_compute; lia).
    split; [exact Hmany|].
    eapply (proj1 (proj2 (proj2 sample_list_bounded)) Examples.US.extractor Examples.clock None
              Examples.US.database_101 _ _ Examples.US.chicago_record).
    + vm_compute. reflexivity.
    + left.
    + exact Hmany.
  - assert (100 < World.GeoDoc.count Examples.Earth.paris_record) as Hmany
      by (vm_compute; lia).
    split; [exact Hmany|].
    eapply (proj2 (proj2 (proj2 sample_list_bounded)) Examples.Earth.extractor Examples.clock None
              Examples.Earth.database_101 _ _ Examples.Earth.paris_record).
    + vm_compute. reflexivity.
    + left.
    + exact Hmany.
Defined.

(** C8. Determinism of the counts, in both pipelines: over one corpus and
    one set of reference data, two runs give the same count for every
    location key, whatever the clock reads and whatever collection an
    earlier run left in the database. *)
Theorem counts_deterministic :
  (∀ (extractor : Domestic.GeographyExtractor) utcnow1 utcnow2 limit docs prev1 prev2,
     Domestic.counts_by_key
       (Domestic.process_documents extractor utcnow1 limit
          {| Domestic.documents := docs; Domestic.geography_counts := prev1 |})
     = Domestic.counts_by_key
         (Domestic.process_documents extractor utcnow2 limit
            {| Domestic.documents := docs; Domestic.geography_counts := prev2 |}))
  ∧ (∀ (extractor : World.WorldGeographyExtractor) utcnow1 utcnow2 limit docs prev1 prev2,
       World.counts_by_key
         (World.process_documents extractor utcnow1 limit
            {| World.documents := docs; World.world_geography_counts := prev1 |})
       = World.counts_by_key
           (World.process_documents extractor utcnow2 limit
              {| World.documents := docs; World.world_geography_counts := prev2 |})).
Proof.
  split; intros extractor utcnow1 utcnow2 limit docs prev1 prev2.
  - unfold Domestic.counts_by_key, Domestic.process_documents.
    cbn [Domestic.documents].
    destruct (Domestic.count_documents _ _) as [geo|k]; [|done]. simpl.
    f_equal. apply DomesticFacts.geo_docs_from_counts.
  - unfold World.counts_by_key, World.process_documents.
    cbn [World.documents].
    destruct (World.count_documents _ _) as [geo|k]; [|done]. simpl.
    f_equal. apply WorldFacts.world_geo_docs_from_counts.
Qed.

(** C10. The finalized records, in both pipelines: the location keys are
    pairwise distinct, and every record has a count of at least 1, a
    latitude that is present and not zero, and [min(count, 10)] sample ids.
    A candidate whose validated record has no true latitude leaves the
    table as it was. *)
Theorem finalized_records :
  (∀ (extractor : Domestic.GeographyExtractor) utcnow limit db db' geo_docs,
     Domestic.process_documents extractor utcnow limit db = Ok (db', geo_docs) →
     NoDup (Domestic.GeoDoc.location_key <$> geo_docs)
     ∧ Forall (λ r, 1 ≤ Domestic.GeoDoc.count r
                    ∧ (∃ q, Domestic.GeoDoc.lat r = Some q ∧ ¬ (q == 0)%Q)
                    ∧ length (Domestic.GeoDoc.sample_doc_ids r)
                      = Domestic.GeoDoc.count r `min` 10) geo_docs)
  ∧ (∀ (extractor : Domestic.GeographyExtractor) doc_id acc loc v,
       Domestic.validate_and_geocode extractor loc = Some v →
       Domestic.has_lat v = false →
       Domestic.count_location extractor doc_id acc loc = Ok acc)
  ∧ (∀ (extractor : World.WorldGeographyExtractor) utcnow limit db db' geo_docs,
       World.process_documents extractor utcnow limit db = Ok (db', geo_docs) →
       NoDup (World.GeoDoc.location_key <$> geo_docs)
       ∧ Forall (λ r, 1 ≤ World.GeoDoc.count r
                      ∧ ¬ (World.GeoDoc.lat r == 0)%Q
                      ∧ length (World.GeoDoc.sample_doc_ids r)
                        = World.GeoDoc.count r `min` 10) geo_docs)
  ∧ (∀ (extractor : World.WorldGeographyExtractor) doc_id acc loc v,
       World.validate_and_geocode extractor loc = Some v →
       World.has_lat v = false →
       World.count_location extractor doc_id acc loc = Ok acc).
Proof.
  split_and!.
  - intros extractor utcnow limit db db' geo_docs Hrun.
    split; [by eapply DomesticFacts.process_documents_keys|].
    apply Forall_forall. intros r Hr.
    destruct (DomesticFacts.process_documents_records _ _ _ _ _ _ _ Hrun Hr)
      as (Hc & H1 & Hs & Hlat).
    split_and!; [done | |].
    + destruct (Domestic.GeoDoc.lat r) as [q|]; [|done]. exists q. split; [done|].
      simpl in Hlat. apply negb_true_iff in Hlat. intros Hz.
      apply Qeq_bool_iff in Hz. congruence.
    + rewrite Hs, Hc, !length_take. lia.
  - intros extractor doc_id [seen geo] loc v Hv Hlat.
    unfold Domestic.count_location, Aggregator.count_location. by rewrite Hv, Hlat.
  - intros extractor utcnow limit db db' geo_docs Hrun.
    split; [by eapply WorldFacts.world_process_documents_keys|].
    apply Forall_forall. intros r Hr.
    destruct (WorldFacts.world_process_documents_records _ _ _ _ _ _ _ Hrun Hr)
      as (Hc & H1 & Hs & Hlat).
    split_and!; [done..|]. rewrite Hs, Hc, !length_take. lia.
  - intros extractor doc_id [seen geo] loc v Hv Hlat.
    unfold World.count_location, Aggregator.count_location. by rewrite Hv, Hlat.
Qed.

Lemma finalized_records_witness :
  (∃ db' geo_docs,
      Domestic.process_documents Examples.US.extractor Examples.clock None
        Examples.US.database_101 = Ok (db', geo_docs)
      ∧ NoDup (Domestic.GeoDoc.location_key <$> geo_docs)
      ∧ Forall (λ r, 1 ≤ Domestic.GeoDoc.count r
                     ∧ (∃ q, Domestic.GeoDoc.lat r = Some q ∧ ¬ (q == 0)%Q)
                     ∧ length (Domestic.GeoDoc.sample_doc_ids r)
                       = Domestic.GeoDoc.count r `min` 10) geo_docs)
  ∧ Domestic.count_location Examples.US.extractor "g" (∅, []) "Guam" = Ok (∅, [])
  ∧ (∃ db' geo_docs,
        World.process_documents Examples.Earth.extractor Examples.clock None
          Examples.Earth.database_101 = Ok (db', geo_docs)
        ∧ NoDup (World.GeoDoc.location_key <$> geo_docs)
        ∧ Forall (λ r, 1 ≤ World.GeoDoc.count r
                       ∧ ¬ (World.GeoDoc.lat r == 0)%Q
                       ∧ length (World.GeoDoc.sample_doc_ids r)
                         = World.GeoDoc.count r `min` 10) geo_docs)
  ∧ World.count_location Examples.Earth.extractor "o" (∅, []) ("Origin", "Israel", "IL")
    = Ok (∅, []).
Proof.
  destruct finalized_records as (Hus & Hus_lat & Hworld & Hworld_lat).
  split_and!.
  - do 2 eexists. split; [vm_compute; reflexivity|].
    eapply (Hus Examples.US.extractor Examples.clock None Examples.US.database_101).
    vm_compute. reflexivity.
  - eapply (Hus_lat Examples.US.extractor "g" (∅, []) "Guam").
    + vm_compute. reflexivity.
    + vm_compute. reflexivity.
  - do 2 eexists. split; [vm_compute; reflexivity|].
    eapply (Hworld Examples.Earth.extractor Examples.clock None Examples.Earth.database_101).
    vm_compute. reflexivity.
  - eapply (Hworld_lat Examples.Earth.extractor "o" (∅, []) ("Origin", "Israel", "IL")).
    + vm_compute. reflexivity.
    + vm_compute. reflexivity.
Defined.

(** C9. In the world validator the "ASCII name" key is the primary key,
    character for character, so the second lookup reads the same entry of
    the gazetteer as the first, and the validator is the single lookup
    [single_lookup]. *)
Theorem ascii_fallback_redundant (self : World.WorldGeographyExtractor)
        (city country_name country_code : string) :
  PyStr.lower city +:+ ", " +:+ PyStr.lower country_name
  = PyStr.lower (city +:+ ", " +:+ country_name)
  ∧ World.locations self !! (PyStr.lower city +:+ ", " +:+ PyStr.lower country_name)
    = World.locations self !! PyStr.lower (city +:+ ", " +:+ country_name)
  ∧ World.validate_and_geocode self (city, country_name, country_code)
    = World.single_lookup self (city, country_name, country_code).
Proof.
  split_and!.
  - apply WorldFacts.key_ascii_is_key.
  - by rewrite WorldFacts.key_ascii_is_key.
  - apply WorldFacts.validate_single_lookup.
Qed.



(** C5. The proximity fallback of the world extractor.  Either the text is
    empty or mentions no country, and nothing is extracted; or the result
    is the candidates [found] of patterns (a) to (c) followed by the
    fallback candidates, each of which
    - has its lower-case "city, country" key in the gazetteer,
    - has a lower-case city that no candidate of [found] has, and that no
      other fallback candidate has,
    - is a capitalized word sequence of the window of 100 characters on each
      side of a country mention, paired with the country of that mention;
    and every such word sequence whose key is in the gazetteer has its
    lower-case city among those of the result. *)
Theorem proximity_fallback (self : World.WorldGeographyExtractor) (text : string) :
  let text' := World.truncated text in
  let country_mentions := World.find_country_mentions self text' in
  let found := World.adjacent self text' in
  ((PyStr.is_empty text = true ∨ country_mentions = [])
   ∧ World.extract_locations self text = [])
  ∨ (PyStr.is_empty text = false ∧ country_mentions ≠ []
     ∧ (∃ extra,
         World.extract_locations self text = found ++ extra
         ∧ NoDup ((λ c : World.candidate, PyStr.lower c.1.1) <$> extra)
         ∧ Forall
             (λ c : World.candidate,
                is_Some (World.locations self
                           !! (PyStr.lower c.1.1 +:+ ", " +:+ PyStr.lower c.1.2))
                ∧ (PyStr.lower c.1.1 ∉ (λ c' : World.candidate, PyStr.lower c'.1.1) <$> found)
                ∧ ∃ country_start country_end,
                    (country_start, country_end, c.2, c.1.2) ∈ country_mentions
                    ∧ let window :=
                        PyStr.slice (country_start - 100)
                          (Nat.min (String.length text') (country_end + 100)) text' in
                      c.1.1 ∈ Re.group window 1 <$> Re.finditer World.city_pattern window)
             extra)
     ∧ ∀ country_start country_end country_code country_name city,
         (country_start, country_end, country_code, country_name) ∈ country_mentions →
         city ∈ Re.group
                  (PyStr.slice (country_start - 100)
                     (Nat.min (String.length text') (country_end + 100)) text') 1
                <$> Re.finditer World.city_pattern
                      (PyStr.slice (country_start - 100)
                         (Nat.min (String.length text') (country_end + 100)) text') →
         is_Some (World.locations self
                    !! (PyStr.lower city +:+ ", " +:+ PyStr.lower country_name)) →
         ∃ c, c ∈ World.extract_locations self text
              ∧ PyStr.lower c.1.1 = PyStr.lower city).
Proof.
  intros text' country_mentions found.
  destruct (WorldFacts.extract_locations_cases self text) as [?|(Hne & Hm & ->)];
    [by left | right].
  split; [done|]. split; [done|].
  destruct (WorldFacts.with_fallback_spec self text' found country_mentions)
    as (extra & Heq & Hj & Hnd).
  split.
  - exists extra. split_and!; [done..|].
    eapply Forall_impl; [exact Hj|]. intros c (Hk & Hnew & Hwin). split_and!.
    + unfold World.known in Hk. by apply bool_decide_eq_true in Hk.
    + intros Hin. apply Hnew. unfold World.found_cities_of. by apply elem_of_list_to_set.
    + exact Hwin.
  - intros country_start country_end country_code country_name city Hin Hcity Hkey.
    apply (WorldFacts.with_fallback_covers self text' found country_mentions
             (country_start, country_end, country_code, country_name) city Hin Hcity).
    unfold World.known. by apply bool_decide_eq_true.
Qed.

Lemma proximity_fallback_witness :
  ∃ c, c ∈ World.extract_locations Examples.Earth.extractor
             "In France, the delegation visited Lyon for talks"
       ∧ PyStr.lower c.1.1 = PyStr.lower "Lyon".
Proof.
  destruct (proximity_fallback Examples.Earth.extractor
              "In France, the delegation visited Lyon for talks")
    as [[[Hempty|Hnone] _]|(_ & _ & _ & Hall)].
  - vm_compute in Hempty. discriminate.
  - vm_compute in Hnone. discriminate.
  - apply (Hall 3 9 "FR" "France" "Lyon").
    + vm_compute. left.
    + vm_compute. right. left.
    + vm_compute. by eexists.
Defined.

(** The example of the specification: Lyon, within 100 characters of
    France, is extracted without being adjacent to it, and validated. *)
Example lyon_by_proximity :
  World.extract_locations Examples.Earth.extractor
    "In France, the delegation visited Lyon for talks"
  = [("Lyon", "France", "FR")]
  ∧ World.validate_and_geocode Examples.Earth.extractor ("Lyon", "France", "FR")
    = Some (World.city_record Examples.Earth.lyon).
Proof. by vm_compute. Qed.




(** * Further facts about the counting loop *)

Module AggregatorMore.
Import Aggregator AggregatorFacts.

Section Table.
Context {validated : Type}.
Implicit Types (geo : table validated) (c : counter validated).

Lemma Forall_modify_keyed (P : string → counter validated → Prop) key f geo :
  Forall (λ kc, P kc.1 kc.2) geo →
  (∀ c, P key (f c)) →
  Forall (λ kc, P kc.1 kc.2) (modify key f geo).
Proof.
  induction 1 as [|[k c] geo Hc Hgeo IH]; simpl; intros Hf.
  - constructor; [apply Hf | constructor].
  - destruct (String.eqb_spec k key) as [->|Hk]; simpl in *.
    + constructor; [apply Hf | done].
    + constructor; [done | by apply IH].
Qed.

Lemma table_elem_of_key geo key :
  key ∈ PyDict.keys geo → ∃ c, (key, c) ∈ geo.
Proof.
  unfold PyDict.keys. intros ([k c] & -> & Hin)%list_elem_of_fmap. by exists c.
Qed.
End Table.

Section Loop.
Context {candidate validated : Type}.
Variable extract_locations : string → list candidate.
Variable validate_and_geocode : candidate → option validated.
Variable has_lat : validated → bool.
Variable canonical_key : validated → result string.

Abbreviation entry_of := (entry_of validate_and_geocode has_lat canonical_key).
Abbreviation validated_entries :=
  (validated_entries validate_and_geocode has_lat canonical_key).
Abbreviation count_location :=
  (count_location validate_and_geocode has_lat canonical_key).
Abbreviation doc_keys :=
  (doc_keys extract_locations validate_and_geocode has_lat canonical_key).
Abbreviation count_document :=
  (count_document extract_locations validate_and_geocode has_lat canonical_key).
Abbreviation count_documents :=
  (count_documents extract_locations validate_and_geocode has_lat canonical_key).
Abbreviation hits := (hits extract_locations validate_and_geocode has_lat canonical_key).
Abbreviation sound := (sound has_lat).

Implicit Types (geo : table validated) (seen : gset string).

(** A run that ends without error formed the keys of every document. *)
Lemma for_each_keys_formed docs geo geo' :
  for_each count_document docs geo = Ok geo' →
  Forall (λ doc, ∃ ks, doc_keys doc = Ok ks) docs.
Proof.
  revert geo. induction docs as [|doc docs IH]; intros geo; cbn [for_each].
  - constructor.
  - intros (geo1 & Hdoc & Hrun)%rbind_Ok. constructor; [|by eapply IH].
    by eapply count_document_inv.
Qed.

Lemma hits_length_le key docs : length (hits key docs) ≤ length docs.
Proof.
  unfold Aggregator.hits. induction docs as [|doc docs IH]; [done|].
  cbn [flat_map]. rewrite length_app. cbn [length].
  destruct (doc_keys doc) as [ks|]; [case_decide|]; simpl; lia.
Qed.

Lemma hits_Permutation key docs docs' :
  docs ≡ₚ docs' → hits key docs ≡ₚ hits key docs'.
Proof.
  unfold Aggregator.hits. induction 1 as [|doc ?? _ IH|d1 d2 ?|??? _ IH1 _ IH2].
  - done.
  - cbn [flat_map]. by rewrite IH.
  - cbn [flat_map]. rewrite !app_assoc. f_equiv. apply Permutation_app_comm.
  - by etrans.
Qed.

(** In a sound table the keys are the keys counted at least once. *)
Lemma key_in_table_iff geo key :
  NoDup (PyDict.keys geo) → Forall (λ kc, sound kc.2) geo →
  key ∈ PyDict.keys geo ↔ 1 ≤ count_of geo key.
Proof.
  intros Hnd Hs. split.
  - intros [c Hin]%table_elem_of_key. unfold count_of.
    rewrite (elem_of_table _ _ _ Hnd Hin). rewrite Forall_forall in Hs.
    by destruct (Hs _ Hin) as (? & _).
  - intros Hc. destruct (decide (key ∈ PyDict.keys geo)) as [|Hn]; [done|].
    apply get_None_keys in Hn. unfold count_of, counter_of in Hc. rewrite Hn in Hc.
    simpl in Hc. lia.
Qed.

(** The record held for a key was validated under that key. *)
Lemma foldl_count_entry_keyed doc_id es seen geo :
  Forall (λ kv, canonical_key kv.2 = Ok kv.1) es →
  Forall (λ kc, ∃ v, info kc.2 = Some v ∧ canonical_key v = Ok kc.1) geo →
  Forall (λ kc, ∃ v, info kc.2 = Some v ∧ canonical_key v = Ok kc.1)
         (foldl (count_entry doc_id) (seen, geo) es).2.
Proof.
  intros Hes. revert seen geo.
  induction Hes as [|[k v] es Hv Hes IH]; intros seen geo Hgeo; [done|].
  cbn [foldl]. unfold count_entry at 2. cbn [fst snd].
  case_decide; [by apply IH|]. apply IH.
  apply (Forall_modify_keyed (λ k c, ∃ v, info c = Some v ∧ canonical_key v = Ok k));
    [done|]. intros c. by exists v.
Qed.

Lemma validated_entries_keyed l es :
  validated_entries l = Ok es → Forall (λ kv, canonical_key kv.2 = Ok kv.1) es.
Proof.
  revert es. induction l as [|loc l IH]; intros es; simpl.
  - intros [= <-]. constructor.
  - destruct (entry_of loc) as [e|] eqn:He; [|done]. simpl.
    destruct (validated_entries l) as [es'|]; [|done]. simpl. intros [= <-].
    destruct e as [[key v]|]; [|by apply IH]. constructor; [|by apply IH].
    by apply entry_of_has_lat in He as [_ ?].
Qed.

Lemma for_each_keyed docs geo geo' :
  for_each count_document docs geo = Ok geo' →
  Forall (λ kc, ∃ v, info kc.2 = Some v ∧ canonical_key v = Ok kc.1) geo →
  Forall (λ kc, ∃ v, info kc.2 = Some v ∧ canonical_key v = Ok kc.1) geo'.
Proof.
  revert geo. induction docs as [|doc docs IH]; intros geo; cbn [for_each].
  - by intros [= <-].
  - intros (geo1 & Hdoc & Hrun)%rbind_Ok Hgeo. apply (IH geo1 Hrun).
    unfold Aggregator.count_document in Hdoc. rewrite for_each_entries in Hdoc.
    destruct (validated_entries _) as [es|] eqn:Hes; [|done].
    simpl in Hdoc. injection Hdoc as <-.
    apply foldl_count_entry_keyed; [by eapply validated_entries_keyed | done].
Qed.

Lemma count_documents_keyed docs geo :
  count_documents docs = Ok geo →
  Forall (λ kc, ∃ v, info kc.2 = Some v ∧ canonical_key v = Ok kc.1) geo.
Proof. intros Hrun. apply (for_each_keyed docs [] geo Hrun). constructor. Qed.

(** Reordering the corpus changes no count. *)
Lemma count_documents_Permutation docs docs' geo :
  docs ≡ₚ docs' → count_documents docs = Ok geo →
  ∃ geo', count_documents docs' = Ok geo'
          ∧ ∀ key, count_of geo' key = count_of geo key.
Proof.
  intros Hp Hrun.
  pose proof (for_each_keys_formed _ _ _ Hrun) as Hkeys. rewrite Hp in Hkeys.
  destruct (for_each_total _ _ _ _ docs' [] Hkeys) as [geo' Hrun'].
  exists geo'. split; [done|]. intros key.
  apply count_documents_tracks in Hrun as (Htr & _).
  apply count_documents_tracks in Hrun' as (Htr' & _).
  destruct (Htr key) as [-> _], (Htr' key) as [-> _].
  by rewrite (hits_Permutation key docs docs' Hp).
Qed.

Lemma take_cap_app {A} (n : nat) (l1 l2 : list A) :
  take n (take n l1 ++ take n l2) = take n (l1 ++ l2).
Proof.
  destruct (decide (n ≤ length l1)) as [Hle|Hgt].
  - rewrite !take_app_le; [by rewrite take_take, Nat.min_id | lia |].
    rewrite length_take. lia.
  - rewrite (take_ge l1) by lia. rewrite !take_app_ge by lia.
    by rewrite take_take, Nat.min_l by lia.
Qed.

(** Two parts of a corpus, counted apart: the counts add up, and the kept
    ids are those of the two parts, put together and cut at 100 again. *)
Lemma count_documents_app docs1 docs2 geo :
  count_documents (docs1 ++ docs2) = Ok geo →
  ∃ geo1 geo2,
    count_documents docs1 = Ok geo1 ∧ count_documents docs2 = Ok geo2
    ∧ ∀ key, count_of geo key = count_of geo1 key + count_of geo2 key
             ∧ ids_of geo key = take 100 (ids_of geo1 key ++ ids_of geo2 key).
Proof.
  intros Hrun.
  pose proof (for_each_keys_formed _ _ _ Hrun) as [H1 H2]%Forall_app.
  destruct (for_each_total _ _ _ _ docs1 [] H1) as [geo1 Hrun1].
  destruct (for_each_total _ _ _ _ docs2 [] H2) as [geo2 Hrun2].
  exists geo1, geo2. split_and!; [done..|]. intros key.
  apply count_documents_tracks in Hrun as (Htr & _).
  apply count_documents_tracks in Hrun1 as (Htr1 & _).
  apply count_documents_tracks in Hrun2 as (Htr2 & _).
  destruct (Htr key) as [-> ->], (Htr1 key) as [-> ->], (Htr2 key) as [-> ->].
  rewrite hits_app, length_app, take_cap_app. done.
Qed.
End Loop.
End AggregatorMore.

(** * Further facts about the two runs *)

Module RunFacts.
Import Aggregator AggregatorFacts AggregatorMore.

(** The pairs [(key, count)] of a sound table. *)
Lemma table_pairs {validated : Type} (has_lat : validated → bool)
      (geo : table validated) (key : string) (n : nat) :
  NoDup (PyDict.keys geo) → Forall (λ kc, sound has_lat kc.2) geo →
  (key, n) ∈ (λ kc : string * counter validated, (kc.1, count kc.2)) <$> geo
  ↔ n = count_of geo key ∧ 1 ≤ n.
Proof.
  intros Hnd Hs. split.
  - intros ([k c] & [= -> ->] & Hin)%list_elem_of_fmap. unfold count_of.
    rewrite (elem_of_table _ _ _ Hnd Hin). split; [done|].
    rewrite Forall_forall in Hs. by destruct (Hs _ Hin) as (? & _).
  - intros [-> Hc].
    assert (key ∈ PyDict.keys geo) as [c Hin]%table_elem_of_key.
    { eapply key_in_table_iff; [done..|]. exact Hc. }
    apply list_elem_of_fmap. exists (key, c). split; [|done].
    unfold count_of. by rewrite (elem_of_table _ _ _ Hnd Hin).
Qed.

Lemma limited_length limit docs : length (limited limit docs) ≤ length docs.
Proof. destruct limit as [[|n]|]; simpl; [lia| |lia]. rewrite length_take. lia. Qed.

Lemma limited_length_cap n docs : length (limited (Some (S n)) docs) ≤ S n.
Proof. simpl. rewrite length_take. lia. Qed.

Section Domestic.
Import Domestic.
Variable self : GeographyExtractor.
Variable utcnow : nat → Z.

(** Finalization drops no counter of a sound table. *)
Lemma geo_docs_from_all n geo :
  Forall (λ kc, sound has_lat kc.2) geo →
  (λ d, (GeoDoc.location_key d, GeoDoc.count d)) <$> geo_docs_from utcnow n geo
  = (λ kc : string * counter info, (kc.1, count kc.2)) <$> geo.
Proof.
  intros Hs. revert n. induction Hs as [|[key data] geo Hd Hs IH]; intros n; [done|].
  cbn [geo_docs_from]. cbn [snd] in Hd.
  destruct (DomesticFacts.kept_sound _ Hd) as (v & -> & _).
  rewrite !fmap_cons. f_equal. apply IH.
Qed.

Lemma us_run_inv limit db db' recs :
  process_documents self utcnow limit db = Ok (db', recs) →
  ∃ geo, count_documents self (limited limit (documents db)) = Ok geo
         ∧ recs = geo_docs_from utcnow 0 geo
         ∧ db' = {| documents := documents db; geography_counts := recs |}.
Proof.
  unfold process_documents. intros (geo & Hgeo & [= <- <-])%rbind_Ok. by exists geo.
Qed.

Lemma us_run_pairs limit db db' recs key n :
  process_documents self utcnow limit db = Ok (db', recs) →
  (key, n) ∈ (λ d, (GeoDoc.location_key d, GeoDoc.count d)) <$> recs
  ↔ n = length (hits self key (limited limit (documents db))) ∧ 1 ≤ n.
Proof.
  intros (geo & Hgeo & -> & _)%us_run_inv.
  apply count_documents_tracks in Hgeo as (Htr & Hnd & Hs).
  rewrite (geo_docs_from_all 0 geo Hs), (table_pairs has_lat geo key n Hnd Hs).
  by destruct (Htr key) as [-> _].
Qed.

Lemma us_record_fields limit db db' recs r :
  process_documents self utcnow limit db = Ok (db', recs) → r ∈ recs →
  ∃ v, canonical_key v = Ok (GeoDoc.location_key r)
       ∧ GeoDoc.name r = default (GeoDoc.location_key r) (name v)
       ∧ GeoDoc.type r = default "place" (type v)
       ∧ GeoDoc.state r
         = (if bool_decide (default "place" (type v) = "state") then EmptyString
            else default EmptyString (state v))
       ∧ GeoDoc.state_abbrev r
         = (if bool_decide (default "place" (type v) = "state") then EmptyString
            else default EmptyString (state_abbrev v)).
Proof.
  intros (geo & Hgeo & -> & _)%us_run_inv Hr.
  apply count_documents_keyed in Hgeo.
  apply DomesticFacts.geo_docs_from_elem in Hr as (m & key & data & v & Hin & Hk & ->).
  rewrite Forall_forall in Hgeo. destruct (Hgeo _ Hin) as (v' & Hi & Hkey).
  cbn [fst snd] in *. unfold kept in Hk. rewrite Hi in Hk.
  destruct (_ && _); [|done]. injection Hk as <-. by exists v'.
Qed.
End Domestic.

Section World.
Import World.
Variable self : WorldGeographyExtractor.
Variable utcnow : nat → Z.

Lemma world_geo_docs_from_all n geo :
  Forall (λ kc, sound has_lat kc.2) geo →
  (λ d, (GeoDoc.location_key d, GeoDoc.count d)) <$> geo_docs_from utcnow n geo
  = (λ kc : string * counter Info.t, (kc.1, count kc.2)) <$> geo.
Proof.
  intros Hs. revert n. induction Hs as [|[key data] geo Hd Hs IH]; intros n; [done|].
  cbn [geo_docs_from]. cbn [snd] in Hd.
  destruct (WorldFacts.world_kept_sound _ Hd) as (v & -> & _).
  rewrite !fmap_cons. f_equal. apply IH.
Qed.

Lemma world_run_inv limit db db' recs :
  process_documents self utcnow limit db = Ok (db', recs) →
  ∃ geo, count_documents self
           (limited limit (filter (λ d, short_enough d = true) (documents db))) = Ok geo
         ∧ recs = geo_docs_from utcnow 0 geo
         ∧ db' = {| documents := documents db; world_geography_counts := recs |}.
Proof.
  unfold process_documents. intros (geo & Hgeo & [= <- <-])%rbind_Ok. by exists geo.
Qed.

Lemma world_run_pairs limit db db' recs key n :
  process_documents self utcnow limit db = Ok (db', recs) →
  (key, n) ∈ (λ d, (GeoDoc.location_key d, GeoDoc.count d)) <$> recs
  ↔ n = length (hits self key
                  (limited limit (filter (λ d, short_enough d = true) (documents db))))
    ∧ 1 ≤ n.
Proof.
  intros (geo & Hgeo & -> & _)%world_run_inv.
  apply count_documents_tracks in Hgeo as (Htr & Hnd & Hs).
  rewrite (world_geo_docs_from_all 0 geo Hs), (table_pairs has_lat geo key n Hnd Hs).
  by destruct (Htr key) as [-> _].
Qed.

Lemma world_record_fields limit db db' recs r :
  process_documents self utcnow limit db = Ok (db', recs) → r ∈ recs →
  GeoDoc.location_key r = PyStr.lower (GeoDoc.name r +:+ ", " +:+ GeoDoc.country r)
  ∧ GeoDoc.type r = "city".
Proof.
  intros (geo & Hgeo & -> & _)%world_run_inv Hr.
  apply count_documents_keyed in Hgeo.
  apply WorldFacts.world_geo_docs_from_elem in Hr
    as (m & key & data & v & Hin & Hk & ->).
  rewrite Forall_forall in Hgeo. destruct (Hgeo _ Hin) as (v' & Hi & Hkey).
  cbn [fst snd] in *. unfold kept in Hk. rewrite Hi in Hk.
  destruct (_ && _); [|done]. injection Hk as <-.
  unfold canonical_key in Hkey. simpl in Hkey. by injection Hkey as <-.
Qed.

End World.
End RunFacts.

(** * Further facts about the domestic validator *)

Module ValidatorFacts.
Import Aggregator Domestic AggregatorFacts AggregatorMore.

Lemma get_elem {V} (d : list (string * V)) k v :
  PyDict.get d k = Some v → (k, v) ∈ d.
Proof.
  induction d as [|[k' v'] d IH]; simpl; [done|].
  destruct (String.eqb_spec k' k) as [->|]; [intros [= ->]; left | right; auto].
Qed.

Lemma mem_keys {V} (d : list (string * V)) k :
  PyDict.mem d k = true → k ∈ PyDict.keys d.
Proof.
  unfold PyDict.mem, PyDict.keys. destruct (PyDict.get d k) as [v|] eqn:Hg; [|done].
  intros _. apply list_elem_of_fmap. exists (k, v). split; [done | by apply get_elem].
Qed.

Section Validator.
Variable self : GeographyExtractor.

Lemma county_state_lookup_range l v :
  county_state_lookup self l = Some v → ∃ k, counties self !! k = Some v.
Proof.
  unfold county_state_lookup. destruct (_ && _); [|done].
  destruct (comma_parts l) as [|county_part [|state [|]]]; try done.
  destruct (PyDict.get _ _) as [full_state|]; simpl.
  - destruct (counties self !! PyStr.lower (county_part +:+ ", " +:+ full_state))
      eqn:H1; simpl; [intros [= <-]; eauto | eauto].
  - eauto.
Qed.

Lemma city_state_lookup_range l v :
  city_state_lookup self l = Some v → ∃ k, locations self !! k = Some v.
Proof.
  unfold city_state_lookup.
  destruct (comma_parts l) as [|city [|state [|]]]; try done.
  destruct (PyDict.get (abbrev_to_full _) _) as [full_state|]; simpl.
  - destruct (locations self !! PyStr.lower (city +:+ ", " +:+ full_state))
      eqn:H1; simpl; [intros [= <-]; eauto|].
    destruct (PyDict.get (full_to_abbrev _) _); [eauto | done].
  - destruct (PyDict.get (full_to_abbrev _) _); [eauto | done].
Qed.

Lemma bare_city_lookup_range s l v :
  bare_city_lookup self s l = Some v →
  ∃ states_list st,
    city_states self !! l = Some states_list ∧ head states_list = Some st
    ∧ v = resolved s st (bool_decide (1 < length states_list))
            (if bool_decide (1 < length states_list)
             then Some (si_state <$> states_list) else None).
Proof.
  unfold bare_city_lookup. destruct (city_states self !! l) as [states_list|]; [|done].
  destruct states_list as [|st [|st' rest]]; [done| |]; intros [= <-];
    eexists _, st; split_and!; try done.
Qed.

Lemma state_lookup_range l v :
  state_lookup self l = Some v →
  lat v = None ∧ lng v = None ∧ state v = None ∧ type v = Some "state"
  ∧ ∃ n, name v = Some n
         ∧ (n ∈ PyDict.keys (full_to_abbrev (states self))
            ∨ ∃ abbrev, (abbrev, n) ∈ abbrev_to_full (states self)).
Proof.
  unfold state_lookup. destruct (PyDict.mem _ _) eqn:Hm.
  - intros [= <-]. split_and!; try done. eexists. split; [done|]. left.
    by apply mem_keys.
  - destruct (PyDict.get _ _) as [full|] eqn:Hg; [|done]. intros [= <-].
    split_and!; try done. eexists. split; [done|]. right. eexists. by apply get_elem.
Qed.

(** Where the answer of the validator comes from. *)
Lemma validate_range s v :
  validate_and_geocode self s = Some v →
  (∃ k, locations self !! k = Some v)
  ∨ (∃ k, counties self !! k = Some v)
  ∨ (∃ states_list st,
       city_states self !! PyStr.strip (PyStr.lower s) = Some states_list
       ∧ head states_list = Some st
       ∧ v = resolved s st (bool_decide (1 < length states_list))
               (if bool_decide (1 < length states_list)
                then Some (si_state <$> states_list) else None))
  ∨ (lat v = None ∧ lng v = None ∧ state v = None ∧ type v = Some "state"
     ∧ ∃ n, name v = Some n
            ∧ (n ∈ PyDict.keys (full_to_abbrev (states self))
               ∨ ∃ abbrev, (abbrev, n) ∈ abbrev_to_full (states self))).
Proof.
  unfold validate_and_geocode.
  destruct (locations self !! _) eqn:H1; simpl; [intros [= <-]; eauto|].
  destruct (counties self !! _) eqn:H2; simpl; [intros [= <-]; eauto|].
  destruct (county_state_lookup self _) eqn:H3; simpl.
  { intros [= <-]. right. left. by eapply county_state_lookup_range. }
  destruct (PyStr.contains "," _).
  - destruct (city_state_lookup self _) eqn:H4; simpl.
    + intros [= <-]. left. by eapply city_state_lookup_range.
    + intros Hv. do 3 right. by eapply state_lookup_range.
  - destruct (bare_city_lookup self s _) eqn:H4; simpl.
    + intros [= <-]. do 2 right. left. by eapply bare_city_lookup_range.
    + intros Hv. do 3 right. by eapply state_lookup_range.
Qed.

(** The validator reads its argument through [lower] and [strip] only,
    but for the name that the city-name-only step copies. *)
Lemma validate_normalized s s' :
  PyStr.strip (PyStr.lower s) = PyStr.strip (PyStr.lower s') →
  validate_and_geocode self s = validate_and_geocode self s'
  ∨ ∃ st flag others,
      validate_and_geocode self s = Some (resolved s st flag others)
      ∧ validate_and_geocode self s' = Some (resolved s' st flag others).
Proof.
  intros Heq. unfold validate_and_geocode. rewrite <- Heq.
  destruct (locations self !! _); simpl; [by left|].
  destruct (counties self !! _); simpl; [by left|].
  destruct (county_state_lookup self _); simpl; [by left|].
  destruct (PyStr.contains "," _); [by left|].
  unfold bare_city_lookup. destruct (city_states self !! _) as [l|]; [|by left].
  destruct l as [|st [|st' rest]]; [by left | |]; right; by eexists _, _, _.
Qed.

(** A well-formed gazetteer gives the aggregator records it can key. *)
Lemma canonical_key_Ok s v :
  Shape.well_formed self →
  validate_and_geocode self s = Some v → has_lat v = true →
  ∃ key, canonical_key v = Ok key.
Proof.
  intros [Hloc Hcounty] Hv Hlat.
  assert (Shape.keyable v = true → ∃ key, canonical_key v = Ok key) as Hk.
  { unfold Shape.keyable. rewrite Hlat. cbn [negb orb].
    unfold canonical_key. intros [Hn Hs]%andb_true_iff.
    destruct (name v) as [n|]; [|done]. case_decide as Ht; [by eexists|].
    destruct (state v) as [st|]; [by eexists|].
    apply orb_true_iff in Hs as [Hs%bool_decide_eq_true|]; done. }
  apply validate_range in Hv as [[k Hk']|[[k Hk']|[(l & st & _ & _ & ->)|(Hnolat & _)]]].
  - apply Hk. by apply (Hloc k).
  - apply Hk. by apply (Hcounty k).
  - by eexists.
  - unfold has_lat in Hlat. rewrite Hnolat in Hlat. simpl in Hlat.
    by rewrite andb_false_r in Hlat.
Qed.

End Validator.

End ValidatorFacts.

(** * Further facts about strings *)

Module PyStrMore.
Import PyStr.

Lemma app_cons_s (x : ascii) (a b : string) : String x a +:+ b = String x (a +:+ b).
Proof. reflexivity. Qed.

Lemma app_nil_l_s (b : string) : EmptyString +:+ b = b.
Proof. reflexivity. Qed.

Lemma app_nil_r_s (a : string) : a +:+ EmptyString = a.
Proof. induction a as [|x a IH]; [done|]. by rewrite app_cons_s, IH. Qed.

Lemma length_app_s (a b : string) :
  String.length (a +:+ b) = String.length a + String.length b.
Proof.
  induction a as [|x a IH]; [done|]. rewrite app_cons_s. simpl. by rewrite IH.
Qed.

Lemma prefix_iff (sub s : string) :
  String.prefix sub s = true ↔ ∃ post, s = sub +:+ post.
Proof.
  revert s. induction sub as [|c sub IH]; intros s; simpl.
  - split; [intros _; by exists s | by destruct s].
  - destruct s as [|c' s]; [split; [done | by intros [? ?]]|].
    cbn [String.prefix]. destruct (ascii_dec c c') as [->|Hne].
    + rewrite IH. split; intros [post Hp]; exists post.
      * by rewrite app_cons_s, Hp.
      * rewrite app_cons_s in Hp. by injection Hp.
    + split; [done|]. intros [post Hp]. rewrite app_cons_s in Hp.
      injection Hp as ? _. done.
Qed.

(** [sub in s]: [s] is [sub] between two strings. *)
Lemma contains_iff (sub s : string) :
  contains sub s = true ↔ ∃ pre post, s = pre +:+ sub +:+ post.
Proof.
  induction s as [|c s IH].
  - cbn [contains]. rewrite orb_false_r, prefix_iff. split.
    + intros [post Hp]. by exists EmptyString, post.
    + intros (pre & post & Hp). destruct pre; [by exists post | done].
  - cbn [contains]. rewrite orb_true_iff, prefix_iff, IH. split.
    + intros [[post Hp]|(pre & post & Hp)].
      * by exists EmptyString, post.
      * exists (String c pre), post. by rewrite app_cons_s, Hp.
    + intros (pre & post & Hp). destruct pre as [|c' pre].
      * left. by exists post.
      * right. rewrite app_cons_s in Hp. injection Hp as -> Hp. by exists pre, post.
Qed.

Lemma contains_length (sub s : string) :
  contains sub s = true → String.length sub ≤ String.length s.
Proof.
  rewrite contains_iff. intros (pre & post & ->). rewrite !length_app_s. lia.
Qed.

Lemma lower_char_idemp (c : ascii) : lower_char (lower_char c) = lower_char c.
Proof.
  unfold lower_char. destruct (is_upper c) eqn:Hu; [|by rewrite Hu].
  unfold is_upper, code in *. apply andb_true_iff in Hu as [H1 H2].
  apply Nat.leb_le in H1, H2.
  rewrite nat_ascii_embedding by lia.
  destruct (_ && _) eqn:Hu'; [|done].
  apply andb_true_iff in Hu' as [_ H4]. apply Nat.leb_le in H4. lia.
Qed.

Lemma lower_idemp (s : string) : lower (lower s) = lower s.
Proof. induction s as [|c s IH]; simpl; [done | by rewrite lower_char_idemp, IH]. Qed.

End PyStrMore.

(** * Further facts about the domestic extractor *)

Module ExtractorFacts.
Import Aggregator Domestic AggregatorFacts.

Section Extractor.
Variable self : GeographyExtractor.

(** A city that is a listed name gives no candidate in patterns 1 to 3. *)
Lemma city_state_hit_name city state :
  PyStr.lower city ∈ common_names self → city_state_hit self (city, state) = [].
Proof. intros H. unfold city_state_hit. by rewrite decide_True. Qed.

Lemma old_abbrev_hit_name city abbrev :
  PyStr.lower city ∈ common_names self → old_abbrev_hit self (city, abbrev) = [].
Proof. intros H. unfold old_abbrev_hit. by rewrite decide_True. Qed.

(** Only the empty name and the blank are found in a blank text. *)
Lemma contains_blank name :
  PyStr.contains name " " = true → name = EmptyString ∨ name = " ".
Proof.
  intros H. pose proof (PyStrMore.contains_length _ _ H) as Hl.
  apply PyStrMore.contains_iff in H as (pre & post & H).
  destruct name as [|c [|c' name]]; [by left | | simpl in Hl; lia].
  right. destruct pre as [|p pre].
  - rewrite PyStrMore.app_nil_l_s, PyStrMore.app_cons_s in H. by injection H as <- _.
  - rewrite PyStrMore.app_cons_s in H. injection H as _ H. by destruct pre.
Qed.

Lemma extract_blank :
  EmptyString ∉ PyDict.keys (full_to_abbrev (states self)) →
  " " ∉ PyDict.keys (full_to_abbrev (states self)) →
  extract_locations self " " = [].
Proof.
  intros H0 H1. unfold extract_locations, extract_locations_regex.
  replace (Re.groups2 " " <$> Re.finditer pattern1 " ")
    with (@nil (string * string)) by (by vm_compute).
  replace (Re.groups2 " " <$> Re.finditer pattern2 " ")
    with (@nil (string * string)) by (by vm_compute).
  replace (Re.groups2 " " <$> Re.finditer pattern3 " ")
    with (@nil (string * string)) by (by vm_compute).
  replace (Re.group " " 1 <$> Re.finditer county_pattern " ")
    with (@nil string) by (by vm_compute).
  replace (Re.groups2 " " <$> Re.finditer county_state_pattern " ")
    with (@nil (string * string)) by (by vm_compute).
  cbn [PyStr.is_empty flat_map app]. unfold state_name_hits.
  destruct (filter _ _) as [|x l] eqn:Hf; [done|].
  assert (x ∈ x :: l) as Hx by left. rewrite <- Hf in Hx.
  apply list_elem_of_filter in Hx as [Hc Hin].
  by apply contains_blank in Hc as [-> | ->].
Qed.
End Extractor.
End ExtractorFacts.

(** * Further facts about the world extractor *)

Module WorldMore.
Import Aggregator World AggregatorFacts.

Section Extraction.
Variable self : WorldGeographyExtractor.

Lemma with_code_known city country code c :
  c ∈ with_code self city country code →
  known self (PyStr.lower c.1.1) c.1.2 = true.
Proof.
  unfold with_code. destruct (truthy_str code); [|by intros ?%elem_of_nil].
  destruct (known _ _ _) eqn:Hk; [|by intros ?%elem_of_nil].
  by intros ->%list_elem_of_singleton.
Qed.

Lemma adjacent_known text c :
  c ∈ adjacent self text → known self (PyStr.lower c.1.1) c.1.2 = true.
Proof.
  unfold adjacent, code_hits. rewrite !elem_of_app, !list_elem_of_In, !in_flat_map.
  intros [([city country] & _ & Hc)|[([city country] & _ & Hc)|([city code] & _ & Hc)]];
    apply list_elem_of_In in Hc.
  - by eapply with_code_known.
  - by eapply with_code_known.
  - by apply WorldFacts.city_code_hit_elem in Hc as (_ & country_name & _ & Hk & ->).
Qed.

(** Whatever the extractor returns is a city of the gazetteer. *)
Lemma extract_known text c :
  c ∈ extract_locations self text → known self (PyStr.lower c.1.1) c.1.2 = true.
Proof.
  destruct (WorldFacts.extract_locations_cases self text) as [[_ ->]|(_ & _ & ->)];
    [by intros ?%elem_of_nil|].
  destruct (WorldFacts.with_fallback_spec self (truncated text)
              (adjacent self (truncated text))
              (find_country_mentions self (truncated text))) as (extra & -> & Hj & _).
  intros [Hc|Hc]%elem_of_app; [by eapply adjacent_known|].
  rewrite Forall_forall in Hj. by destruct (Hj _ Hc) as (Hk & _).
Qed.

Lemma known_validates city country_name country_code :
  known self (PyStr.lower city) country_name = true →
  ∃ loc, locations self !! PyStr.lower (city +:+ ", " +:+ country_name) = Some loc
         ∧ validate_and_geocode self (city, country_name, country_code)
           = Some (city_record loc).
Proof.
  unfold known. intros [loc Hloc]%bool_decide_eq_true.
  rewrite WorldFacts.key_ascii_is_key in Hloc. exists loc. split; [done|].
  unfold validate_and_geocode. by rewrite Hloc.
Qed.

(** *** The cut at 50000 characters *)

Lemma substring_0_app (a b : string) :
  String.substring 0 (String.length a) (a +:+ b) = a.
Proof.
  induction a as [|x a IH]; [by destruct b|].
  rewrite PyStrMore.app_cons_s. cbn [String.length String.substring]. by rewrite IH.
Qed.

Lemma truncated_short text :
  (Z.of_nat (String.length text) ≤ 50000)%Z → truncated text = text.
Proof.
  intros Hl. unfold truncated. by destruct (Z.ltb_spec 50000 (Z.of_nat (String.length text))); [lia|].
Qed.

Lemma truncated_app head rest :
  Z.of_nat (String.length head) = 50000%Z → truncated (head +:+ rest) = head.
Proof.
  intros Hl. unfold truncated. rewrite PyStrMore.length_app_s.
  destruct rest as [|r rest].
  { rewrite PyStrMore.app_nil_r_s.
    destruct (Z.ltb_spec 50000 (Z.of_nat (String.length head + String.length EmptyString)));
      [simpl in *; lia | done]. }
  destruct (Z.ltb_spec 50000
              (Z.of_nat (String.length head + String.length (String r rest))));
    [|cbn [String.length] in *; lia].
  unfold PyStr.slice. rewrite Nat.sub_0_r.
  replace (Z.to_nat 50000) with (String.length head) by lia.
  apply substring_0_app.
Qed.

Lemma extract_locations_head head rest :
  Z.of_nat (String.length head) = 50000%Z →
  extract_locations self (head +:+ rest) = extract_locations self head.
Proof.
  intros Hl. unfold extract_locations.
  rewrite (truncated_app head rest Hl), (truncated_short head) by lia.
  destruct head as [|h head]; [simpl in Hl; lia|]. done.
Qed.
End Extraction.

End WorldMore.

(** * Facts about start-up *)

Module StartupFacts.
Import Startup.

Lemma names_of_elem names_txt x :
  x ∈ names_of names_txt
  ↔ PyStr.is_empty x = false
    ∧ ∃ line, line ∈ default [] names_txt ∧ x = PyStr.lower (PyStr.strip line).
Proof.
  destruct names_txt as [lines|]; simpl.
  - rewrite elem_of_list_to_set, list_elem_of_filter, list_elem_of_fmap.
    split; intros [? (line & ? & ?)]; (split; [done|]); by exists line.
  - split; [by intros ?%elem_of_empty|]. by intros [_ (line & ?%elem_of_nil & _)].
Qed.

Lemma _load_common_names_elem first_names_txt last_names_txt x :
  x ∈ _load_common_names first_names_txt last_names_txt
  ↔ PyStr.is_empty x = false
    ∧ ∃ line, line ∈ default [] first_names_txt ++ default [] last_names_txt
              ∧ x = PyStr.lower (PyStr.strip line).
Proof.
  unfold _load_common_names. rewrite elem_of_union, !names_of_elem. split.
  - intros [[? (line & ? & ?)]|[? (line & ? & ?)]]; (split; [done|]); exists line;
      rewrite elem_of_app; auto.
  - intros [? (line & [?|?]%elem_of_app & ?)]; [left | right]; (split; [done|]);
      by exists line.
Qed.

Lemma is_empty_lower s : PyStr.is_empty (PyStr.lower s) = PyStr.is_empty s.
Proof. by destruct s. Qed.

Lemma us_init_Ready dir self :
  US.init dir = Ready self →
  Domestic.common_names self
  = _load_common_names (US.first_names_txt dir) (US.last_names_txt dir)
  ∧ Domestic.counties self = default ∅ (US.us_counties_json dir)
  ∧ US.us_locations_json dir = Some (Domestic.locations self)
  ∧ US.city_states_index_json dir = Some (Domestic.city_states self)
  ∧ US.states_json dir = Some (Domestic.states self).
Proof.
  unfold US.init. destruct (US.us_locations_json dir); [|done].
  destruct (US.city_states_index_json dir); [|done].
  destruct (US.states_json dir); [|done]. by intros [= <-].
Qed.

End StartupFacts.

(** * Facts about the disambiguation index *)

Module CensusSetupFacts.
Import Aggregator Domestic CensusSetup AggregatorFacts.

Lemma saved_lookup {V} (d : list (string * V)) k : saved d !! k = PyDict.get d k.
Proof.
  unfold saved. induction d as [|[k' v] d IH]; [done|]. cbn [list_to_map foldr PyDict.get].
  destruct (String.eqb_spec k' k) as [->|Hne].
  - apply lookup_insert_eq.
  - rewrite lookup_insert_ne by done. apply IH.
Qed.

Lemma state_info_eqb_refl si : state_info_eqb si si = true.
Proof.
  unfold state_info_eqb. rewrite !String.eqb_refl. simpl.
  apply andb_true_iff; split; apply Qeq_bool_iff; reflexivity.
Qed.

Lemma append_new_head si l x : head l = Some x → head (append_new si l) = Some x.
Proof.
  unfold append_new. destruct (existsb _ _); [done|]. by destruct l.
Qed.

Lemma append_new_elem si l x :
  x ∈ append_new si l ↔ x ∈ l ∨ (x = si ∧ existsb (state_info_eqb si) l = false).
Proof.
  unfold append_new. destruct (existsb _ _) eqn:He.
  - split; [by left | by intros [?|[_ ?]]].
  - rewrite elem_of_app, list_elem_of_singleton. naive_solver.
Qed.

Lemma append_new_covers si l : existsb (state_info_eqb si) (append_new si l) = true.
Proof.
  unfold append_new. destruct (existsb _ l) eqn:He; [done|].
  rewrite existsb_app. simpl. by rewrite state_info_eqb_refl, orb_true_r.
Qed.

Lemma append_new_mono si si' l :
  existsb (state_info_eqb si') l = true →
  existsb (state_info_eqb si') (append_new si l) = true.
Proof.
  unfold append_new. destruct (existsb (state_info_eqb si) l); [done|].
  intros H. by rewrite existsb_app, H.
Qed.

Lemma state_info_eqb_sym a b : state_info_eqb a b = state_info_eqb b a.
Proof.
  unfold state_info_eqb.
  rewrite (String.eqb_sym (si_state a)), (String.eqb_sym (si_state_abbrev a)).
  assert (∀ x y, Qeq_bool x y = Qeq_bool y x) as Hq.
  { intros x y. destruct (Qeq_bool x y) eqn:H1, (Qeq_bool y x) eqn:H2; try done.
    - apply Qeq_bool_iff in H1. symmetry in H1. apply Qeq_bool_iff in H1. congruence.
    - apply Qeq_bool_iff in H2. symmetry in H2. apply Qeq_bool_iff in H2. congruence. }
  by rewrite (Hq (si_lat a)), (Hq (si_lng a)).
Qed.

Lemma distinct_snoc l si :
  distinct l → existsb (state_info_eqb si) l = false → distinct (l ++ [si]).
Proof.
  induction l as [|x l IH]; simpl; [done|]. intros [Hx Hl] Hsi.
  apply orb_false_iff in Hsi as [Hsx Hsi]. split; [|by apply IH].
  rewrite existsb_app, Hx. simpl. by rewrite state_info_eqb_sym, Hsx.
Qed.

Lemma append_new_distinct si l : distinct l → distinct (append_new si l).
Proof.
  unfold append_new. destruct (existsb _ _) eqn:He; [done|]. intros. by apply distinct_snoc.
Qed.

Lemma append_new_nonempty si l : append_new si l ≠ [].
Proof.
  unfold append_new. destruct (existsb _ _) eqn:He; [by destruct l | by destruct l].
Qed.

(** Reading the index after one more place. *)
Lemma get_index_add k si city_states c :
  PyDict.get (index_add k si city_states) c
  = if decide (k = c) then Some (append_new si (default [] (PyDict.get city_states k)))
    else PyDict.get city_states c.
Proof.
  induction city_states as [|[k' l] rest IH]; cbn [index_add PyDict.get].
  - destruct (String.eqb_spec k c); by case_decide.
  - destruct (String.eqb_spec k' k) as [->|Hk]; cbn [PyDict.get].
    + destruct (String.eqb_spec k c); by case_decide.
    + rewrite IH. destruct (String.eqb_spec k' c) as [->|Hc]; [by rewrite decide_False|done].
Qed.

Lemma keys_index_add k si city_states :
  NoDup (PyDict.keys city_states) →
  NoDup (PyDict.keys (index_add k si city_states))
  ∧ ∀ x, x ∈ PyDict.keys (index_add k si city_states) ↔ x = k ∨ x ∈ PyDict.keys city_states.
Proof.
  unfold PyDict.keys. induction city_states as [|[k' l] rest IH]; cbn [index_add fmap list_fmap fst].
  - intros _. split; [apply NoDup_singleton|]. intros x. set_solver.
  - intros [Hk' Hrest]%NoDup_cons. destruct (String.eqb_spec k' k) as [->|Hk].
    + cbn [fmap list_fmap fst]. split; [by apply NoDup_cons|]. intros x. set_solver.
    + cbn [fmap list_fmap fst]. destruct (IH Hrest) as [Hnd Hin].
      split; [|intros x; rewrite !elem_of_cons, Hin; naive_solver].
      apply NoDup_cons. split; [|done]. rewrite Hin. naive_solver.
Qed.

Lemma indexes_nil : indexes [] [].
Proof.
  split_and!; [constructor | done | by intros ?? ?%elem_of_nil].
Qed.

Lemma index_place_indexes done city_states item city_states' :
  indexes done city_states → index_place city_states item = Ok city_states' →
  indexes (done ++ [item]) city_states'.
Proof.
  intros (Hnd & Hsound & Hcomplete). destruct item as [key data]. unfold index_place.
  cbn [snd]. destruct (name data) as [n|] eqn:Hn; [|done].
  destruct (state_info_of data) as [si|] eqn:Hsi; [|done].
  unfold mbind, result_bind, rbind, mret, result_ret. cbn [subscript]. intros [= <-].
  assert (named (PyStr.lower n) data) as Hnamed by (by exists n).
  split_and!.
  - by apply keys_index_add.
  - intros c l. rewrite get_index_add. case_decide as Hc.
    + subst c. intros [= <-].
      destruct (PyDict.get city_states (PyStr.lower n)) as [l0|] eqn:Hl0; cbn [default from_option id].
      * destruct (Hsound _ _ Hl0) as (Hd & Hfrom & before & k0 & d0 & after & s0 & -> & ? & ? & Hh & ?).
        split_and!.
        -- by apply append_new_distinct.
        -- intros x [Hx|[-> _]]%append_new_elem.
           ++ destruct (Hfrom _ Hx) as (k1 & d1 & ? & ? & ?). exists k1, d1.
              split_and!; [|done..]. apply elem_of_app. by left.
           ++ exists key, data. split_and!; [|done..]. apply elem_of_app. right. left.
        -- exists before, k0, d0, (after ++ [(key, data)]), s0.
           split_and!; [by rewrite <- app_assoc | done.. | by apply append_new_head | done].
      * split_and!.
        -- done.
        -- intros x ->%list_elem_of_singleton. exists key, data.
           split_and!; [|done..]. apply elem_of_app. right. left.
        -- exists done, key, data, [], si. split_and!; [done..|].
           apply Forall_forall. intros [k1 d1] Hin (n1 & Hn1 & Heq). cbn [snd] in *.
           destruct (Hcomplete _ _ Hin) as (n2 & _ & l2 & Hn2 & _ & Hget & _).
           rewrite Hn1 in Hn2. injection Hn2 as <-. rewrite Heq in Hget. congruence.
    + intros Hl. destruct (Hsound _ _ Hl) as (Hd & Hfrom & before & k0 & d0 & after & s0 & -> & ? & ? & Hh & ?).
      split_and!; [done | |].
      * intros x Hx. destruct (Hfrom _ Hx) as (k1 & d1 & ? & ? & ?). exists k1, d1.
        split_and!; [|done..]. apply elem_of_app. by left.
      * exists before, k0, d0, (after ++ [(key, data)]), s0.
        split_and!; [by rewrite <- app_assoc | done..].
  - intros k1 d1 [Hin|Hin%list_elem_of_singleton]%elem_of_app.
    + destruct (Hcomplete _ _ Hin) as (n1 & s1 & l1 & Hn1 & Hs1 & Hget & Hex).
      exists n1, s1. rewrite get_index_add. case_decide as Hc.
      * rewrite <- Hc, Hget in *. cbn [default from_option id]. eexists. split_and!; [done..|].
        by apply append_new_mono.
      * by exists l1.
    + injection Hin as -> ->. exists n, si. rewrite get_index_add, decide_True by done.
      eexists. split_and!; [done..|]. apply append_new_covers.
Qed.

Lemma for_each_snoc {A S} (body : S → A → result S) l x (s : S) :
  for_each body (l ++ [x]) s = s' ← for_each body l s; body s' x.
Proof.
  revert s. induction l as [|y l IH]; intros s; cbn [for_each app];
    unfold mbind, result_bind, rbind.
  - by destruct (body s x).
  - destruct (body s y) as [s1|]; [apply IH | done].
Qed.

Lemma build_indexes places city_states :
  build_city_to_states_index places = Ok city_states → indexes places city_states.
Proof.
  unfold build_city_to_states_index. revert city_states.
  induction places as [|item places IH] using rev_ind; intros city_states.
  - intros [= <-]. apply indexes_nil.
  - rewrite for_each_snoc. intros (acc & Hacc & Hitem)%rbind_Ok.
    eapply index_place_indexes; [by apply IH | done].
Qed.

Lemma existsb_head_false si first l :
  head l = Some first → existsb (state_info_eqb si) l = false →
  state_info_eqb si first = false.
Proof. destruct l; [done|]. intros [= ->]. simpl. by intros [? _]%orb_false_iff. Qed.

Lemma append_new_length si first l :
  head l = Some first →
  (1 < length (append_new si l) ↔ 1 < length l ∨ state_info_eqb si first = false).
Proof.
  intros Hh. unfold append_new. destruct (existsb _ l) eqn:He.
  - split; [by left|]. intros [?|Hf]; [done|].
    destruct l as [|x [|y l]]; [done| |simpl; lia]. injection Hh as ->.
    simpl in He. by rewrite Hf in He.
  - rewrite length_app. simpl. split.
    + intros _. right. by eapply existsb_head_false.
    + intros _. destruct l; [done|]. simpl. lia.
Qed.

Lemma index_place_several done city_states item city_states' :
  indexes done city_states → several done city_states →
  index_place city_states item = Ok city_states' →
  several (done ++ [item]) city_states'.
Proof.
  intros (Hnd & Hsound & Hcomplete) Hsev. destruct item as [key data]. unfold index_place.
  cbn [snd]. destruct (name data) as [n|] eqn:Hn; [|done].
  destruct (state_info_of data) as [si|] eqn:Hsi; [|done].
  unfold mbind, result_bind, rbind, mret, result_ret. cbn [subscript]. intros [= <-].
  intros c l first. rewrite get_index_add. case_decide as Hc.
  - subst c. intros [= <-].
    destruct (PyDict.get city_states (PyStr.lower n)) as [l0|] eqn:Hl0; cbn [default from_option id].
    + destruct (Hsound _ _ Hl0) as (_ & _ & _ & _ & _ & _ & s0 & _ & _ & _ & Hh & _).
      rewrite (append_new_head si l0 s0 Hh). intros [= <-].
      rewrite (append_new_length si s0 l0 Hh), (Hsev _ _ _ Hl0 Hh). split.
      * intros [(k1 & d1 & s1 & ? & ? & ? & ?)|Hne].
        -- exists k1, d1, s1. split_and!; [|done..]. apply elem_of_app. by left.
        -- exists key, data, si. split_and!; [|by exists n|done..].
           apply elem_of_app. right. left.
      * intros (k1 & d1 & s1 & [Hin|Hin%list_elem_of_singleton]%elem_of_app & ? & Hs1 & ?).
        -- left. by exists k1, d1, s1.
        -- injection Hin as -> ->. right. congruence.
    + unfold append_new. simpl. intros [= <-]. split; [lia|].
      intros (k1 & d1 & s1 & [Hin|Hin%list_elem_of_singleton]%elem_of_app & Hnamed & Hs1 & Hne).
      * destruct Hnamed as (n1 & Hn1 & Heq).
        destruct (Hcomplete _ _ Hin) as (n2 & _ & l2 & Hn2 & _ & Hget & _).
        rewrite Hn1 in Hn2. injection Hn2 as <-. rewrite Heq in Hget. congruence.
      * injection Hin as -> ->. rewrite Hsi in Hs1. injection Hs1 as <-.
        by rewrite state_info_eqb_refl in Hne.
  - intros Hl Hh. rewrite (Hsev _ _ _ Hl Hh). split.
    + intros (k1 & d1 & s1 & ? & ? & ? & ?). exists k1, d1, s1.
      split_and!; [|done..]. apply elem_of_app. by left.
    + intros (k1 & d1 & s1 & [Hin|Hin%list_elem_of_singleton]%elem_of_app & Hnamed & ? & ?).
      * by exists k1, d1, s1.
      * injection Hin as -> ->. destruct Hnamed as (n1 & Hn1 & Heq).
        rewrite Hn in Hn1. injection Hn1 as <-. done.
Qed.

Lemma build_several places city_states :
  build_city_to_states_index places = Ok city_states → several places city_states.
Proof.
  unfold build_city_to_states_index. revert city_states.
  induction places as [|item places IH] using rev_ind; intros city_states.
  - intros [= <-]. by intros c l first.
  - rewrite for_each_snoc. intros (acc & Hacc & Hitem)%rbind_Ok.
    eapply index_place_several; [by apply build_indexes | by apply IH | done].
Qed.

(** *** Errors *)

Lemma index_place_Ok city_states item :
  complete item.2 → ∃ city_states', index_place city_states item = Ok city_states'.
Proof.
  intros ([n Hn] & [s Hs] & [a Ha] & [la Hla] & [lo Hlo]).
  unfold index_place, state_info_of. rewrite Hn, Hs, Ha, Hla, Hlo. by eexists.
Qed.

Lemma index_place_error city_states item k :
  index_place city_states item = KeyError k →
  k ∈ ["name"; "state"; "state_abbrev"; "lat"; "lng"] ∧ ¬ complete item.2.
Proof.
  unfold index_place, state_info_of, complete.
  destruct (name item.2); [|intros [= <-]; split; [set_solver | by intros ([? ?] & _)]].
  destruct (state item.2);
    [|intros [= <-]; split; [set_solver | by intros (_ & [? ?] & _)]].
  destruct (state_abbrev item.2);
    [|intros [= <-]; split; [set_solver | by intros (_ & _ & [? ?] & _)]].
  destruct (lat item.2);
    [|intros [= <-]; split; [set_solver | by intros (_ & _ & _ & [? ?] & _)]].
  destruct (lng item.2);
    [|intros [= <-]; split; [set_solver | by intros (_ & _ & _ & _ & [? ?])]].
  done.
Qed.

Lemma build_total places :
  Forall (λ item, complete item.2) places →
  ∃ city_states, build_city_to_states_index places = Ok city_states.
Proof.
  unfold build_city_to_states_index. intros Hall.
  generalize (@nil (string * list state_info)).
  induction Hall as [|item places Hitem _ IH]; intros acc; [by eexists|].
  cbn [for_each]. destruct (index_place_Ok acc item Hitem) as [acc' ->]. apply IH.
Qed.

Lemma build_error places k :
  build_city_to_states_index places = KeyError k →
  k ∈ ["name"; "state"; "state_abbrev"; "lat"; "lng"]
  ∧ ∃ item, item ∈ places ∧ ¬ complete item.2.
Proof.
  unfold build_city_to_states_index. generalize (@nil (string * list state_info)).
  induction places as [|item places IH]; intros acc; [done|]. cbn [for_each].
  destruct (index_place acc item) as [acc'|k'] eqn:Hitem.
  - intros (? & item' & ? & ?)%IH. split; [done|]. exists item'. split; [by right | done].
  - intros [= <-]. apply index_place_error in Hitem as [? ?]. split; [done|].
    exists item. split; [left | done].
Qed.

End CensusSetupFacts.

(** * Further properties of the code *)

Module RunMore.
Import AggregatorFacts AggregatorMore.

Section Loop.
Context {candidate validated : Type}.
Variable extract_locations : string → list candidate.
Variable validate_and_geocode : candidate → option validated.
Variable has_lat : validated → bool.
Variable canonical_key : validated → result string.

(** The hits of a key are ids of the corpus, in its order. *)
Lemma hits_sublist key docs :
  Aggregator.hits extract_locations validate_and_geocode has_lat canonical_key key docs
  `sublist_of` _id <$> docs.
Proof.
  unfold Aggregator.hits. induction docs as [|doc docs IH]; [done|].
  cbn [flat_map]. rewrite fmap_cons.
  destruct (Aggregator.doc_keys _ _ _ _ doc) as [ks|]; [case_decide|]; simpl;
    first [by apply sublist_skip | by apply sublist_cons].
Qed.
End Loop.

Lemma limited_sublist limit docs : limited limit docs `sublist_of` docs.
Proof. destruct limit as [[|n]|]; simpl; [done | apply sublist_take | done]. Qed.

Lemma pairs_keys {A} (key_of : A → string) (count_of : A → nat) (recs : list A) key :
  key ∈ key_of <$> recs ↔ ∃ n, (key, n) ∈ (λ d, (key_of d, count_of d)) <$> recs.
Proof.
  rewrite list_elem_of_fmap. split.
  - intros (r & -> & Hr). exists (count_of r). apply list_elem_of_fmap. by exists r.
  - intros (n & (r & [= -> ->] & Hr)%list_elem_of_fmap). by exists r.
Qed.

Lemma length_pos_nonempty {A} (l : list A) : 1 ≤ length l ↔ l ≠ [].
Proof. destruct l; simpl; [split; [lia | done] | split; [done | lia]]. Qed.
End RunMore.

(** X1. Order of the corpus, in both pipelines: when the whole corpus is
    processed, the documents may come in any order.  A run that succeeds on
    one order succeeds on every other, and the two give the same
    [(location_key, count)] pairs. *)
Theorem corpus_order_irrelevant :
  (∀ (extractor : Domestic.GeographyExtractor) utcnow docs docs' prev db' recs,
     docs ≡ₚ docs' →
     Domestic.process_documents extractor utcnow None
       {| Domestic.documents := docs; Domestic.geography_counts := prev |}
     = Ok (db', recs) →
     ∃ db'' recs',
       Domestic.process_documents extractor utcnow None
         {| Domestic.documents := docs'; Domestic.geography_counts := prev |}
       = Ok (db'', recs')
       ∧ ∀ key n,
           (key, n) ∈ (λ d, (Domestic.GeoDoc.location_key d, Domestic.GeoDoc.count d))
                        <$> recs
           ↔ (key, n) ∈ (λ d, (Domestic.GeoDoc.location_key d, Domestic.GeoDoc.count d))
                          <$> recs')
  ∧ (∀ (extractor : World.WorldGeographyExtractor) utcnow docs docs' prev db' recs,
       docs ≡ₚ docs' →
       World.process_documents extractor utcnow None
         {| World.documents := docs; World.world_geography_counts := prev |}
       = Ok (db', recs) →
       ∃ db'' recs',
         World.process_documents extractor utcnow None
           {| World.documents := docs'; World.world_geography_counts := prev |}
         = Ok (db'', recs')
         ∧ ∀ key n,
             (key, n) ∈ (λ d, (World.GeoDoc.location_key d, World.GeoDoc.count d))
                          <$> recs
             ↔ (key, n) ∈ (λ d, (World.GeoDoc.location_key d, World.GeoDoc.count d))
                            <$> recs').
Proof.
  split.
  - intros extractor utcnow docs docs' prev db' recs Hp Hrun.
    pose proof Hrun as (geo & Hgeo & _ & _)%RunFacts.us_run_inv. cbn in Hgeo.
    destruct (AggregatorMore.count_documents_Permutation _ _ _ _ docs docs' geo Hp Hgeo)
      as (geo' & Hgeo' & _).
    assert (Domestic.process_documents extractor utcnow None
              {| Domestic.documents := docs'; Domestic.geography_counts := prev |}
            = Ok ({| Domestic.documents := docs';
                     Domestic.geography_counts := Domestic.geo_docs_from utcnow 0 geo' |},
                  Domestic.geo_docs_from utcnow 0 geo')) as Hrun'.
    { unfold Domestic.process_documents, Domestic.count_documents.
      cbn [limited Domestic.documents]. rewrite Hgeo'. reflexivity. }
    eexists _, _. split; [exact Hrun'|]. intros key n.
    rewrite (RunFacts.us_run_pairs extractor utcnow None _ _ _ key n Hrun).
    rewrite (RunFacts.us_run_pairs extractor utcnow None _ _ _ key n Hrun').
    cbn [limited Domestic.documents]. unfold Domestic.hits.
    by rewrite (Permutation_length
                  (AggregatorMore.hits_Permutation _ _ _ _ key docs docs' Hp)).
  - intros extractor utcnow docs docs' prev db' recs Hp Hrun.
    pose proof Hrun as (geo & Hgeo & _ & _)%RunFacts.world_run_inv.
    cbn [limited World.documents] in Hgeo.
    assert (filter (λ d, World.short_enough d = true) docs
            ≡ₚ filter (λ d, World.short_enough d = true) docs') as Hf by (by rewrite Hp).
    destruct (AggregatorMore.count_documents_Permutation _ _ _ _ _ _ geo Hf Hgeo)
      as (geo' & Hgeo' & _).
    assert (World.process_documents extractor utcnow None
              {| World.documents := docs'; World.world_geography_counts := prev |}
            = Ok ({| World.documents := docs';
                     World.world_geography_counts := World.geo_docs_from utcnow 0 geo' |},
                  World.geo_docs_from utcnow 0 geo')) as Hrun'.
    { unfold World.process_documents, World.count_documents.
      cbn [limited World.documents]. rewrite Hgeo'. reflexivity. }
    eexists _, _. split; [exact Hrun'|]. intros key n.
    rewrite (RunFacts.world_run_pairs extractor utcnow None _ _ _ key n Hrun).
    rewrite (RunFacts.world_run_pairs extractor utcnow None _ _ _ key n Hrun').
    cbn [limited World.documents]. unfold World.hits.
    by rewrite (Permutation_length
                  (AggregatorMore.hits_Permutation _ _ _ _ key _ _ Hf)).
Qed.

Lemma corpus_order_irrelevant_witness :
  (∃ db'' recs',
     Domestic.process_documents Examples.US.extractor Examples.clock None
       {| Domestic.documents := reverse Samples.two_cities;
          Domestic.geography_counts := [] |}
     = Ok (db'', recs')
     ∧ ∀ key n,
         (key, n) ∈ (λ d, (Domestic.GeoDoc.location_key d, Domestic.GeoDoc.count d))
                      <$> Samples.records_of
                            (Domestic.process_documents Examples.US.extractor
                               Examples.clock None
                               {| Domestic.documents := Samples.two_cities;
                                  Domestic.geography_counts := [] |})
         ↔ (key, n) ∈ (λ d, (Domestic.GeoDoc.location_key d, Domestic.GeoDoc.count d))
                        <$> recs')
  ∧ (∃ db'' recs',
       World.process_documents Examples.Earth.extractor Examples.clock None
         {| World.documents := reverse Samples.two_capitals;
            World.world_geography_counts := [] |}
       = Ok (db'', recs')
       ∧ ∀ key n,
           (key, n) ∈ (λ d, (World.GeoDoc.location_key d, World.GeoDoc.count d))
                        <$> Samples.records_of
                              (World.process_documents Examples.Earth.extractor
                                 Examples.clock None
                                 {| World.documents := Samples.two_capitals;
                                    World.world_geography_counts := [] |})
           ↔ (key, n) ∈ (λ d, (World.GeoDoc.location_key d, World.GeoDoc.count d))
                          <$> recs').
Proof.
  split.
  - eapply (proj1 corpus_order_irrelevant Examples.US.extractor Examples.clock
              Samples.two_cities (reverse Samples.two_cities) []).
    + vm_compute. apply perm_swap.
    + vm_compute. reflexivity.
  - eapply (proj2 corpus_order_irrelevant Examples.Earth.extractor Examples.clock
              Samples.two_capitals (reverse Samples.two_capitals) []).
    + vm_compute. apply perm_swap.
    + vm_compute. reflexivity.
Defined.

(** X2. Counting in parts, in both pipelines: when the counting loop ends
    without error on a corpus cut in two, it does so on either part, the
    count of every key is the sum of its counts in the parts, and the ids
    kept for it are the first 100 of the ids kept in the first part followed
    by the ids kept in the second. *)
Theorem counting_in_parts :
  (∀ (extractor : Domestic.GeographyExtractor) docs1 docs2 geo_counts,
     Domestic.count_documents extractor (docs1 ++ docs2) = Ok geo_counts →
     ∃ geo1 geo2,
       Domestic.count_documents extractor docs1 = Ok geo1
       ∧ Domestic.count_documents extractor docs2 = Ok geo2
       ∧ ∀ key, count_of geo_counts key = count_of geo1 key + count_of geo2 key
                ∧ ids_of geo_counts key = take 100 (ids_of geo1 key ++ ids_of geo2 key))
  ∧ (∀ (extractor : World.WorldGeographyExtractor) docs1 docs2 geo_counts,
       World.count_documents extractor (docs1 ++ docs2) = Ok geo_counts →
       ∃ geo1 geo2,
         World.count_documents extractor docs1 = Ok geo1
         ∧ World.count_documents extractor docs2 = Ok geo2
         ∧ ∀ key, count_of geo_counts key = count_of geo1 key + count_of geo2 key
                  ∧ ids_of geo_counts key
                    = take 100 (ids_of geo1 key ++ ids_of geo2 key)).
Proof.
  split; intros extractor docs1 docs2 geo Hrun;
    by apply AggregatorMore.count_documents_app.
Qed.

Lemma counting_in_parts_witness :
  (∃ geo1 geo2,
     Domestic.count_documents Examples.US.extractor
       (take 60 (Examples.corpus "Chicago, Illinois")) = Ok geo1
     ∧ Domestic.count_documents Examples.US.extractor
         (drop 60 (Examples.corpus "Chicago, Illinois")) = Ok geo2
     ∧ ∀ key,
         count_of (Samples.table_of
                     (Domestic.count_documents Examples.US.extractor
                        (take 60 (Examples.corpus "Chicago, Illinois")
                         ++ drop 60 (Examples.corpus "Chicago, Illinois")))) key
         = count_of geo1 key + count_of geo2 key
         ∧ ids_of (Samples.table_of
                     (Domestic.count_documents Examples.US.extractor
                        (take 60 (Examples.corpus "Chicago, Illinois")
                         ++ drop 60 (Examples.corpus "Chicago, Illinois")))) key
           = take 100 (ids_of geo1 key ++ ids_of geo2 key))
  ∧ (∃ geo1 geo2,
       World.count_documents Examples.Earth.extractor
         (take 60 (Examples.corpus "Paris, France")) = Ok geo1
       ∧ World.count_documents Examples.Earth.extractor
           (drop 60 (Examples.corpus "Paris, France")) = Ok geo2
       ∧ ∀ key,
           count_of (Samples.table_of
                       (World.count_documents Examples.Earth.extractor
                          (take 60 (Examples.corpus "Paris, France")
                           ++ drop 60 (Examples.corpus "Paris, France")))) key
           = count_of geo1 key + count_of geo2 key
           ∧ ids_of (Samples.table_of
                       (World.count_documents Examples.Earth.extractor
                          (take 60 (Examples.corpus "Paris, France")
                           ++ drop 60 (Examples.corpus "Paris, France")))) key
             = take 100 (ids_of geo1 key ++ ids_of geo2 key)).
Proof.
  split.
  - apply (proj1 counting_in_parts Examples.US.extractor
             (take 60 (Examples.corpus "Chicago, Illinois"))
             (drop 60 (Examples.corpus "Chicago, Illinois"))).
    vm_compute. reflexivity.
  - apply (proj2 counting_in_parts Examples.Earth.extractor
             (take 60 (Examples.corpus "Paris, France"))
             (drop 60 (Examples.corpus "Paris, France"))).
    vm_compute. reflexivity.
Defined.

(** X3. What a run writes, in both pipelines: a location key has a record
    exactly when some processed document hits it, so that finalization drops
    no counted key; the corpus is left as it was, and the collection is
    replaced by the records returned, whatever it held. *)
Theorem one_record_per_hit_key :
  (∀ (extractor : Domestic.GeographyExtractor) utcnow limit db db' recs,
     Domestic.process_documents extractor utcnow limit db = Ok (db', recs) →
     (∀ key, key ∈ Domestic.GeoDoc.location_key <$> recs
             ↔ Domestic.hits extractor key (limited limit (Domestic.documents db)) ≠ [])
     ∧ Domestic.documents db' = Domestic.documents db
     ∧ Domestic.geography_counts db' = recs)
  ∧ (∀ (extractor : World.WorldGeographyExtractor) utcnow limit db db' recs,
       World.process_documents extractor utcnow limit db = Ok (db', recs) →
       (∀ key, key ∈ World.GeoDoc.location_key <$> recs
               ↔ World.hits extractor key
                   (limited limit
                      (filter (λ d, World.short_enough d = true) (World.documents db)))
                 ≠ [])
       ∧ World.documents db' = World.documents db
       ∧ World.world_geography_counts db' = recs).
Proof.
  split; intros extractor utcnow limit db db' recs Hrun.
  - split.
    + intros key.
      rewrite (RunMore.pairs_keys Domestic.GeoDoc.location_key Domestic.GeoDoc.count).
      rewrite <- RunMore.length_pos_nonempty. split.
      * intros [n Hn]. apply (RunFacts.us_run_pairs _ _ _ _ _ _ _ _ Hrun) in Hn as [-> ?].
        done.
      * intros Hpos. eexists. by apply (RunFacts.us_run_pairs _ _ _ _ _ _ _ _ Hrun).
    + by apply RunFacts.us_run_inv in Hrun as (geo & _ & -> & ->).
  - split.
    + intros key.
      rewrite (RunMore.pairs_keys World.GeoDoc.location_key World.GeoDoc.count).
      rewrite <- RunMore.length_pos_nonempty. split.
      * intros [n Hn]. apply (RunFacts.world_run_pairs _ _ _ _ _ _ _ _ Hrun) in Hn as [-> ?].
        done.
      * intros Hpos. eexists. by apply (RunFacts.world_run_pairs _ _ _ _ _ _ _ _ Hrun).
    + by apply RunFacts.world_run_inv in Hrun as (geo & _ & -> & ->).
Qed.

Lemma one_record_per_hit_key_witness :
  (∃ db' recs,
     Domestic.process_documents Examples.US.extractor Examples.clock None
       Examples.US.database_101 = Ok (db', recs)
     ∧ (∀ key, key ∈ Domestic.GeoDoc.location_key <$> recs
               ↔ Domestic.hits Examples.US.extractor key
                   (limited None (Domestic.documents Examples.US.database_101)) ≠ [])
     ∧ Domestic.documents db' = Domestic.documents Examples.US.database_101
     ∧ Domestic.geography_counts db' = recs)
  ∧ (∃ db' recs,
       World.process_documents Examples.Earth.extractor Examples.clock None
         Examples.Earth.database_101 = Ok (db', recs)
       ∧ (∀ key, key ∈ World.GeoDoc.location_key <$> recs
                 ↔ World.hits Examples.Earth.extractor key
                     (limited None
                        (filter (λ d, World.short_enough d = true)
                                (World.documents Examples.Earth.database_101))) ≠ [])
       ∧ World.documents db' = World.documents Examples.Earth.database_101
       ∧ World.world_geography_counts db' = recs).
Proof.
  split.
  - eexists _, _. split; [vm_compute; reflexivity|].
    apply (proj1 one_record_per_hit_key Examples.US.extractor Examples.clock None
             Examples.US.database_101).
    vm_compute. reflexivity.
  - eexists _, _. split; [vm_compute; reflexivity|].
    apply (proj2 one_record_per_hit_key Examples.Earth.extractor Examples.clock None
             Examples.Earth.database_101).
    vm_compute. reflexivity.
Defined.

(** X4. The key of a record and its fields.  A domestic record of type
    "state" is keyed by its lower-cased name and has an empty state and
    abbreviation; any other domestic record is keyed by the lower-cased
    "name, state".  A world record is keyed by the lower-cased
    "name, country" and has type "city". *)
Theorem record_key_of_fields :
  (∀ (extractor : Domestic.GeographyExtractor) utcnow limit db db' recs r,
     Domestic.process_documents extractor utcnow limit db = Ok (db', recs) →
     r ∈ recs →
     (Domestic.GeoDoc.type r = "state" →
      Domestic.GeoDoc.location_key r = PyStr.lower (Domestic.GeoDoc.name r)
      ∧ Domestic.GeoDoc.state r = EmptyString
      ∧ Domestic.GeoDoc.state_abbrev r = EmptyString)
     ∧ (Domestic.GeoDoc.type r ≠ "state" →
        Domestic.GeoDoc.location_key r
        = PyStr.lower (Domestic.GeoDoc.name r +:+ ", " +:+ Domestic.GeoDoc.state r)))
  ∧ (∀ (extractor : World.WorldGeographyExtractor) utcnow limit db db' recs r,
       World.process_documents extractor utcnow limit db = Ok (db', recs) →
       r ∈ recs →
       World.GeoDoc.location_key r
       = PyStr.lower (World.GeoDoc.name r +:+ ", " +:+ World.GeoDoc.country r)
       ∧ World.GeoDoc.type r = "city").
Proof.
  split.
  - intros extractor utcnow limit db db' recs r Hrun Hr.
    destruct (RunFacts.us_record_fields extractor utcnow limit db db' recs r Hrun Hr)
      as (v & Hkey & Hname & Htype & Hstate & Habbrev).
    unfold Domestic.canonical_key in Hkey. case_decide as Hv.
    + rewrite Hv in *. cbn [default] in *. rewrite Htype in *.
      destruct (Domestic.name v) as [n|]; [|done]. simpl in Hkey, Hname.
      injection Hkey as Hkey. rewrite Hname. split; [|done].
      intros _. by rewrite Hstate, Habbrev, bool_decide_eq_true_2.
    + assert (Domestic.GeoDoc.type r ≠ "state") as Hne.
      { rewrite Htype. destruct (Domestic.type v) as [t|]; simpl; [congruence | done]. }
      split; [done|]. intros _.
      destruct (Domestic.name v) as [n|]; [|done].
      destruct (Domestic.state v) as [s|]; [|done]. simpl in Hkey, Hname.
      injection Hkey as Hkey. rewrite <- Htype in Hstate.
      rewrite bool_decide_eq_false_2 in Hstate by done. simpl in Hstate.
      by rewrite Hname, Hstate.
  - intros extractor utcnow limit db db' recs r Hrun Hr.
    by eapply RunFacts.world_record_fields.
Qed.

Lemma record_key_of_fields_witness :
  ((Domestic.GeoDoc.type Examples.US.chicago_record = "state" →
    Domestic.GeoDoc.location_key Examples.US.chicago_record
    = PyStr.lower (Domestic.GeoDoc.name Examples.US.chicago_record)
    ∧ Domestic.GeoDoc.state Examples.US.chicago_record = EmptyString
    ∧ Domestic.GeoDoc.state_abbrev Examples.US.chicago_record = EmptyString)
   ∧ (Domestic.GeoDoc.type Examples.US.chicago_record ≠ "state" →
      Domestic.GeoDoc.location_key Examples.US.chicago_record
      = PyStr.lower (Domestic.GeoDoc.name Examples.US.chicago_record +:+ ", "
                     +:+ Domestic.GeoDoc.state Examples.US.chicago_record)))
  ∧ (World.GeoDoc.location_key Examples.Earth.paris_record
     = PyStr.lower (World.GeoDoc.name Examples.Earth.paris_record +:+ ", "
                    +:+ World.GeoDoc.country Examples.Earth.paris_record)
     ∧ World.GeoDoc.type Examples.Earth.paris_record = "city").
Proof.
  split.
  - eapply (proj1 record_key_of_fields Examples.US.extractor Examples.clock None
              Examples.US.database_101 _ _ Examples.US.chicago_record).
    + vm_compute. reflexivity.
    + left.
  - eapply (proj2 record_key_of_fields Examples.Earth.extractor Examples.clock None
              Examples.Earth.database_101 _ _ Examples.Earth.paris_record).
    + vm_compute. reflexivity.
    + left.
Defined.

(** X5. Bounds of a record, in both pipelines: its count is at most the
    number of documents in the corpus, and at most the limit when one is
    given; its sample ids are ids of documents of the corpus, in the order
    of the corpus. *)
Theorem count_and_sample_bounds :
  (∀ (extractor : Domestic.GeographyExtractor) utcnow limit db db' recs r,
     Domestic.process_documents extractor utcnow limit db = Ok (db', recs) →
     r ∈ recs →
     Domestic.GeoDoc.count r ≤ length (Domestic.documents db)
     ∧ (∀ n, limit = Some (S n) → Domestic.GeoDoc.count r ≤ S n)
     ∧ Domestic.GeoDoc.sample_doc_ids r `sublist_of` _id <$> Domestic.documents db)
  ∧ (∀ (extractor : World.WorldGeographyExtractor) utcnow limit db db' recs r,
       World.process_documents extractor utcnow limit db = Ok (db', recs) →
       r ∈ recs →
       World.GeoDoc.count r ≤ length (World.documents db)
       ∧ (∀ n, limit = Some (S n) → World.GeoDoc.count r ≤ S n)
       ∧ World.GeoDoc.sample_doc_ids r `sublist_of` _id <$> World.documents db).
Proof.
  split.
  - intros extractor utcnow limit db db' recs r Hrun Hr.
    destruct (DomesticFacts.process_documents_records _ _ _ _ _ _ _ Hrun Hr)
      as (Hc & _ & Hs & _).
    rewrite Hc, Hs. unfold Domestic.hits. split_and!.
    + etrans; [apply AggregatorMore.hits_length_le | apply RunFacts.limited_length].
    + intros n ->. etrans; [apply AggregatorMore.hits_length_le|].
      apply RunFacts.limited_length_cap.
    + etrans; [apply sublist_take|]. etrans; [apply sublist_take|].
      etrans; [apply RunMore.hits_sublist|].
      apply fmap_sublist, RunMore.limited_sublist.
  - intros extractor utcnow limit db db' recs r Hrun Hr.
    destruct (WorldFacts.world_process_documents_records _ _ _ _ _ _ _ Hrun Hr)
      as (Hc & _ & Hs & _).
    rewrite Hc, Hs. unfold World.hits. split_and!.
    + etrans; [apply AggregatorMore.hits_length_le|].
      etrans; [apply RunFacts.limited_length|]. apply length_filter.
    + intros n ->. etrans; [apply AggregatorMore.hits_length_le|].
      apply RunFacts.limited_length_cap.
    + etrans; [apply sublist_take|]. etrans; [apply sublist_take|].
      etrans; [apply RunMore.hits_sublist|].
      apply fmap_sublist. etrans; [apply RunMore.limited_sublist|].
      apply sublist_filter.
Qed.

Lemma count_and_sample_bounds_witness :
  (Domestic.GeoDoc.count Examples.US.chicago_record
   ≤ length (Domestic.documents Examples.US.database_101)
   ∧ (∀ n, None = Some (S n) → Domestic.GeoDoc.count Examples.US.chicago_record ≤ S n)
   ∧ Domestic.GeoDoc.sample_doc_ids Examples.US.chicago_record
     `sublist_of` _id <$> Domestic.documents Examples.US.database_101)
  ∧ (World.GeoDoc.count Examples.Earth.paris_record
     ≤ length (World.documents Examples.Earth.database_101)
     ∧ (∀ n, None = Some (S n) → World.GeoDoc.count Examples.Earth.paris_record ≤ S n)
     ∧ World.GeoDoc.sample_doc_ids Examples.Earth.paris_record
       `sublist_of` _id <$> World.documents Examples.Earth.database_101).
Proof.
  split.
  - eapply (proj1 count_and_sample_bounds Examples.US.extractor Examples.clock None
              Examples.US.database_101 _ _ Examples.US.chicago_record).
    + vm_compute. reflexivity.
    + left.
  - eapply (proj2 count_and_sample_bounds Examples.Earth.extractor Examples.clock None
              Examples.Earth.database_101 _ _ Examples.Earth.paris_record).
    + vm_compute. reflexivity.
    + left.
Defined.

(** X6. A document with neither title nor text, or with both empty,
    leaves the domestic table as it was, provided that neither the empty
    string nor the blank is a state name of [states.json]: its text is the
    one blank that joins title and text. *)
Theorem blank_document_counts_nothing
        (extractor : Domestic.GeographyExtractor) geo_counts doc :
  default EmptyString (title doc) = EmptyString →
  default EmptyString (text doc) = EmptyString →
  EmptyString ∉ PyDict.keys (Domestic.full_to_abbrev (Domestic.states extractor)) →
  " " ∉ PyDict.keys (Domestic.full_to_abbrev (Domestic.states extractor)) →
  full_text doc = " "
  ∧ Domestic.count_document extractor geo_counts doc = Ok geo_counts.
Proof.
  intros Ht Hx H0 H1.
  assert (full_text doc = " ") as Hfull by (unfold full_text; by rewrite Ht, Hx).
  split; [done|].
  unfold Domestic.count_document, Aggregator.count_document. rewrite Hfull.
  by rewrite (ExtractorFacts.extract_blank extractor H0 H1).
Qed.

Lemma blank_document_counts_nothing_witness :
  full_text Samples.blank = " "
  ∧ Domestic.count_document Examples.US.extractor [] Samples.blank = Ok [].
Proof.
  apply (blank_document_counts_nothing Examples.US.extractor [] Samples.blank).
  - reflexivity.
  - reflexivity.
  - refine (bool_decide_unpack _ _). vm_compute. exact I.
  - refine (bool_decide_unpack _ _). vm_compute. exact I.
Defined.

(** X7. Where the answers of the domestic validator come from: an answer
    is a record of [locations], a record of [counties], the record built
    from the first entry that the index lists under the stripped,
    lower-cased name, or a state record, which has a name found in
    [states.json] and neither state nor coordinates. *)
Theorem validator_answers (self : Domestic.GeographyExtractor) location_str v :
  Domestic.validate_and_geocode self location_str = Some v →
  (∃ k, Domestic.locations self !! k = Some v)
  ∨ (∃ k, Domestic.counties self !! k = Some v)
  ∨ (∃ states_list first,
       Domestic.city_states self !! PyStr.strip (PyStr.lower location_str)
       = Some states_list
       ∧ head states_list = Some first
       ∧ Domestic.name v = Some location_str
       ∧ Domestic.state v = Some (Domestic.si_state first)
       ∧ Domestic.state_abbrev v = Some (Domestic.si_state_abbrev first)
       ∧ Domestic.lat v = Some (Domestic.si_lat first)
       ∧ Domestic.lng v = Some (Domestic.si_lng first)
       ∧ Domestic.type v = Some "place"
       ∧ Domestic.ambiguous v = Some (bool_decide (1 < length states_list)))
  ∨ (Domestic.type v = Some "state"
     ∧ Domestic.state v = None ∧ Domestic.lat v = None ∧ Domestic.lng v = None
     ∧ ∃ n, Domestic.name v = Some n
            ∧ (n ∈ PyDict.keys (Domestic.full_to_abbrev (Domestic.states self))
               ∨ ∃ abbrev,
                   (abbrev, n) ∈ Domestic.abbrev_to_full (Domestic.states self))).
Proof.
  intros [H|[H|[(l & first & Hl & Hh & ->)|(Hlat & Hlng & Hstate & Htype & Hn)]]]
    %ValidatorFacts.validate_range.
  - by left.
  - right. by left.
  - do 2 right. left. exists l, first. by split_and!.
  - do 3 right. by split_and!.
Qed.

Lemma validator_answers_witness :
  (∃ k, Domestic.locations Examples.US.extractor !! k
        = Some (Domestic.resolved "Springfield" Examples.US.springfield_il true
                  (Some ["Illinois"; "Massachusetts"; "Missouri"])))
  ∨ (∃ k, Domestic.counties Examples.US.extractor !! k
          = Some (Domestic.resolved "Springfield" Examples.US.springfield_il true
                    (Some ["Illinois"; "Massachusetts"; "Missouri"])))
  ∨ (∃ states_list first,
       Domestic.city_states Examples.US.extractor
         !! PyStr.strip (PyStr.lower "Springfield") = Some states_list
       ∧ head states_list = Some first
       ∧ Some "Springfield" = Some "Springfield"
       ∧ Some "Illinois" = Some (Domestic.si_state first)
       ∧ Some "IL" = Some (Domestic.si_state_abbrev first)
       ∧ Some 39.8%Q = Some (Domestic.si_lat first)
       ∧ Some (-89.64)%Q = Some (Domestic.si_lng first)
       ∧ Some "place" = Some "place"
       ∧ Some true = Some (bool_decide (1 < length states_list)))
  ∨ (Some "place" = Some "state"
     ∧ Some "Illinois" = None ∧ Some 39.8%Q = None ∧ Some (-89.64)%Q = None
     ∧ ∃ n, Some "Springfield" = Some n
            ∧ (n ∈ PyDict.keys (Domestic.full_to_abbrev
                                  (Domestic.states Examples.US.extractor))
               ∨ ∃ abbrev,
                   (abbrev, n) ∈ Domestic.abbrev_to_full
                                   (Domestic.states Examples.US.extractor))).
Proof.
  apply (validator_answers Examples.US.extractor "Springfield"
           (Domestic.resolved "Springfield" Examples.US.springfield_il true
              (Some ["Illinois"; "Massachusetts"; "Missouri"]))).
  vm_compute. reflexivity.
Defined.

(** X8. The domestic validator reads its argument lower-cased and
    stripped: two names that agree after [lower] and [strip] get the same
    answer, or, where the index answers, two records that differ in nothing
    but the name, which is the argument as it was written. *)
Theorem validator_ignores_case_and_margin (self : Domestic.GeographyExtractor) s s' :
  PyStr.strip (PyStr.lower s) = PyStr.strip (PyStr.lower s') →
  Domestic.validate_and_geocode self s = Domestic.validate_and_geocode self s'
  ∨ ∃ first flag others,
      Domestic.validate_and_geocode self s
      = Some (Domestic.resolved s first flag others)
      ∧ Domestic.validate_and_geocode self s'
        = Some (Domestic.resolved s' first flag others).
Proof. apply ValidatorFacts.validate_normalized. Qed.

Lemma validator_ignores_case_and_margin_witness :
  Domestic.validate_and_geocode Examples.US.extractor " CHICAGO, Illinois "
  = Domestic.validate_and_geocode Examples.US.extractor "Chicago, illinois"
  ∨ ∃ first flag others,
      Domestic.validate_and_geocode Examples.US.extractor " CHICAGO, Illinois "
      = Some (Domestic.resolved " CHICAGO, Illinois " first flag others)
      ∧ Domestic.validate_and_geocode Examples.US.extractor "Chicago, illinois"
        = Some (Domestic.resolved "Chicago, illinois" first flag others).
Proof.
  apply (validator_ignores_case_and_margin Examples.US.extractor
           " CHICAGO, Illinois " "Chicago, illinois").
  vm_compute. reflexivity.
Defined.

(** * Facts about failing runs *)

Module FailureFacts.
Import AggregatorFacts.

(** A loop stops at the latest on an element on which its body fails. *)
Lemma for_each_stops {A S} (body : S → A → result S) (l : list A) (x : A) (s : S) :
  x ∈ l → (∀ s', ∃ k, body s' x = KeyError k) → ∃ k, for_each body l s = KeyError k.
Proof.
  intros Hx Hbody. revert s. induction l as [|y l IH]; intros s.
  - by apply elem_of_nil in Hx.
  - cbn [for_each]. unfold mbind, result_bind, rbind.
    destruct (body s y) as [s'|k] eqn:Hy; [|by exists k].
    apply elem_of_cons in Hx as [->|Hx]; [|by apply IH].
    destruct (Hbody s) as [k Hk]. congruence.
Qed.

Section Loop.
Context {candidate validated : Type}.
Variable extract_locations : string → list candidate.
Variable validate_and_geocode : candidate → option validated.
Variable has_lat : validated → bool.
Variable canonical_key : validated → result string.

Lemma count_documents_stops docs doc loc v k :
  doc ∈ docs → loc ∈ extract_locations (full_text doc) →
  validate_and_geocode loc = Some v → has_lat v = true →
  canonical_key v = KeyError k →
  ∃ k', Aggregator.count_documents extract_locations validate_and_geocode has_lat
          canonical_key docs = KeyError k'.
Proof.
  intros Hdoc Hloc Hv Hlat Hk. unfold Aggregator.count_documents.
  apply (for_each_stops _ docs doc ([] : table validated) Hdoc). intros geo.
  unfold Aggregator.count_document. cbv zeta.
  destruct (for_each_stops
              (Aggregator.count_location validate_and_geocode has_lat canonical_key
                 (_id doc))
              (extract_locations (full_text doc)) loc (∅, geo) Hloc) as [k' Hk'].
  { intros [seen geo']. exists k. unfold Aggregator.count_location.
    by rewrite Hv, Hlat, Hk. }
  exists k'. unfold mbind, result_bind. by rewrite Hk'.
Qed.
End Loop.
End FailureFacts.

(** X9. Forming the key on a well-formed gazetteer.  Let every record of
    [locations] and [counties] that has a true latitude have a name and,
    unless its type is "state", a state.  Then a record that the domestic
    validator returns with a true latitude gets its canonical key without
    [KeyError]: the lower-cased name for a state record, the lower-cased
    "name, state" for any other; and the counting step of its candidate
    ends without error. *)
Theorem located_records_are_keyed
        (self : Domestic.GeographyExtractor) (location_str : string) (v : Domestic.info) :
  Shape.well_formed self →
  Domestic.validate_and_geocode self location_str = Some v →
  Domestic.has_lat v = true →
  (∃ key,
     Domestic.canonical_key v = Ok key
     ∧ ((Domestic.type v = Some "state"
         ∧ ∃ n, Domestic.name v = Some n ∧ key = PyStr.lower n)
        ∨ (Domestic.type v ≠ Some "state"
           ∧ ∃ n s, Domestic.name v = Some n ∧ Domestic.state v = Some s
                    ∧ key = PyStr.lower (n +:+ ", " +:+ s))))
  ∧ ∀ doc_id acc, ∃ acc', Domestic.count_location self doc_id acc location_str = Ok acc'.
Proof.
  intros Hwf Hv Hlat.
  destruct (ValidatorFacts.canonical_key_Ok self location_str v Hwf Hv Hlat) as [key Hkey].
  split.
  - exists key. split; [done|]. unfold Domestic.canonical_key in Hkey.
    case_decide as Ht.
    + left. split; [done|]. destruct (Domestic.name v) as [n|]; [|done].
      injection Hkey as <-. by exists n.
    + right. split; [done|]. destruct (Domestic.name v) as [n|]; [|done].
      destruct (Domestic.state v) as [s|]; [|done]. injection Hkey as <-. by exists n, s.
  - intros doc_id [seen geo]. unfold Domestic.count_location, Aggregator.count_location.
    rewrite Hv, Hlat, Hkey. unfold mbind, result_bind, rbind, mret, result_ret.
    case_decide; by eexists.
Qed.

Lemma located_records_are_keyed_witness :
  (∃ key,
     Domestic.canonical_key Examples.US.chicago = Ok key
     ∧ ((Domestic.type Examples.US.chicago = Some "state"
         ∧ ∃ n, Domestic.name Examples.US.chicago = Some n ∧ key = PyStr.lower n)
        ∨ (Domestic.type Examples.US.chicago ≠ Some "state"
           ∧ ∃ n s, Domestic.name Examples.US.chicago = Some n
                    ∧ Domestic.state Examples.US.chicago = Some s
                    ∧ key = PyStr.lower (n +:+ ", " +:+ s))))
  ∧ ∀ doc_id acc,
      ∃ acc', Domestic.count_location Examples.US.extractor doc_id acc "Chicago, IL"
              = Ok acc'.
Proof.
  apply (located_records_are_keyed Examples.US.extractor "Chicago, IL"
           Examples.US.chicago).
  - split; refine (bool_decide_unpack _ _); vm_compute; exact I.
  - vm_compute. reflexivity.
  - vm_compute. reflexivity.
Defined.

(** X10. One record without its key stops the run.  When some processed
    document has a candidate that the domestic validator resolves to a
    record with a true latitude and the canonical key of that record cannot
    be formed, for want of a name or, on a record that is no state, of a
    state, the run does not end well on any corpus that holds the document:
    it ends in a [KeyError], and no collection is written. *)
Theorem unkeyable_record_stops_run
        (extractor : Domestic.GeographyExtractor) utcnow limit db doc loc v :
  doc ∈ limited limit (Domestic.documents db) →
  loc ∈ Domestic.extract_locations extractor (full_text doc) →
  Domestic.validate_and_geocode extractor loc = Some v →
  Domestic.has_lat v = true →
  Domestic.name v = None
  ∨ (Domestic.type v ≠ Some "state" ∧ Domestic.state v = None) →
  (∃ k, Domestic.canonical_key v = KeyError k)
  ∧ ∃ k, Domestic.process_documents extractor utcnow limit db = KeyError k.
Proof.
  intros Hdoc Hloc Hv Hlat Hfield.
  assert (∃ k, Domestic.canonical_key v = KeyError k) as [k Hk].
  { unfold Domestic.canonical_key. destruct Hfield as [Hn|[Ht Hs]].
    - rewrite Hn. case_decide; by eexists.
    - rewrite decide_False by done. rewrite Hs.
      destruct (Domestic.name v); by eexists. }
  split; [by exists k|].
  destruct (FailureFacts.count_documents_stops
              (Domestic.extract_locations extractor)
              (Domestic.validate_and_geocode extractor)
              Domestic.has_lat Domestic.canonical_key
              (limited limit (Domestic.documents db)) doc loc v k
              Hdoc Hloc Hv Hlat Hk) as [k' Hk'].
  exists k'. unfold Domestic.process_documents, Domestic.count_documents.
  by rewrite Hk'.
Qed.

Lemma unkeyable_record_stops_run_witness :
  (∃ k, Domestic.canonical_key Samples.nameless = KeyError k)
  ∧ ∃ k, Domestic.process_documents Samples.broken Examples.clock None
           Examples.US.database_101 = KeyError k.
Proof.
  apply (unkeyable_record_stops_run Samples.broken Examples.clock None
           Examples.US.database_101 (Examples.doc "doc1" "Chicago, Illinois")
           "Chicago, Illinois" Samples.nameless).
  - vm_compute. left.
  - vm_compute. left.
  - vm_compute. reflexivity.
  - vm_compute. reflexivity.
  - left. reflexivity.
Defined.

(** X11. The name filter of the domestic extractor, from the files to the
    patterns.  After start-up the common names are the stripped,
    lower-cased lines of [first_names.txt] and [last_names.txt] that are
    not blank; a missing file counts for no line.  A city of patterns 1
    to 3 that is one of them, whatever its case, gives no candidate. *)
Theorem listed_names_are_no_cities (dir : Startup.US.data_dir)
        (self : Domestic.GeographyExtractor) :
  Startup.US.init dir = Startup.Ready self →
  (∀ x, x ∈ Domestic.common_names self
        ↔ PyStr.is_empty x = false
          ∧ ∃ line, line ∈ default [] (Startup.US.first_names_txt dir)
                           ++ default [] (Startup.US.last_names_txt dir)
                    ∧ x = PyStr.lower (PyStr.strip line))
  ∧ (∀ line city other,
       line ∈ default [] (Startup.US.first_names_txt dir)
              ++ default [] (Startup.US.last_names_txt dir) →
       PyStr.is_empty city = false →
       PyStr.lower city = PyStr.lower (PyStr.strip line) →
       Domestic.city_state_hit self (city, other) = []
       ∧ Domestic.old_abbrev_hit self (city, other) = []).
Proof.
  intros (Hnames & _)%StartupFacts.us_init_Ready. split.
  - intros x. rewrite Hnames. apply StartupFacts._load_common_names_elem.
  - intros line city other Hline Hcity Heq.
    assert (PyStr.lower city ∈ Domestic.common_names self) as Hin.
    { rewrite Hnames. apply StartupFacts._load_common_names_elem.
      rewrite StartupFacts.is_empty_lower. split; [done|]. by exists line. }
    split.
    + by apply ExtractorFacts.city_state_hit_name.
    + by apply ExtractorFacts.old_abbrev_hit_name.
Qed.

Lemma listed_names_are_no_cities_witness :
  ∃ self,
    Startup.US.init Samples.data_dir = Startup.Ready self
    ∧ (∀ x, x ∈ Domestic.common_names self
            ↔ PyStr.is_empty x = false
              ∧ ∃ line, line ∈ default [] (Startup.US.first_names_txt Samples.data_dir)
                               ++ default [] (Startup.US.last_names_txt Samples.data_dir)
                        ∧ x = PyStr.lower (PyStr.strip line))
    ∧ (∀ line city other,
         line ∈ default [] (Startup.US.first_names_txt Samples.data_dir)
                ++ default [] (Startup.US.last_names_txt Samples.data_dir) →
         PyStr.is_empty city = false →
         PyStr.lower city = PyStr.lower (PyStr.strip line) →
         Domestic.city_state_hit self (city, other) = []
         ∧ Domestic.old_abbrev_hit self (city, other) = []).
Proof.
  eexists. split; [reflexivity|].
  apply (listed_names_are_no_cities Samples.data_dir). reflexivity.
Defined.

(** X12. The world validator accepts every candidate of the world
    extractor: a candidate that [extract_locations] returns is a key of
    [locations], and its validated record is the city record under the
    lower-cased "city, country".  In the pipeline a candidate is therefore
    dropped for a zero latitude only. *)
Theorem extracted_candidates_validate
        (self : World.WorldGeographyExtractor) text city country_name country_code :
  (city, country_name, country_code) ∈ World.extract_locations self text →
  ∃ loc,
    World.locations self !! PyStr.lower (city +:+ ", " +:+ country_name) = Some loc
    ∧ World.validate_and_geocode self (city, country_name, country_code)
      = Some (World.city_record loc).
Proof.
  intros Hc%WorldMore.extract_known. by apply WorldMore.known_validates.
Qed.

Lemma extracted_candidates_validate_witness :
  ∃ loc,
    World.locations Examples.Earth.extractor !! PyStr.lower ("Lyon" +:+ ", " +:+ "France")
    = Some loc
    ∧ World.validate_and_geocode Examples.Earth.extractor ("Lyon", "France", "FR")
      = Some (World.city_record loc).
Proof.
  apply (extracted_candidates_validate Examples.Earth.extractor
           "The fair of Lyon drew merchants from all over France").
  vm_compute. left.
Defined.

(** X13. The list of common words is loaded and never read: two domestic
    extractors that differ in [common_words] only give the same run on
    every database. *)
Theorem common_words_unused (self self' : Domestic.GeographyExtractor) utcnow limit db :
  Domestic.locations self = Domestic.locations self' →
  Domestic.city_states self = Domestic.city_states self' →
  Domestic.states self = Domestic.states self' →
  Domestic.counties self = Domestic.counties self' →
  Domestic.common_names self = Domestic.common_names self' →
  Domestic.process_documents self utcnow limit db
  = Domestic.process_documents self' utcnow limit db.
Proof.
  destruct self, self'. simpl. by intros -> -> -> -> ->.
Qed.

Lemma common_words_unused_witness :
  Domestic.process_documents Examples.US.extractor Examples.clock None
    Examples.US.database_101
  = Domestic.process_documents Samples.with_words Examples.clock None
      Examples.US.database_101.
Proof.
  apply (common_words_unused Examples.US.extractor Samples.with_words); reflexivity.
Defined.

(** X14. The world pipeline reads [locations] and [countries] only: two
    world extractors that agree on these two give the same run on every
    database, whatever their disambiguation index, common words and common
    names. *)
Theorem world_reads_locations_and_countries
        (self self' : World.WorldGeographyExtractor) utcnow limit db :
  World.locations self = World.locations self' →
  World.countries self = World.countries self' →
  World.process_documents self utcnow limit db
  = World.process_documents self' utcnow limit db.
Proof.
  destruct self, self'. simpl. by intros -> ->.
Qed.

Lemma world_reads_locations_and_countries_witness :
  World.process_documents Examples.Earth.extractor Examples.clock None
    Examples.Earth.database_101
  = World.process_documents Samples.with_lists Examples.clock None
      Examples.Earth.database_101.
Proof.
  apply (world_reads_locations_and_countries Examples.Earth.extractor Samples.with_lists);
    reflexivity.
Defined.

(** X15. The world extractor reads the first 50000 characters of a text:
    what follows them changes no candidate. *)
Theorem text_beyond_50000_ignored (self : World.WorldGeographyExtractor) head rest :
  Z.of_nat (String.length head) = 50000%Z →
  World.extract_locations self (head +:+ rest) = World.extract_locations self head.
Proof. apply WorldMore.extract_locations_head. Qed.

Lemma text_beyond_50000_ignored_witness :
  World.extract_locations Examples.Earth.extractor
    (Samples.long_text +:+ " and London, United Kingdom")
  = World.extract_locations Examples.Earth.extractor Samples.long_text.
Proof.
  apply (text_beyond_50000_ignored Examples.Earth.extractor Samples.long_text).
  vm_compute. reflexivity.
Defined.

(** X19. The cut never applies to a document without title that the
    cursor of the world run admits: its text has fewer than 50000
    characters, and with the blank before it the extractor reads it
    whole. *)
Theorem admitted_text_read_whole (doc : document) :
  World.short_enough doc = true → title doc = None →
  World.truncated (full_text doc) = full_text doc.
Proof.
  unfold World.short_enough, full_text. intros Hshort%Z.ltb_lt ->.
  apply WorldMore.truncated_short.
  cbn [default]. rewrite PyStrMore.app_nil_l_s, PyStrMore.app_cons_s.
  rewrite PyStrMore.app_nil_l_s. cbn [String.length]. lia.
Qed.

Lemma admitted_text_read_whole_witness :
  World.truncated (full_text (Examples.doc "p" "Paris, France"))
  = full_text (Examples.doc "p" "Paris, France").
Proof.
  apply (admitted_text_read_whole (Examples.doc "p" "Paris, France")); reflexivity.
Defined.

Module IndexUse.
Import Domestic CensusSetup.

Lemma state_info_of_Ok data si :
  state_info_of data = Ok si →
  state data = Some (si_state si) ∧ state_abbrev data = Some (si_state_abbrev si)
  ∧ lat data = Some (si_lat si) ∧ lng data = Some (si_lng si).
Proof.
  unfold state_info_of. destruct (state data); [|done]. destruct (state_abbrev data); [|done].
  destruct (lat data); [|done]. destruct (lng data); [|done]. by intros [= <-].
Qed.

(** The validator on a name that only the index knows. *)
Lemma validate_by_index (self : GeographyExtractor) location_str l first :
  let c := PyStr.strip (PyStr.lower location_str) in
  PyStr.contains "," c = false →
  locations self !! c = None → counties self !! c = None →
  city_states self !! c = Some l → head l = Some first →
  validate_and_geocode self location_str
  = Some (resolved location_str first (bool_decide (1 < length l))
            (if bool_decide (1 < length l) then Some (si_state <$> l) else None)).
Proof.
  intros c Hcomma Hloc Hcounty Hidx Hh.
  unfold validate_and_geocode, county_state_lookup. fold c.
  rewrite Hloc, Hcounty, Hcomma, andb_false_r. cbn [or_else].
  unfold bare_city_lookup. rewrite Hidx.
  by destruct l as [|s [|s' l]]; simpl in *; [|injection Hh as ->..].
Qed.
End IndexUse.

(** X16. A bare city name and the order of the places file.  With the
    index that [build_city_to_states_index] makes of [places], a name
    without comma that is a key neither of [locations] nor of [counties],
    and that is the lower-cased name of some place, is resolved to the first
    place of that name in [places]: the answer has its state, abbreviation
    and coordinates.  It is flagged ambiguous exactly when a place of that
    name differs from the first in state, abbreviation or coordinates. *)
Theorem bare_city_takes_first_place
        (places : list (string * Domestic.info))
        (index : list (string * list Domestic.state_info))
        (self : Domestic.GeographyExtractor) (location_str : string) :
  let c := PyStr.strip (PyStr.lower location_str) in
  CensusSetup.build_city_to_states_index places = Ok index →
  Domestic.city_states self = CensusSetup.saved index →
  PyStr.contains "," c = false →
  Domestic.locations self !! c = None →
  Domestic.counties self !! c = None →
  (∃ key data, (key, data) ∈ places ∧ CensusSetup.named c data) →
  ∃ before key data after first v,
    places = before ++ (key, data) :: after
    ∧ CensusSetup.named c data
    ∧ Forall (λ p, ¬ CensusSetup.named c p.2) before
    ∧ CensusSetup.state_info_of data = Ok first
    ∧ Domestic.validate_and_geocode self location_str = Some v
    ∧ Domestic.name v = Some location_str
    ∧ Domestic.state v = Domestic.state data
    ∧ Domestic.state_abbrev v = Domestic.state_abbrev data
    ∧ Domestic.lat v = Domestic.lat data
    ∧ Domestic.lng v = Domestic.lng data
    ∧ (Domestic.ambiguous v = Some true
       ↔ ∃ key' data' other,
           (key', data') ∈ places ∧ CensusSetup.named c data'
           ∧ CensusSetup.state_info_of data' = Ok other
           ∧ CensusSetup.state_info_eqb other first = false).
Proof.
  intros c Hbuild Hsaved Hcomma Hloc Hcounty (key0 & data0 & Hin0 & n0 & Hn0 & Hc0).
  pose proof (CensusSetupFacts.build_indexes _ _ Hbuild) as (_ & Hsound & Hcomplete).
  pose proof (CensusSetupFacts.build_several _ _ Hbuild) as Hsev.
  destruct (Hcomplete _ _ Hin0) as (n1 & _ & l & Hn1 & _ & Hget & _).
  rewrite Hn0 in Hn1. injection Hn1 as <-. rewrite Hc0 in Hget.
  destruct (Hsound _ _ Hget)
    as (_ & _ & before & key & data & after & first & Hsplit & Hnamed & Hsi & Hh & Hbefore).
  exists before, key, data, after, first.
  eexists. split_and!; [done..| | | | | | |].
  - apply IndexUse.validate_by_index; [done..| |done].
    by rewrite Hsaved, CensusSetupFacts.saved_lookup.
  - done.
  - by apply IndexUse.state_info_of_Ok in Hsi as (-> & _).
  - by apply IndexUse.state_info_of_Ok in Hsi as (_ & -> & _).
  - by apply IndexUse.state_info_of_Ok in Hsi as (_ & _ & -> & _).
  - by apply IndexUse.state_info_of_Ok in Hsi as (_ & _ & _ & ->).
  - cbn [Domestic.resolved Domestic.ambiguous]. rewrite <- (Hsev _ _ _ Hget Hh).
    split; [intros [= H%bool_decide_eq_true]; done|].
    intros H. by rewrite bool_decide_eq_true_2.
Qed.

Lemma bare_city_takes_first_place_witness :
  ∃ before key data after first v,
    Samples.places = before ++ (key, data) :: after
    ∧ CensusSetup.named (PyStr.strip (PyStr.lower "Springfield")) data
    ∧ Forall (λ p, ¬ CensusSetup.named (PyStr.strip (PyStr.lower "Springfield")) p.2)
             before
    ∧ CensusSetup.state_info_of data = Ok first
    ∧ Domestic.validate_and_geocode Samples.from_places "Springfield" = Some v
    ∧ Domestic.name v = Some "Springfield"
    ∧ Domestic.state v = Domestic.state data
    ∧ Domestic.state_abbrev v = Domestic.state_abbrev data
    ∧ Domestic.lat v = Domestic.lat data
    ∧ Domestic.lng v = Domestic.lng data
    ∧ (Domestic.ambiguous v = Some true
       ↔ ∃ key' data' other,
           (key', data') ∈ Samples.places
           ∧ CensusSetup.named (PyStr.strip (PyStr.lower "Springfield")) data'
           ∧ CensusSetup.state_info_of data' = Ok other
           ∧ CensusSetup.state_info_eqb other first = false).
Proof.
  apply (bare_city_takes_first_place Samples.places Samples.places_index
           Samples.from_places "Springfield").
  - vm_compute. reflexivity.
  - reflexivity.
  - vm_compute. reflexivity.
  - vm_compute. reflexivity.
  - vm_compute. reflexivity.
  - eexists _, _. split; [left|]. eexists. split; [reflexivity|]. vm_compute. reflexivity.
Defined.

(** X17. The disambiguation index of [build_city_to_states_index].  Its
    names are distinct; under a name it lists, without repetition and never
    an empty list, state entries that each come from a place of that name;
    and every place is found under its lower-cased name, with an entry equal
    to its own. *)
Theorem index_sound_and_complete
        (places : list (string * Domestic.info))
        (index : list (string * list Domestic.state_info)) :
  CensusSetup.build_city_to_states_index places = Ok index →
  NoDup (PyDict.keys index)
  ∧ (∀ c l, PyDict.get index c = Some l →
            l ≠ [] ∧ CensusSetup.distinct l
            ∧ ∀ si, si ∈ l →
                    ∃ key data, (key, data) ∈ places ∧ CensusSetup.named c data
                                ∧ CensusSetup.state_info_of data = Ok si)
  ∧ (∀ key data, (key, data) ∈ places →
       ∃ n si l, Domestic.name data = Some n
                 ∧ CensusSetup.state_info_of data = Ok si
                 ∧ PyDict.get index (PyStr.lower n) = Some l
                 ∧ existsb (CensusSetup.state_info_eqb si) l = true).
Proof.
  intros (Hnd & Hsound & Hcomplete)%CensusSetupFacts.build_indexes.
  split_and!; [done | | done].
  intros c l Hl.
  destruct (Hsound _ _ Hl) as (Hd & Hfrom & _ & _ & _ & _ & first & _ & _ & _ & Hh & _).
  split_and!; [by destruct l | done..].
Qed.

Lemma index_sound_and_complete_witness :
  NoDup (PyDict.keys Samples.places_index)
  ∧ (∀ c l, PyDict.get Samples.places_index c = Some l →
            l ≠ [] ∧ CensusSetup.distinct l
            ∧ ∀ si, si ∈ l →
                    ∃ key data, (key, data) ∈ Samples.places ∧ CensusSetup.named c data
                                ∧ CensusSetup.state_info_of data = Ok si)
  ∧ (∀ key data, (key, data) ∈ Samples.places →
       ∃ n si l, Domestic.name data = Some n
                 ∧ CensusSetup.state_info_of data = Ok si
                 ∧ PyDict.get Samples.places_index (PyStr.lower n) = Some l
                 ∧ existsb (CensusSetup.state_info_eqb si) l = true).
Proof.
  apply (index_sound_and_complete Samples.places Samples.places_index).
  vm_compute. reflexivity.
Defined.

(** X18. Errors of [build_city_to_states_index].  It returns an index
    when every place has the keys "name", "state", "state_abbrev", "lat"
    and "lng"; when it fails, it fails with the [KeyError] of one of these
    five, and some place lacks one of them. *)
Theorem index_build_errors (places : list (string * Domestic.info)) :
  (Forall (λ item, CensusSetup.complete item.2) places →
   ∃ index, CensusSetup.build_city_to_states_index places = Ok index)
  ∧ (∀ k, CensusSetup.build_city_to_states_index places = KeyError k →
          k ∈ ["name"; "state"; "state_abbrev"; "lat"; "lng"]
          ∧ ∃ item, item ∈ places ∧ ¬ CensusSetup.complete item.2).
Proof.
  split; [apply CensusSetupFacts.build_total | intros k; apply CensusSetupFacts.build_error].
Qed.

Lemma index_build_errors_witness :
  (∃ index, CensusSetup.build_city_to_states_index Samples.places = Ok index)
  ∧ "name" ∈ ["name"; "state"; "state_abbrev"; "lat"; "lng"]
  ∧ ∃ item, item ∈ [("chicago, illinois", Samples.nameless)]
            ∧ ¬ CensusSetup.complete item.2.
Proof.
  split.
  - apply (proj1 (index_build_errors Samples.places)).
    repeat constructor; vm_compute; eexists; reflexivity.
  - apply (proj2 (index_build_errors [("chicago, illinois", Samples.nameless)]) "name").
    vm_compute. reflexivity.
Defined.

(** * Facts about the country tables *)

Module WorldSetupFacts.
Import WorldSetup.

Lemma get_set {V} k (v : V) d k' :
  PyDict.get (set k v d) k' = if decide (k = k') then Some v else PyDict.get d k'.
Proof.
  induction d as [|[k0 v0] d IH]; cbn [set PyDict.get].
  - destruct (String.eqb_spec k k'); by case_decide.
  - destruct (String.eqb_spec k0 k) as [->|Hk]; cbn [PyDict.get].
    + destruct (String.eqb_spec k k'); by case_decide.
    + rewrite IH. destruct (String.eqb_spec k0 k') as [->|]; [by rewrite decide_False|done].
Qed.

Lemma mem_set {V} k (v : V) d k' :
  PyDict.mem d k' = true → PyDict.mem (set k v d) k' = true.
Proof. unfold PyDict.mem. rewrite get_set. case_decide; [done|]. by destruct (PyDict.get d k'). Qed.

Lemma mem_set_eq {V} k (v : V) d : PyDict.mem (set k v d) k = true.
Proof. unfold PyDict.mem. by rewrite get_set, decide_True. Qed.

Lemma country_line_consistent acc line :
  consistent acc → consistent (country_line acc line).
Proof.
  intros Hacc. unfold country_line. destruct (is_comment line); [done|].
  destruct (PyStr.split _ _) as [|p0 [|p1 [|p2 [|p3 [|p4 rest]]]]]; try done.
  destruct (negb (PyStr.is_empty (PyStr.strip p0))) eqn:Hiso; [|done].
  destruct (negb (PyStr.is_empty (PyStr.strip p4))) eqn:Hname; [|done].
  cbn [andb]. intros n c. cbn [name_to_code code_to_name]. rewrite get_set.
  case_decide as Hn.
  - intros [= <-]. subst n. split_and!.
    + apply PyStrMore.lower_idemp.
    + by apply negb_true_iff.
    + apply mem_set, mem_set_eq.
  - intros Hg. destruct (Hacc _ _ Hg) as (? & ? & ?). split_and!; [done..|].
    by do 2 apply mem_set.
Qed.

Lemma add_alias_consistent acc alias code :
  PyStr.lower alias = alias → PyStr.is_empty code = false →
  consistent acc → consistent (add_alias acc (alias, code)).
Proof.
  intros Hl He Hacc. unfold add_alias. destruct (PyDict.mem _ code) eqn:Hm; [|done].
  intros n c. cbn [name_to_code code_to_name]. rewrite get_set. case_decide as Hn.
  - intros [= <-]. by subst n.
  - apply Hacc.
Qed.

Lemma aliases_lower :
  Forall (λ item, PyStr.lower item.1 = item.1 ∧ PyStr.is_empty item.2 = false) aliases.
Proof. repeat constructor. Qed.

Lemma parse_country_info_consistent lines : consistent (parse_country_info lines).
Proof.
  unfold parse_country_info.
  assert (consistent (foldl country_line no_countries lines)) as Hlines.
  { apply AggregatorFacts.foldl_invariant; [|done].
    intros acc line _. apply country_line_consistent. }
  revert Hlines. generalize (foldl country_line no_countries lines).
  pose proof aliases_lower as Hal. induction Hal as [|[alias code] l [? ?] _ IH];
    intros acc Hacc; [done|].
  cbn [foldl]. apply IH. by apply add_alias_consistent.
Qed.
End WorldSetupFacts.

(** * The names of the candidates of the world extractor *)

Module WorldNames.
Import World.

Section Named.
Variable self : WorldGeographyExtractor.
Hypothesis codes_named :
  ∀ n c, PyDict.get (name_to_code (countries self)) n = Some c →
         PyDict.mem (code_to_name (countries self)) c = true.

Lemma with_code_named city country code c :
  (∀ x, code = Some x → PyDict.mem (code_to_name (countries self)) x = true) →
  c ∈ with_code self city country code →
  PyDict.get (code_to_name (countries self)) c.2 = Some c.1.2.
Proof.
  intros Hcode. unfold with_code. destruct (truthy_str code) eqn:Ht; [|by intros ?%elem_of_nil].
  destruct code as [x|]; [|done]. cbn [default from_option id].
  specialize (Hcode x eq_refl). unfold PyDict.mem in Hcode.
  destruct (PyDict.get (code_to_name (countries self)) x) as [nm|] eqn:Hx; [|done].
  cbn [default from_option id]. destruct (known _ _ _); [|by intros ?%elem_of_nil].
  intros ->%list_elem_of_singleton. exact Hx.
Qed.

Lemma mention_named text m :
  m ∈ find_country_mentions self text →
  PyDict.get (code_to_name (countries self)) m.1.2 = Some m.2.
Proof.
  unfold find_country_mentions. intros [Hm|Hm]%elem_of_app.
  - destruct (_country_pattern self) as [r|]; [|by apply elem_of_nil in Hm].
    apply list_elem_of_In, in_flat_map in Hm as (h & _ & Hm%list_elem_of_In).
    unfold name_mention in Hm.
    destruct (PyDict.get (name_to_code (countries self)) _) as [x|] eqn:Hx;
      [|by apply elem_of_nil in Hm].
    destruct (truthy_str (Some x)); [|by apply elem_of_nil in Hm]. cbn [default from_option id] in Hm.
    pose proof (codes_named _ _ Hx) as Hmem. unfold PyDict.mem in Hmem.
    destruct (PyDict.get (code_to_name (countries self)) x) as [nm|] eqn:Hnm; [|done].
    cbn [default from_option id] in Hm. apply list_elem_of_singleton in Hm as ->. exact Hnm.
  - destruct (_code_pattern self) as [r|]; [|by apply elem_of_nil in Hm].
    apply list_elem_of_In, in_flat_map in Hm as (h & _ & Hm%list_elem_of_In).
    unfold code_mention in Hm.
    destruct (PyDict.get (code_to_name (countries self)) _) as [nm|] eqn:Hnm;
      [|by apply elem_of_nil in Hm].
    destruct (truthy_str (Some nm)); [|by apply elem_of_nil in Hm]. cbn [default from_option id] in Hm.
    apply list_elem_of_singleton in Hm as ->. exact Hnm.
Qed.

Lemma adjacent_named text c :
  c ∈ adjacent self text →
  PyDict.get (code_to_name (countries self)) c.2 = Some c.1.2.
Proof.
  unfold adjacent, code_hits. rewrite !elem_of_app, !list_elem_of_In, !in_flat_map.
  intros [([city country] & _ & Hc)|[([city country] & _ & Hc)|([city code] & _ & Hc)]];
    apply list_elem_of_In in Hc.
  - eapply with_code_named; [|exact Hc]. intros x Hx. by eapply codes_named.
  - unfold city_paren_hit in Hc. eapply with_code_named; [|exact Hc]. intros x.
    destruct (negb _ && PyDict.mem _ _) eqn:Hb.
    + intros [= <-]. by apply andb_true_iff in Hb as [_ ?].
    + intros Hx. by eapply codes_named.
  - by apply WorldFacts.city_code_hit_elem in Hc as (_ & country_name & ? & _ & ->).
Qed.

Lemma extract_named text c :
  c ∈ extract_locations self text →
  PyDict.get (code_to_name (countries self)) c.2 = Some c.1.2.
Proof.
  destruct (WorldFacts.extract_locations_cases self text) as [[_ ->]|(_ & _ & ->)];
    [by intros ?%elem_of_nil|].
  destruct (WorldFacts.with_fallback_spec self (truncated text)
              (adjacent self (truncated text))
              (find_country_mentions self (truncated text))) as (extra & -> & Hj & _).
  intros [Hc|Hc]%elem_of_app; [by eapply adjacent_named|].
  rewrite Forall_forall in Hj.
  destruct (Hj _ Hc) as (_ & _ & country_start & country_end & Hm & _).
  by apply mention_named in Hm.
Qed.
End Named.
End WorldNames.

(** X20. The tables of [parse_country_info] are consistent, whatever the
    lines of [countryInfo.txt]: every key of [name_to_code], alias or not,
    is lower-cased, and the code under it is not empty and is a key of
    [code_to_name]. *)
Theorem country_tables_consistent (lines : list string) (n c : string) :
  PyDict.get (WorldSetup.name_to_code (WorldSetup.parse_country_info lines)) n = Some c →
  PyStr.lower n = n ∧ PyStr.is_empty c = false
  ∧ ∃ name,
      PyDict.get (WorldSetup.code_to_name (WorldSetup.parse_country_info lines)) c
      = Some name.
Proof.
  intros Hg. destruct (WorldSetupFacts.parse_country_info_consistent lines n c Hg)
    as (Hl & He & Hm).
  split; [exact Hl|]. split; [exact He|]. revert Hm. unfold PyDict.mem.
  generalize (WorldSetup.code_to_name (WorldSetup.parse_country_info lines)).
  intros table. destruct (PyDict.get table c) as [name|]; [by exists name | done].
Qed.

Lemma country_tables_consistent_witness :
  PyStr.lower "england" = "england" ∧ PyStr.is_empty "GB" = false
  ∧ ∃ name,
      PyDict.get (WorldSetup.code_to_name
                    (WorldSetup.parse_country_info Samples.country_lines)) "GB"
      = Some name.
Proof.
  apply (country_tables_consistent Samples.country_lines "england" "GB").
  vm_compute. reflexivity.
Defined.

(** X21. With the country tables of [parse_country_info], every candidate
    of the world extractor carries the name that [code_to_name] gives for
    its code: the text matched for the country is never kept as the country
    name. *)
Theorem candidates_carry_table_name
        (lines : list string) (self : World.WorldGeographyExtractor)
        text city country_name country_code :
  World.countries self = WorldSetup.tables (WorldSetup.parse_country_info lines) →
  (city, country_name, country_code) ∈ World.extract_locations self text →
  PyDict.get (World.code_to_name (World.countries self)) country_code
  = Some country_name.
Proof.
  intros Htables Hc.
  apply (WorldNames.extract_named self) in Hc; [exact Hc|].
  intros n c. rewrite Htables. cbn [WorldSetup.tables World.name_to_code World.code_to_name].
  intros Hg. destruct (WorldSetupFacts.parse_country_info_consistent lines n c Hg)
    as (_ & _ & Hm). exact Hm.
Qed.

Lemma candidates_carry_table_name_witness :
  PyDict.get (World.code_to_name (World.countries Samples.from_lines)) "GB"
  = Some "United Kingdom".
Proof.
  apply (candidates_carry_table_name Samples.country_lines Samples.from_lines
           "A letter from London, England" "London").
  - reflexivity.
  - vm_compute. left.
Defined.
